(** * PAIArchitecture: the Garmin data puller and the Kokoro speech server

    A shallow embedding of [skills/FitnessCoach/Tools/GarminSync.py] and
    [VoiceServer/kokoro-server.py].

    - Python values are a tagged union of the JSON-shaped values the two
      scripts handle; a [str] is a string of ASCII characters; a float is a
      binary64 ([PrimFloat]), an int is a [Z].
    - An exception is an error result carrying its class and text.
    - The Garmin client is a function from calls to results; every call is
      appended to a trace, and local variables that a [try] block may leave
      half-updated are threaded as state.
    - A day is its ordinal; [datetime]'s range limits, the login, the
      printing of the report and of warnings are not part of the model.
    - The speech server's handlers are functions from the request to the
      response and the list of engine calls; the engine is a parameter. *)

From Stdlib Require Import ZArith List String Ascii Bool Lia Floats DecimalString.
Import ListNotations.

Set Warnings "-inexact-float,-register-all".
Local Open Scope list_scope.
Local Open Scope string_scope.
Local Open Scope Z_scope.

(* ================================================================= *)
(** ** Python values, exceptions and the builtins the scripts use *)

Module Py.

(** JSON-shaped Python values.  A [str] is a [string] of ASCII characters, a
    [dict] keeps its items in insertion order and has string keys. *)
Inductive pyval : Type :=
| PNone
| PBool (b : bool)
| PInt (n : Z)
| PFloat (x : float)
| PStr (s : string)
| PList (l : list pyval)
| PDict (d : list (string * pyval)).

Inductive exn_kind : Type :=
| AttributeError | TypeError | ValueError | OverflowError
| ZeroDivisionError | KeyError | IndexError | OtherError.

(** An exception: its class and [str(e)].  Message texts follow CPython's
    wording; they differ between versions and no property depends on the text
    of a type error. *)
Record exn : Type := Exn { exn_class : exn_kind; exn_str : string }.

Inductive result (A : Type) : Type :=
| Ok (a : A)
| Raise (e : exn).
Arguments Ok {A} a.
Arguments Raise {A} e.

Definition bind {A B : Type} (m : result A) (k : A -> result B) : result B :=
  match m with
  | Ok a => k a
  | Raise e => Raise e
  end.

Notation "x <- m ;; k" := (bind m (fun x => k))
  (at level 61, m at next level, right associativity).

(** [try: m  except Exception: h] *)
Definition try_except {A : Type} (m : result A) (h : exn -> result A) : result A :=
  match m with
  | Ok a => Ok a
  | Raise e => h e
  end.

Definition type_name (v : pyval) : string :=
  match v with
  | PNone => "NoneType"
  | PBool _ => "bool"
  | PInt _ => "int"
  | PFloat _ => "float"
  | PStr _ => "str"
  | PList _ => "list"
  | PDict _ => "dict"
  end.

(** Truth value testing: [None], [False], zero, and empty containers are
    false. *)
Definition truthy (v : pyval) : bool :=
  match v with
  | PNone => false
  | PBool b => b
  | PInt n => negb (n =? 0)
  | PFloat x => negb (PrimFloat.eqb x 0)
  | PStr s => negb (s =? EmptyString)%string
  | PList l => match l with [] => false | _ => true end
  | PDict d => match d with [] => false | _ => true end
  end.

Definition is_none (v : pyval) : bool :=
  match v with PNone => true | _ => false end.

Definition isinstance_dict (v : pyval) : bool :=
  match v with PDict _ => true | _ => false end.

(** *** Dictionaries *)

Fixpoint lookup (key : string) (d : list (string * pyval)) : option pyval :=
  match d with
  | [] => None
  | (k, v) :: rest => if (k =? key)%string then Some v else lookup key rest
  end.

(** [v.get(key, default)]: only a dict has the method. *)
Definition py_get (v : pyval) (key : string) (default : pyval) : result pyval :=
  match v with
  | PDict d => Ok (match lookup key d with Some x => x | None => default end)
  | _ => Raise (Exn AttributeError
                  ("'" ++ type_name v ++ "' object has no attribute 'get'"))
  end.

(** [v[key]] for a string key. *)
Definition py_getitem (v : pyval) (key : string) : result pyval :=
  match v with
  | PDict d => match lookup key d with
               | Some x => Ok x
               | None => Raise (Exn KeyError ("'" ++ key ++ "'"))
               end
  | PNone | PBool _ | PInt _ | PFloat _ =>
      Raise (Exn TypeError ("'" ++ type_name v ++ "' object is not subscriptable"))
  | PStr _ => Raise (Exn TypeError "string indices must be integers, not 'str'")
  | PList _ => Raise (Exn TypeError "list indices must be integers or slices, not str")
  end.

(** *** Numbers *)

Definition Z_of_bool (b : bool) : Z := if b then 1 else 0.

(** [float(n)] for an int [n]: the nearest binary64 (ties to even), or
    nothing when [n] is too large. *)
Definition float_of_Z (n : Z) : option float :=
  match binary_normalize prec emax n 0 false with
  | S754_infinity _ => None
  | sf => Some (SF2Prim sf)
  end.

(** Integer part of a float, towards zero; nothing for nan and infinities. *)
Definition float_trunc (x : float) : option Z :=
  match Prim2SF x with
  | S754_zero _ => Some 0
  | S754_finite s m e =>
      let a := if 0 <=? e then Z.pos m * 2 ^ e else Z.pos m / 2 ^ (- e) in
      Some (if s then - a else a)
  | S754_infinity _ | S754_nan => None
  end.

(** Nearest integer of a float, ties to the even one. *)
Definition float_round_half_even (x : float) : option Z :=
  match Prim2SF x with
  | S754_zero _ => Some 0
  | S754_finite s m e =>
      let a :=
        if 0 <=? e then Z.pos m * 2 ^ e
        else
          let q := Z.pos m / 2 ^ (- e) in
          let r := Z.pos m mod 2 ^ (- e) in
          match 2 * r ?= 2 ^ (- e) with
          | Lt => q
          | Eq => if Z.even q then q else q + 1
          | Gt => q + 1
          end in
      Some (if s then - a else a)
  | S754_infinity _ | S754_nan => None
  end.

Definition nonfinite_error (what : string) (x : float) : exn :=
  if PrimFloat.is_nan x
  then Exn ValueError ("cannot convert float NaN to " ++ what)
  else Exn OverflowError ("cannot convert float infinity to " ++ what).

(** *** Strings *)

Definition ascii_in (lo hi : nat) (c : ascii) : bool :=
  let n := nat_of_ascii c in ((lo <=? n) && (n <=? hi))%nat.

Definition is_digit : ascii -> bool := ascii_in 48 57.
Definition is_upper : ascii -> bool := ascii_in 65 90.
Definition is_lower : ascii -> bool := ascii_in 97 122.

(** Whitespace as the number readers [int()] and [float()] skip it around a
    literal: tab to carriage return and the space (and, above ASCII, the
    next-line character 133 and the no-break space 160).  The separators 28
    to 31 are whitespace for [str.strip()] only, which the scripts do not
    call without an argument. *)
Definition is_space (c : ascii) : bool :=
  ascii_in 9 13 c || ascii_in 32 32 c || ascii_in 133 133 c || ascii_in 160 160 c.

Definition to_upper (c : ascii) : ascii :=
  if is_lower c then ascii_of_nat (nat_of_ascii c - 32) else c.

Definition to_lower (c : ascii) : ascii :=
  if is_upper c then ascii_of_nat (nat_of_ascii c + 32) else c.

Fixpoint drop_while (p : ascii -> bool) (cs : list ascii) : list ascii :=
  match cs with
  | c :: rest => if p c then drop_while p rest else cs
  | [] => []
  end.

Definition strip_where (p : ascii -> bool) (s : string) : string :=
  string_of_list_ascii
    (rev (drop_while p (rev (drop_while p (list_ascii_of_string s))))).

Fixpoint mem_char (c : ascii) (chars : string) : bool :=
  match chars with
  | EmptyString => false
  | String d rest => Ascii.eqb c d || mem_char c rest
  end.

(** [s.strip(chars)] *)
Definition strip_chars (chars s : string) : string :=
  strip_where (fun c => mem_char c chars) s.

Definition hex_digit (n : nat) : ascii :=
  if (n <? 10)%nat then ascii_of_nat (48 + n) else ascii_of_nat (87 + n).

Definition single_quote : ascii := ascii_of_nat 39.
Definition double_quote : ascii := ascii_of_nat 34.
Definition backslash : ascii := ascii_of_nat 92.

(** One character inside [repr(s)]: the quote in use and the backslash are
    escaped, tab, line feed and carriage return are written with their
    letter, a printable character stands for itself (among the code points
    above 127: 161 to 255 without the soft hyphen 173) and any other is
    written [\xhh]. *)
Definition repr_char (quote c : ascii) : string :=
  let n := nat_of_ascii c in
  if Ascii.eqb c quote || Ascii.eqb c backslash
  then String backslash (String c EmptyString)
  else if (n =? 9)%nat then String backslash "t"
  else if (n =? 10)%nat then String backslash "n"
  else if (n =? 13)%nat then String backslash "r"
  else if ascii_in 32 126 c || (ascii_in 161 255 c && negb (n =? 173)%nat)
  then String c EmptyString
  else String backslash
         (String "x" (String (hex_digit (n / 16))
                        (String (hex_digit (n mod 16)) EmptyString))).

Fixpoint repr_chars (quote : ascii) (s : string) : string :=
  match s with
  | EmptyString => EmptyString
  | String c rest => repr_char quote c ++ repr_chars quote rest
  end.

(** [repr(s)]: between single quotes, or between double quotes when [s]
    has a single quote and no double quote. *)
Definition repr_str (s : string) : string :=
  let quote :=
    if mem_char single_quote s && negb (mem_char double_quote s)
    then double_quote else single_quote in
  String quote (repr_chars quote s ++ String quote EmptyString).

(** [needle in hay] for two strings. *)
Fixpoint contains (needle hay : string) : bool :=
  String.prefix needle hay ||
  match hay with
  | EmptyString => false
  | String _ rest => contains needle rest
  end.

(** [s.replace(a, b)] for one-character [a] and [b]. *)
Fixpoint replace_char (a b : ascii) (s : string) : string :=
  match s with
  | EmptyString => EmptyString
  | String c rest =>
      String (if Ascii.eqb c a then b else c) (replace_char a b rest)
  end.

(** [s.title()]: a letter is upper-cased when the character before it is not
    a letter, lower-cased otherwise. *)
Fixpoint title_from (prev_cased : bool) (s : string) : string :=
  match s with
  | EmptyString => EmptyString
  | String c rest =>
      let cased := is_upper c || is_lower c in
      String (if cased then (if prev_cased then to_lower c else to_upper c) else c)
             (title_from cased rest)
  end.

Definition title : string -> string := title_from false.

(** [str(n)] for an int. *)
Definition str_of_Z (n : Z) : string := NilZero.string_of_int (Z.to_int n).

Fixpoint zeros (k : nat) : string :=
  match k with
  | O => EmptyString
  | S k' => String "0" (zeros k')
  end.

(** [format(n, "02d")]: zero padding to width 2, the sign counts. *)
Definition format_02d (n : Z) : string :=
  let digits := str_of_Z (Z.abs n) in
  if n <? 0
  then "-" ++ zeros (1 - String.length digits) ++ digits
  else zeros (2 - String.length digits) ++ digits.

(** *** Reading numbers from strings *)

Definition digit_val (c : ascii) : Z := Z.of_nat (nat_of_ascii c) - 48.

(** Reads the longest [digit (["_"] digit)*] prefix of [cs], continuing the
    value [acc] and the digit count [n]. *)
Fixpoint read_digits (cs : list ascii) (acc : Z) (n : nat)
  : Z * nat * list ascii :=
  match cs with
  | c :: rest =>
      if is_digit c then read_digits rest (10 * acc + digit_val c) (S n)
      else if Ascii.eqb c "_" && (0 <? n)%nat then
        match rest with
        | d :: _ => if is_digit d then read_digits rest acc n else (acc, n, cs)
        | [] => (acc, n, cs)
        end
      else (acc, n, cs)
  | [] => (acc, n, [])
  end.

Definition read_sign (cs : list ascii) : bool * list ascii :=
  match cs with
  | "-"%char :: rest => (true, rest)
  | "+"%char :: rest => (false, rest)
  | _ => (false, cs)
  end.

Definition invalid_literal (s : string) : exn :=
  Exn ValueError ("invalid literal for int() with base 10: "
                  ++ String.substring 0 200 (repr_str s)).

(** The limit on the digits of an int literal (CPython 3.11). *)
Definition max_str_digits : nat := 4300.

Definition exceeds_limit (digits : nat) : exn :=
  Exn ValueError
      ("Exceeds the limit (" ++ str_of_Z (Z.of_nat max_str_digits)
       ++ " digits) for integer string conversion: value has "
       ++ str_of_Z (Z.of_nat digits)
       ++ " digits; use sys.set_int_max_str_digits() to increase the limit").

(** [int(s)] in base 10: the digits are read first (an underscore that does
    not stand between two digits is an error), then counted against the limit,
    and only then must the literal end. *)
Definition int_of_str (s : string) : result Z :=
  let '(neg, cs) := read_sign (list_ascii_of_string (strip_where is_space s)) in
  match read_digits cs 0 0 with
  | (n, S k, rest) =>
      match rest with
      | "_"%char :: _ => Raise (invalid_literal s)
      | _ =>
          if (max_str_digits <? S k)%nat then Raise (exceeds_limit (S k))
          else match rest with
               | [] => Ok (if neg then - n else n)
               | _ => Raise (invalid_literal s)
               end
      end
  | _ => Raise (invalid_literal s)
  end.

(** The binary64 nearest to [m * 10 ^ e10] for [m >= 0], with sign [neg]. *)
Definition decimal_to_float (neg : bool) (m e10 : Z) : float :=
  match m with
  | Zpos p =>
      if 0 <=? e10
      then SF2Prim (binary_round prec emax neg (Z.to_pos (Zpos p * 10 ^ e10)) 0)
      else SF2Prim (SFdiv prec emax (S754_finite neg p 0)
                          (S754_finite false (Z.to_pos (10 ^ (- e10))) 0))
  | _ => if neg then neg_zero else zero
  end.

Definition read_exponent (cs : list ascii) : option (Z * list ascii) :=
  match cs with
  | c :: rest =>
      if Ascii.eqb (to_lower c) "e" then
        let '(eneg, ds) := read_sign rest in
        match read_digits ds 0 0 with
        | (e, S _, tl) => Some (if eneg then - e else e, tl)
        | _ => None
        end
      else Some (0, cs)
  | [] => Some (0, [])
  end.

(** [float(s)]: decimal literals, [inf], [infinity] and [nan]. *)
Definition float_of_str (s : string) : option float :=
  let '(neg, cs) := read_sign (list_ascii_of_string (strip_where is_space s)) in
  let word := string_of_list_ascii (map to_lower cs) in
  if (word =? "inf")%string || (word =? "infinity")%string
  then Some (if neg then neg_infinity else infinity)
  else if (word =? "nan")%string then Some nan
  else
    let '(ip, ni, r1) := read_digits cs 0 0 in
    let '(m, nf, r2) :=
      match r1 with
      | "."%char :: r => read_digits r ip 0
      | _ => (ip, O, r1)
      end in
    match (ni + nf)%nat, read_exponent r2 with
    | S _, Some (e, []) => Some (decimal_to_float neg m (e - Z.of_nat nf))
    | _, _ => None
    end.

(** *** Conversions and arithmetic on values *)

(** [float(v)] *)
Definition py_float (v : pyval) : result float :=
  match v with
  | PFloat x => Ok x
  | PInt n =>
      match float_of_Z n with
      | Some x => Ok x
      | None => Raise (Exn OverflowError "int too large to convert to float")
      end
  | PBool b => Ok (if b then 1%float else 0%float)
  | PStr s =>
      match float_of_str s with
      | Some x => Ok x
      | None => Raise (Exn ValueError
                         ("could not convert string to float: " ++ repr_str s))
      end
  | _ => Raise (Exn TypeError
                  ("float() argument must be a string or a real number, not '"
                   ++ type_name v ++ "'"))
  end.

(** [int(v)] *)
Definition py_int (v : pyval) : result Z :=
  match v with
  | PInt n => Ok n
  | PBool b => Ok (Z_of_bool b)
  | PFloat x =>
      match float_trunc x with
      | Some n => Ok n
      | None => Raise (nonfinite_error "integer" x)
      end
  | PStr s => int_of_str s
  | _ => Raise (Exn TypeError
                  ("int() argument must be a string, a bytes-like object or a real number, not '"
                   ++ type_name v ++ "'"))
  end.

(** [round(v)] with one argument: an int. *)
Definition py_round (v : pyval) : result Z :=
  match v with
  | PInt n => Ok n
  | PBool b => Ok (Z_of_bool b)
  | PFloat x =>
      match float_round_half_even x with
      | Some n => Ok n
      | None => Raise (nonfinite_error "integer" x)
      end
  | _ => Raise (Exn TypeError
                  ("type " ++ type_name v ++ " doesn't define __round__ method"))
  end.

Definition sf_of_Z (n : Z) : spec_float :=
  match n with
  | Z0 => S754_zero false
  | Zpos p => S754_finite false p 0
  | Zneg p => S754_finite true p 0
  end.

Definition as_int (v : pyval) : option Z :=
  match v with
  | PInt n => Some n
  | PBool b => Some (Z_of_bool b)
  | _ => None
  end.

Definition is_number (v : pyval) : bool :=
  match v with
  | PInt _ | PBool _ | PFloat _ => true
  | _ => false
  end.

(** [a / b]: true division, always a float. *)
Definition py_truediv (a b : pyval) : result float :=
  match as_int a, as_int b with
  | Some x, Some y =>
      if y =? 0 then Raise (Exn ZeroDivisionError "division by zero")
      else match SFdiv prec emax (sf_of_Z x) (sf_of_Z y) with
           | S754_infinity _ =>
               Raise (Exn OverflowError "integer division result too large for a float")
           | q => Ok (SF2Prim q)
           end
  | _, _ =>
      if is_number a && is_number b then
        x <- py_float a ;;
        y <- py_float b ;;
        if PrimFloat.eqb y 0
        then Raise (Exn ZeroDivisionError "float division by zero")
        else Ok (x / y)%float
      else Raise (Exn TypeError
                    ("unsupported operand type(s) for /: '" ++ type_name a
                     ++ "' and '" ++ type_name b ++ "'"))
  end.

(** [round(x, nd)] for a float [x] and [nd >= 0]: the decimal with [nd]
    places nearest to the exact value of [x] (ties to even), as a float. *)
Definition float_round_ndigits (x : float) (nd : Z) : float :=
  match Prim2SF x with
  | S754_finite s m e =>
      let p := 10 ^ nd in
      let k :=
        if 0 <=? e then Z.pos m * 2 ^ e * p
        else
          let q := (Z.pos m * p) / 2 ^ (- e) in
          let r := (Z.pos m * p) mod 2 ^ (- e) in
          match 2 * r ?= 2 ^ (- e) with
          | Lt => q
          | Eq => if Z.even q then q else q + 1
          | Gt => q + 1
          end in
      match k with
      | Zpos kp => SF2Prim (SFdiv prec emax (S754_finite s kp 0)
                                  (S754_finite false (Z.to_pos p) 0))
      | _ => if s then neg_zero else zero
      end
  | _ => x
  end.

(** [a += b] on numbers: an int when both are ints, a float otherwise. *)
Definition py_add (a b : pyval) : result pyval :=
  match as_int a, as_int b with
  | Some x, Some y => Ok (PInt (x + y))
  | _, _ =>
      if is_number a && is_number b then
        x <- py_float a ;;
        y <- py_float b ;;
        Ok (PFloat (x + y)%float)
      else Raise (Exn TypeError
                    ("unsupported operand type(s) for +=: '" ++ type_name a
                     ++ "' and '" ++ type_name b ++ "'"))
  end.

(** [v[:n]] *)
Definition py_slice_to (v : pyval) (n : nat) : result pyval :=
  match v with
  | PStr s => Ok (PStr (String.substring 0 n s))
  | PList l => Ok (PList (firstn n l))
  | PDict _ => Raise (Exn TypeError "unhashable type: 'slice'")
  | _ => Raise (Exn TypeError
                  ("'" ++ type_name v ++ "' object is not subscriptable"))
  end.

Definition is_str (s : string) (v : pyval) : bool :=
  match v with
  | PStr t => (t =? s)%string
  | _ => false
  end.

(** [needle in v] for a string [needle]. *)
Definition py_contains (needle : string) (v : pyval) : result bool :=
  match v with
  | PStr s => Ok (contains needle s)
  | PList l => Ok (existsb (is_str needle) l)
  | PDict d => Ok (match lookup needle d with Some _ => true | None => false end)
  | _ => Raise (Exn TypeError
                  ("argument of type '" ++ type_name v ++ "' is not iterable"))
  end.

(** [list(v)]: the elements a [for] loop or comprehension goes through. *)
Definition py_iter (v : pyval) : result (list pyval) :=
  match v with
  | PList l => Ok l
  | PDict d => Ok (map (fun kv => PStr (fst kv)) d)
  | PStr s => Ok (map (fun c => PStr (String c EmptyString)) (list_ascii_of_string s))
  | _ => Raise (Exn TypeError
                  ("'" ++ type_name v ++ "' object is not iterable"))
  end.

Fixpoint mapM {A B : Type} (f : A -> result B) (l : list A) : result (list B) :=
  match l with
  | [] => Ok []
  | a :: rest =>
      b <- f a ;;
      bs <- mapM f rest ;;
      Ok (b :: bs)
  end.

(** [range(n)] *)
Definition range (n : Z) : list Z := map Z.of_nat (seq 0 (Z.to_nat n)).

(** *** Dates *)

(** A calendar day is its proleptic Gregorian ordinal ([date.toordinal()]);
    subtracting [timedelta(days=i)] subtracts [i].  [strftime_ymd] renders
    it as [%Y-%m-%d].  Day arithmetic is on [Z]: [datetime]'s range limits
    (years 1 to 9999) are not part of the model. *)
Definition civil_of_ordinal (ordinal : Z) : Z * Z * Z :=
  let z := ordinal + 305 in
  let era := z / 146097 in
  let doe := z - era * 146097 in
  let yoe := (doe - doe / 1460 + doe / 36524 - doe / 146096) / 365 in
  let doy := doe - (365 * yoe + yoe / 4 - yoe / 100) in
  let mp := (5 * doy + 2) / 153 in
  let d := doy - (153 * mp + 2) / 5 + 1 in
  let m := if mp <? 10 then mp + 3 else mp - 9 in
  let y := yoe + era * 400 + (if m <=? 2 then 1 else 0) in
  (y, m, d).

Definition strftime_ymd (ordinal : Z) : string :=
  let '(y, m, d) := civil_of_ordinal ordinal in
  str_of_Z y ++ "-" ++ format_02d m ++ "-" ++ format_02d d.

End Py.

(* ================================================================= *)
(** ** GarminSync.py *)

Module GarminSync.
Import Py.

(** *** The Garmin Connect client *)

(** The read calls the script makes, with their date arguments. *)
Inductive call : Type :=
| get_activities_by_date (start_date end_date : string)
| get_sleep_data_of (date : string)
| get_hrv_data_of (date : string)
| get_user_summary (date : string)
| get_morning_training_readiness (date : string)
| get_full_name.

(** A client answers each call with a value or an exception. *)
Definition Client : Type := call -> result pyval.

(** *** Computations: local variables, the trace of client calls, and
    exceptions.  A raised exception keeps the assignments and calls made
    before it. *)
Definition M (L A : Type) : Type := L * list call -> result A * (L * list call).

Definition ret {L A : Type} (a : A) : M L A := fun w => (Ok a, w).

Definition bindM {L A B : Type} (m : M L A) (k : A -> M L B) : M L B :=
  fun w =>
    match m w with
    | (Ok a, w') => k a w'
    | (Raise e, w') => (Raise e, w')
    end.

Notation "x <~ m ;; k" := (bindM m (fun x => k))
  (at level 61, m at next level, right associativity).

Definition lift {L A : Type} (r : result A) : M L A := fun w => (r, w).

Definition get_locals {L : Type} : M L L := fun w => (Ok (fst w), w).

Definition set_locals {L : Type} (l : L) : M L unit := fun w => (Ok tt, (l, snd w)).

(** [try: m  except Exception: h] *)
Definition try_exceptM {L A : Type} (m : M L A) (h : exn -> M L A) : M L A :=
  fun w =>
    match m w with
    | (Ok a, w') => (Ok a, w')
    | (Raise e, w') => h e w'
    end.

(** Runs [m] with fresh locals [init] and returns their final value with
    the result. *)
Definition with_locals {L A : Type} (init : L) (m : M L A) : M unit (A * L) :=
  fun w =>
    match m (init, snd w) with
    | (Ok a, (l, tr)) => (Ok (a, l), (tt, tr))
    | (Raise e, (_, tr)) => (Raise e, (tt, tr))
    end.

Section Run.

Variable client : Client.

(** [datetime.now()], as a day ordinal. *)
Variable today : Z.

Definition api {L : Type} (c : call) : M L pyval :=
  fun w => (client c, (fst w, (snd w ++ [c])%list)).

(** [(datetime.now() - timedelta(days=i)).strftime("%Y-%m-%d")] *)
Definition date_ago (i : Z) : string := strftime_ymd (today - i).

(** *** get_activities *)

Definition get_activities (days : Z) : M unit pyval :=
  let start_date := date_ago days in
  let end_date := date_ago 0 in
  api (get_activities_by_date start_date end_date).

(** *** get_sleep_data *)

(** One iteration of the loop; the local is [sleep_records]. *)
Definition sleep_day (i : Z) : M (list pyval) unit :=
  let target_date := date_ago i in
  try_exceptM
    (sleep_data <~ api (get_sleep_data_of target_date) ;;
     if truthy sleep_data then
       daily_sleep <~ lift (py_get sleep_data "dailySleepDTO" (PDict [])) ;;
       seconds <~ lift (py_get daily_sleep "sleepTimeSeconds" PNone) ;;
       if truthy seconds then
         sleep_records <~ get_locals ;;
         set_locals (sleep_records ++
                       [PDict [("date", PStr target_date); ("raw", sleep_data)]])%list
       else ret tt
     else ret tt)
    (fun _ => ret tt).

Fixpoint sleep_loop (offsets : list Z) : M (list pyval) unit :=
  match offsets with
  | [] => ret tt
  | i :: rest => _ <~ sleep_day i ;; sleep_loop rest
  end.

Definition get_sleep_data (days : Z) : M unit (list pyval) :=
  r <~ with_locals [] (sleep_loop (range days)) ;;
  ret (snd r).

(** *** format_sleep *)

Definition format_sleep (sleep_records : list pyval) : result pyval :=
  match sleep_records with
  | [] => Ok PNone
  | first :: _ =>
      latest <- py_get first "raw" (PDict []) ;;
      daily_sleep <- py_get latest "dailySleepDTO" latest ;;
      date <- py_get first "date" PNone ;;
      sleepTimeSeconds <- py_get daily_sleep "sleepTimeSeconds" PNone ;;
      deepSleepSeconds <- py_get daily_sleep "deepSleepSeconds" PNone ;;
      lightSleepSeconds <- py_get daily_sleep "lightSleepSeconds" PNone ;;
      remSleepSeconds <- py_get daily_sleep "remSleepSeconds" PNone ;;
      awakeSleepSeconds <- py_get daily_sleep "awakeSleepSeconds" PNone ;;
      sleepStart <- py_get daily_sleep "sleepStartTimestampLocal" PNone ;;
      sleepEnd <- py_get daily_sleep "sleepEndTimestampLocal" PNone ;;
      Ok (PDict [("date", date);
                 ("sleepTimeSeconds", sleepTimeSeconds);
                 ("deepSleepSeconds", deepSleepSeconds);
                 ("lightSleepSeconds", lightSleepSeconds);
                 ("remSleepSeconds", remSleepSeconds);
                 ("awakeSleepSeconds", awakeSleepSeconds);
                 ("sleepStartTimestampLocal", sleepStart);
                 ("sleepEndTimestampLocal", sleepEnd)])
  end.

(** *** format_activity *)

Definition meters_per_mile : float := 1609.34%float.

(** [int(v) if v else None] *)
Definition int_or_none (v : pyval) : result pyval :=
  if truthy v then n <- py_int v ;; Ok (PInt n) else Ok PNone.

Definition float_int (x : float) : result Z := py_int (PFloat x).

(** The pace text of a running activity: [f" | {pace_min}:{pace_sec:02d}/mi"]. *)
Definition pace_text (duration distance : float) : result string :=
  let pace := (duration / distance)%float in
  pace_min <- float_int pace ;;
  pace_min_f <- py_float (PInt pace_min) ;;
  pace_sec <- float_int ((pace - pace_min_f) * 60)%float ;;
  Ok (" | " ++ str_of_Z pace_min ++ ":" ++ format_02d pace_sec ++ "/mi").

Definition format_activity (act : pyval) : result pyval :=
  name <- py_get act "activityName" (PStr "Unknown") ;;
  activityType <- py_get act "activityType" (PDict []) ;;
  act_type <- py_get activityType "typeKey" (PStr "unknown") ;;
  startTimeLocal <- py_get act "startTimeLocal" (PStr EmptyString) ;;
  date <- py_slice_to startTimeLocal 10 ;;
  meters <- py_get act "distance" (PInt 0) ;;
  distance <- py_truediv meters (PFloat meters_per_mile) ;;
  seconds <- py_get act "duration" (PInt 0) ;;
  duration <- py_truediv seconds (PInt 60) ;;
  avg_hr <- py_get act "averageHR" (PInt 0) ;;
  max_hr <- py_get act "maxHR" (PInt 0) ;;
  calories <- py_get act "calories" (PInt 0) ;;
  running <- py_contains "running" act_type ;;
  pace_str <- (if running && (0 <? distance)%float
               then pace_text duration distance
               else Ok EmptyString) ;;
  avg_hr' <- int_or_none avg_hr ;;
  max_hr' <- int_or_none max_hr ;;
  calories' <- int_or_none calories ;;
  Ok (PDict [("date", date);
             ("type", act_type);
             ("name", name);
             ("distance_mi", PFloat (float_round_ndigits distance 2));
             ("duration_min", PFloat (float_round_ndigits duration 1));
             ("avg_hr", avg_hr');
             ("max_hr", max_hr');
             ("calories", calories');
             ("pace", if truthy (PStr pace_str)
                      then PStr (strip_chars " |" pace_str)
                      else PNone)]).

(** *** get_hrv_data *)

(** [round(v) if v else None] *)
Definition round_or_none (v : pyval) : result pyval :=
  if truthy v then n <- py_round v ;; Ok (PInt n) else Ok PNone.

(** [v.replace('_', ' ').title()]: only a str has [replace]. *)
Definition replace_title (v : pyval) : result pyval :=
  match v with
  | PStr s => Ok (PStr (title (replace_char "_" " " s)))
  | _ => Raise (Exn AttributeError
                  ("'" ++ type_name v ++ "' object has no attribute 'replace'"))
  end.

(** The record built from a day's [hrvSummary] (the body of the [if]). *)
Definition hrv_record (target_date : string) (hrv_summary : pyval) : result pyval :=
  weekly_avg <- py_get hrv_summary "weeklyAvg" PNone ;;
  last_night_avg <- py_get hrv_summary "lastNightAvg" PNone ;;
  baseline <- py_get hrv_summary "baseline" (PDict []) ;;
  raw_status <- py_get hrv_summary "status" (PStr "Unknown") ;;
  status <- replace_title raw_status ;;
  weeklyAvg <- round_or_none weekly_avg ;;
  lastNightAvg <- round_or_none last_night_avg ;;
  baseline' <- (if truthy baseline then
                  low <- py_get baseline "balancedLow" PNone ;;
                  balancedLow <- round_or_none low ;;
                  upper <- py_get baseline "balancedUpper" PNone ;;
                  balancedUpper <- round_or_none upper ;;
                  Ok (PDict [("balancedLow", balancedLow);
                             ("balancedUpper", balancedUpper)])
                else Ok PNone) ;;
  Ok (PDict [("date", PStr target_date);
             ("weeklyAvg", weeklyAvg);
             ("lastNightAvg", lastNightAvg);
             ("status", status);
             ("baseline", baseline')]).

(** [hrv_response and hrv_response.get('hrvSummary')], as a truth value. *)
Definition has_hrv_summary (hrv_response : pyval) : result bool :=
  if truthy hrv_response then
    s <- py_get hrv_response "hrvSummary" PNone ;;
    Ok (truthy s)
  else Ok false.

Fixpoint hrv_loop (offsets : list Z) : M unit pyval :=
  match offsets with
  | [] => ret PNone
  | i :: rest =>
      let target_date := date_ago i in
      hrv_response <~ api (get_hrv_data_of target_date) ;;
      found <~ lift (has_hrv_summary hrv_response) ;;
      if found : bool then
        hrv_summary <~ lift (py_getitem hrv_response "hrvSummary") ;;
        lift (hrv_record target_date hrv_summary)
      else hrv_loop rest
  end.

(** The warning printed by the handler is not modelled. *)
Definition get_hrv_data (days : Z) : M unit pyval :=
  try_exceptM (hrv_loop (range days)) (fun _ => ret PNone).

(** The default of the [days] parameter of [get_hrv_data]. *)
Definition get_hrv_data_default_days : Z := 7.

(** *** get_recovery_data *)

(** The [recovery] dict, by key, and the local [resting_hr]. *)
Record recovery_vars : Type := {
  score : pyval;
  level : pyval;
  bodyBattery : pyval;
  sleepScore : pyval;
  hrvWeeklyAverage : pyval;
  resting_hr : pyval
}.

Definition recovery_init : recovery_vars :=
  {| score := PNone; level := PNone; bodyBattery := PNone;
     sleepScore := PNone; hrvWeeklyAverage := PNone; resting_hr := PNone |}.

Definition set_score (v : pyval) (r : recovery_vars) : recovery_vars :=
  {| score := v; level := level r; bodyBattery := bodyBattery r;
     sleepScore := sleepScore r; hrvWeeklyAverage := hrvWeeklyAverage r;
     resting_hr := resting_hr r |}.
Definition set_level (v : pyval) (r : recovery_vars) : recovery_vars :=
  {| score := score r; level := v; bodyBattery := bodyBattery r;
     sleepScore := sleepScore r; hrvWeeklyAverage := hrvWeeklyAverage r;
     resting_hr := resting_hr r |}.
Definition set_bodyBattery (v : pyval) (r : recovery_vars) : recovery_vars :=
  {| score := score r; level := level r; bodyBattery := v;
     sleepScore := sleepScore r; hrvWeeklyAverage := hrvWeeklyAverage r;
     resting_hr := resting_hr r |}.
Definition set_sleepScore (v : pyval) (r : recovery_vars) : recovery_vars :=
  {| score := score r; level := level r; bodyBattery := bodyBattery r;
     sleepScore := v; hrvWeeklyAverage := hrvWeeklyAverage r;
     resting_hr := resting_hr r |}.
Definition set_hrvWeeklyAverage (v : pyval) (r : recovery_vars) : recovery_vars :=
  {| score := score r; level := level r; bodyBattery := bodyBattery r;
     sleepScore := sleepScore r; hrvWeeklyAverage := v;
     resting_hr := resting_hr r |}.
Definition set_resting_hr (v : pyval) (r : recovery_vars) : recovery_vars :=
  {| score := score r; level := level r; bodyBattery := bodyBattery r;
     sleepScore := sleepScore r; hrvWeeklyAverage := hrvWeeklyAverage r;
     resting_hr := v |}.

Definition update (f : recovery_vars -> recovery_vars) : M recovery_vars unit :=
  r <~ get_locals ;; set_locals (f r).

(** The first [try] block of an iteration: user summary. *)
Definition summary_part (date : string) : M recovery_vars unit :=
  try_exceptM
    (summary <~ api (get_user_summary date) ;;
     if truthy summary then
       r <~ get_locals ;;
       _ <~ (if is_none (resting_hr r) then
               rhr <~ lift (py_get summary "restingHeartRate" PNone) ;;
               if truthy rhr then
                 rhr' <~ lift (py_get summary "restingHeartRate" PNone) ;;
                 update (set_resting_hr rhr')
               else ret tt
             else ret tt) ;;
       r <~ get_locals ;;
       if is_none (bodyBattery r) then
         bb <~ lift (py_get summary "bodyBatteryMostRecentValue" PNone) ;;
         if negb (is_none bb) then update (set_bodyBattery bb) else ret tt
       else ret tt
     else ret tt)
    (fun _ => ret tt).

(** The second [try] block: training readiness. *)
Definition readiness_part (date : string) : M recovery_vars unit :=
  try_exceptM
    (r <~ get_locals ;;
     if is_none (score r) then
       tr <~ api (get_morning_training_readiness date) ;;
       if truthy tr && isinstance_dict tr then
         v <~ lift (py_get tr "score" PNone) ;;
         _ <~ update (set_score v) ;;
         v <~ lift (py_get tr "level" PNone) ;;
         _ <~ update (set_level v) ;;
         v <~ lift (py_get tr "sleepScore" PNone) ;;
         _ <~ update (set_sleepScore v) ;;
         v <~ lift (py_get tr "hrvWeeklyAverage" PNone) ;;
         update (set_hrvWeeklyAverage v)
       else ret tt
     else ret tt)
    (fun _ => ret tt).

(** The loop's exit test. *)
Definition have_both (r : recovery_vars) : bool :=
  negb (is_none (score r)) && negb (is_none (resting_hr r)).

Fixpoint recovery_loop (offsets : list Z) : M recovery_vars unit :=
  match offsets with
  | [] => ret tt
  | days_ago :: rest =>
      let date := date_ago days_ago in
      _ <~ summary_part date ;;
      _ <~ readiness_part date ;;
      r <~ get_locals ;;
      if have_both r then ret tt else recovery_loop rest
  end.

Definition recovery_dict (r : recovery_vars) : pyval :=
  PDict [("score", score r); ("level", level r);
         ("bodyBattery", bodyBattery r); ("sleepScore", sleepScore r);
         ("hrvWeeklyAverage", hrvWeeklyAverage r)].

(** Returns [(recovery, resting_hr)]. *)
Definition get_recovery_data : M unit (pyval * pyval) :=
  r <~ with_locals recovery_init (recovery_loop (range 7)) ;;
  ret (recovery_dict (snd r), resting_hr (snd r)).

(** *** get_stats *)

(** [round(v, nd)] for [nd >= 0]. *)
Definition round_nd (v : pyval) (nd : Z) : result pyval :=
  match v with
  | PInt n => Ok (PInt n)
  | PBool b => Ok (PInt (Z_of_bool b))
  | PFloat x => Ok (PFloat (float_round_ndigits x nd))
  | _ => Raise (Exn TypeError
                  ("type " ++ type_name v ++ " doesn't define __round__ method"))
  end.

Record stats_vars : Type := {
  running_miles : pyval;
  running_time : pyval;
  strength_sessions : Z;
  yoga_sessions : Z;
  total_calories : pyval;
  total_duration : pyval
}.

Definition stats_init : stats_vars :=
  {| running_miles := PInt 0; running_time := PInt 0; strength_sessions := 0;
     yoga_sessions := 0; total_calories := PInt 0; total_duration := PInt 0 |}.

(** The body of the loop over the activities. *)
Definition stats_step (s : stats_vars) (act : pyval) : result stats_vars :=
  activityType <- py_get act "activityType" (PDict []) ;;
  act_type <- py_get activityType "typeKey" (PStr EmptyString) ;;
  meters <- py_get act "distance" (PInt 0) ;;
  distance <- py_truediv meters (PFloat meters_per_mile) ;;
  seconds <- py_get act "duration" (PInt 0) ;;
  duration <- py_truediv seconds (PInt 60) ;;
  calories <- py_get act "calories" (PInt 0) ;;
  total_duration' <- py_add (total_duration s) (PFloat duration) ;;
  total_calories' <- py_add (total_calories s) calories ;;
  running <- py_contains "running" act_type ;;
  running_miles' <- (if running : bool
                     then py_add (running_miles s) (PFloat distance)
                     else Ok (running_miles s)) ;;
  running_time' <- (if running : bool
                    then py_add (running_time s) (PFloat duration)
                    else Ok (running_time s)) ;;
  strength <- py_contains "strength" act_type ;;
  yoga <- py_contains "yoga" act_type ;;
  Ok {| running_miles := running_miles';
        running_time := running_time';
        strength_sessions := strength_sessions s + Z_of_bool strength;
        yoga_sessions := yoga_sessions s + Z_of_bool yoga;
        total_calories := total_calories';
        total_duration := total_duration' |}.

Fixpoint stats_loop (acts : list pyval) (s : stats_vars) : result stats_vars :=
  match acts with
  | [] => Ok s
  | act :: rest => s' <- stats_step s act ;; stats_loop rest s'
  end.

Definition get_stats (activities : pyval) : result pyval :=
  acts <- py_iter activities ;;
  s <- stats_loop acts stats_init ;;
  miles <- round_nd (running_miles s) 1 ;;
  time <- round_nd (running_time s) 0 ;;
  dur <- round_nd (total_duration s) 0 ;;
  cal <- py_int (total_calories s) ;;
  Ok (PDict [("running_miles", miles);
             ("running_time_min", time);
             ("strength_sessions", PInt (strength_sessions s));
             ("yoga_sessions", PInt (yoga_sessions s));
             ("total_activities", PInt (Z.of_nat (List.length acts)));
             ("total_duration_min", dur);
             ("total_calories", PInt cal)]).

(** *** main *)

(** The [try] block of [main] up to the [result] document, for
    [--days = days], after a successful [get_client()].  An exception here
    ends the run with exit status 1; rendering is not modelled. *)
Definition main_result (days : Z) : M unit pyval :=
  activities <~ get_activities days ;;
  sleep_records <~ get_sleep_data days ;;
  hrv <~ get_hrv_data get_hrv_data_default_days ;;
  rec <~ get_recovery_data ;;
  acts <~ lift (py_iter activities) ;;
  formatted <~ lift (mapM format_activity acts) ;;
  stats <~ lift (get_stats activities) ;;
  sleep <~ lift (format_sleep sleep_records) ;;
  user <~ api get_full_name ;;
  ret (PDict [("user", user);
              ("period_days", PInt days);
              ("recovery", fst rec);
              ("restingHR", snd rec);
              ("hrv", hrv);
              ("sleep", sleep);
              ("stats", stats);
              ("activities", PList formatted)]).

(** Runs a computation from an empty trace. *)
Definition run {A : Type} (m : M unit A) : result A * list call :=
  let '(r, (_, tr)) := m (tt, []) in (r, tr).

(** *** Vocabulary of the specification *)

(** [d.get(key)] on the items of a dict. *)
Definition getd (d : list (string * pyval)) (key : string) : pyval :=
  match lookup key d with
  | Some v => v
  | None => PNone
  end.

(** The provider's answers for the day [i] days ago. *)
Definition sleep_response (i : Z) : result pyval :=
  client (get_sleep_data_of (date_ago i)).
Definition hrv_response (i : Z) : result pyval :=
  client (get_hrv_data_of (date_ago i)).
Definition summary_response (i : Z) : result pyval :=
  client (get_user_summary (date_ago i)).
Definition readiness_response (i : Z) : result pyval :=
  client (get_morning_training_readiness (date_ago i)).

(** "The response has a truthy [dailySleepDTO.sleepTimeSeconds]"; a fetch
    that raised has none. *)
Definition has_sleep_time (r : result pyval) : bool :=
  match r with
  | Ok (PDict d) =>
      match lookup "dailySleepDTO" d with
      | Some (PDict dto) =>
          match lookup "sleepTimeSeconds" dto with
          | Some v => truthy v
          | None => false
          end
      | _ => false
      end
  | _ => false
  end.

Definition keeps_sleep (i : Z) : bool := has_sleep_time (sleep_response i).

(** The entry kept for day [i]. *)
Definition sleep_record (i : Z) : pyval :=
  PDict [("date", PStr (date_ago i));
         ("raw", match sleep_response i with Ok v => v | Raise _ => PNone end)].

(** The [dailySleepDTO] of day [i], and the record [format_sleep] makes of
    it. *)
Definition sleep_dto (i : Z) : list (string * pyval) :=
  match sleep_response i with
  | Ok (PDict d) =>
      match lookup "dailySleepDTO" d with
      | Some (PDict dto) => dto
      | _ => []
      end
  | _ => []
  end.

Definition formatted_sleep (i : Z) : pyval :=
  let dto := sleep_dto i in
  PDict [("date", PStr (date_ago i));
         ("sleepTimeSeconds", getd dto "sleepTimeSeconds");
         ("deepSleepSeconds", getd dto "deepSleepSeconds");
         ("lightSleepSeconds", getd dto "lightSleepSeconds");
         ("remSleepSeconds", getd dto "remSleepSeconds");
         ("awakeSleepSeconds", getd dto "awakeSleepSeconds");
         ("sleepStartTimestampLocal", getd dto "sleepStartTimestampLocal");
         ("sleepEndTimestampLocal", getd dto "sleepEndTimestampLocal")].

(** "The response contains a non-empty [hrvSummary]": that summary. *)
Definition hrv_summary_of (r : result pyval) : option pyval :=
  match r with
  | Ok (PDict d) =>
      match lookup "hrvSummary" d with
      | Some s => if truthy s then Some s else None
      | None => None
      end
  | _ => None
  end.

(** A response without HRV that lets the scan go on: a falsy value, or a
    dict whose [hrvSummary] is missing or falsy. *)
Definition hrv_absent (r : result pyval) : bool :=
  match r with
  | Ok (PDict d) =>
      match lookup "hrvSummary" d with
      | Some s => negb (truthy s)
      | None => true
      end
  | Ok v => negb (truthy v)
  | Raise _ => false
  end.

(** The value [get_hrv_data] returns for a window of [days] days. *)
Definition hrv_result (days : Z) : pyval :=
  match fst (run (get_hrv_data days)) with
  | Ok v => v
  | Raise _ => PNone
  end.
(** The locals and the trace once the recovery loop has gone through the
    first [k] offsets (or has left earlier). *)
Definition world_after (k : Z) : recovery_vars * list call :=
  snd (recovery_loop (range k) (recovery_init, [])).

Definition vars_after (k : Z) : recovery_vars := fst (world_after k).
Definition calls_after (k : Z) : list call := snd (world_after k).

Definition is_summary_call (c : call) : bool :=
  match c with
  | get_user_summary _ => true
  | _ => false
  end.

(** What a user summary contributes to the locals. *)
Definition summary_vars (resp : result pyval) (r : recovery_vars) : recovery_vars :=
  match resp with
  | Ok (PDict ((_ :: _) as d)) =>
      let r1 :=
        if is_none (resting_hr r) && truthy (getd d "restingHeartRate")
        then set_resting_hr (getd d "restingHeartRate") r
        else r in
      if is_none (bodyBattery r1)
         && negb (is_none (getd d "bodyBatteryMostRecentValue"))
      then set_bodyBattery (getd d "bodyBatteryMostRecentValue") r1
      else r1
  | _ => r
  end.

(** The four readiness fields of a response, when it is a non-empty dict. *)
Definition readiness_group (resp : result pyval)
  : option (pyval * pyval * pyval * pyval) :=
  match resp with
  | Ok (PDict ((_ :: _) as d)) =>
      Some (getd d "score", getd d "level", getd d "sleepScore",
            getd d "hrvWeeklyAverage")
  | _ => None
  end.

Definition group_score (g : pyval * pyval * pyval * pyval) : pyval :=
  fst (fst (fst g)).

(** "The readiness response yields a non-null score." *)
Definition yields_score (resp : result pyval) : bool :=
  match readiness_group resp with
  | Some g => negb (is_none (group_score g))
  | None => false
  end.

Definition group_of (r : recovery_vars) : pyval * pyval * pyval * pyval :=
  (score r, level r, sleepScore r, hrvWeeklyAverage r).

Definition set_group (g : pyval * pyval * pyval * pyval) (r : recovery_vars)
  : recovery_vars :=
  let '(s, l, ss, h) := g in
  set_hrvWeeklyAverage h (set_sleepScore ss (set_level l (set_score s r))).

(** What a readiness response contributes when it is consulted. *)
Definition readiness_vars (resp : result pyval) (r : recovery_vars) : recovery_vars :=
  match readiness_group resp with
  | Some g => set_group g r
  | None => r
  end.

(** One iteration of the loop, on the locals and the trace. *)
Definition day_world (i : Z) (w : recovery_vars * list call)
  : recovery_vars * list call :=
  let r1 := summary_vars (summary_response i) (fst w) in
  let tr1 := (snd w ++ [get_user_summary (date_ago i)])%list in
  if is_none (score r1)
  then (readiness_vars (readiness_response i) r1,
        (tr1 ++ [get_morning_training_readiness (date_ago i)])%list)
  else (r1, tr1).

(** "The first non-null value of a readiness field, scanning the offsets in
    order", field by field. *)
Fixpoint first_non_null (field : string) (offsets : list Z) : pyval :=
  match offsets with
  | [] => PNone
  | i :: rest =>
      match readiness_response i with
      | Ok (PDict d) =>
          if is_none (getd d field) then first_non_null field rest
          else getd d field
      | _ => first_non_null field rest
      end
  end.

(** The type key, the distance in miles and the duration in minutes that
    [format_activity] computes from a raw activity. *)
Definition activity_type (act : pyval) : result pyval :=
  activityType <- py_get act "activityType" (PDict []) ;;
  py_get activityType "typeKey" (PStr "unknown").

Definition distance_mi (act : pyval) : result float :=
  meters <- py_get act "distance" (PInt 0) ;;
  py_truediv meters (PFloat meters_per_mile).

Definition duration_min (act : pyval) : result float :=
  seconds <- py_get act "duration" (PInt 0) ;;
  py_truediv seconds (PInt 60).

(** The value under [key] of an output record. *)
Definition field_of (out : pyval) (key : string) : option pyval :=
  match out with
  | PDict fields => lookup key fields
  | _ => None
  end.

(** An optional output field against its raw datum: null exactly when the
    datum is falsy, the converted integer otherwise. *)
Definition optional_int (conv : pyval -> result Z) (raw out : pyval) : Prop :=
  (out = PNone <-> truthy raw = false)
  /\ (truthy raw = true -> exists n, conv raw = Ok n /\ out = PInt n).

End Run.

(** *** Further vocabulary: scans, statistics and the document *)

(** A response the HRV scan cannot use: the call raises, or answers a
    truthy value that is not a dict. *)
Definition hrv_breaks (r : result pyval) : bool :=
  match r with
  | Raise _ => true
  | Ok (PDict _) => false
  | Ok v => truthy v
  end.

Definition is_readiness_call (c : call) : bool :=
  match c with
  | get_morning_training_readiness _ => true
  | _ => false
  end.

(** The type key [get_stats] reads from an activity (its default is the
    empty string), and whether it contains a word. *)
Definition stats_type (act : pyval) : result pyval :=
  activityType <- py_get act "activityType" (PDict []) ;;
  py_get activityType "typeKey" (PStr EmptyString).

Definition has_type (word : string) (act : pyval) : bool :=
  match stats_type act with
  | Ok t => match py_contains word t with Ok b => b | Raise _ => false end
  | Raise _ => false
  end.

Definition count_type (word : string) (acts : list pyval) : Z :=
  Z.of_nat (List.length (filter (has_type word) acts)).

(** The values of [measure] over the running activities, in order. *)
Definition running_values (measure : pyval -> result float) (acts : list pyval)
  : list float :=
  flat_map (fun act => if has_type "running" act
                       then match measure act with Ok x => [x] | Raise _ => [] end
                       else []) acts.

(** [0 + x1 + x2 + ...] from left to right: the int 0 when there is nothing
    to add. *)
Definition float_total (xs : list float) : pyval :=
  match xs with
  | [] => PInt 0
  | x :: rest => PFloat (fold_left PrimFloat.add rest (0 + x)%float)
  end.

(** [acc += x] for each [x] in turn. *)
Fixpoint add_all (acc : pyval) (xs : list float) : result pyval :=
  match xs with
  | [] => Ok acc
  | x :: rest => a <- py_add acc (PFloat x) ;; add_all a rest
  end.

Section Document.

Variable client : Client.
Variable today : Z.

(** The calls of an HRV scan over [offsets]. *)
Definition hrv_calls (offsets : list Z) : list call :=
  map (fun j => get_hrv_data_of (date_ago today j)) offsets.

(** The calls [main] makes up to the recovery scan for [--days = days]: the
    activities, the sleep of each day, the HRV scan of 7 days and the
    recovery scan. *)
Definition fetch_calls (days : Z) : list call :=
  (get_activities_by_date (date_ago today days) (date_ago today 0)
   :: map (fun i => get_sleep_data_of (date_ago today i)) (range days)
   ++ snd (run (get_hrv_data client today get_hrv_data_default_days))
   ++ calls_after client today 7)%list.

(** The sleep entry of the document. *)
Definition sleep_result (days : Z) : pyval :=
  match filter (keeps_sleep client today) (range days) with
  | [] => PNone
  | i :: _ => formatted_sleep client today i
  end.

(** The document [main] builds from the user name, the statistics and the
    formatted activities. *)
Definition document (days : Z) (user stats : pyval) (formatted : list pyval) : pyval :=
  PDict [("user", user);
         ("period_days", PInt days);
         ("recovery", recovery_dict (vars_after client today 7));
         ("restingHR", resting_hr (vars_after client today 7));
         ("hrv", hrv_result client today get_hrv_data_default_days);
         ("sleep", sleep_result days);
         ("stats", stats);
         ("activities", PList formatted)].

End Document.

(** *** Sample providers *)

(** 2026-11-03 *)
Definition sample_today : Z := 739923.

Definition at_offset (i : Z) (date : string) (v : pyval) : result pyval :=
  if (date =? strftime_ymd (sample_today - i))%string then Ok v else Ok PNone.

(** Sleep is recorded only two days ago; the other sleep fetches return an
    empty record, three days ago the fetch fails. *)
Definition sleep_only_day2 : Client := fun c =>
  match c with
  | get_sleep_data_of date =>
      if (date =? strftime_ymd (sample_today - 3))%string
      then Raise (Exn OtherError "connection reset")
      else if (date =? strftime_ymd (sample_today - 2))%string
      then Ok (PDict [("dailySleepDTO",
                       PDict [("sleepTimeSeconds", PInt 27000);
                              ("deepSleepSeconds", PInt 5400)])])
      else Ok (PDict [("dailySleepDTO", PDict [("sleepTimeSeconds", PInt 0)])])
  | get_activities_by_date _ _ => Ok (PList [])
  | get_full_name => Ok (PStr "Max")
  | _ => Ok PNone
  end.

Definition sample_hrv : pyval :=
  PDict [("hrvSummary",
          PDict [("weeklyAvg", PFloat 44.6); ("lastNightAvg", PInt 41);
                 ("status", PStr "LOW_BALANCED");
                 ("baseline", PDict [("balancedLow", PInt 40);
                                     ("balancedUpper", PFloat 55.5)])])].

(** HRV is present only [i] days ago. *)
Definition hrv_only_day (i : Z) : Client := fun c =>
  match c with
  | get_hrv_data_of date => at_offset i date sample_hrv
  | get_activities_by_date _ _ => Ok (PList [])
  | get_full_name => Ok (PStr "Max")
  | _ => Ok PNone
  end.

(** A thirty-minute, five-mile run. *)
Definition run_30min_5mi : pyval :=
  PDict [("activityName", PStr "Morning Run");
         ("activityType", PDict [("typeKey", PStr "running")]);
         ("startTimeLocal", PStr "2026-11-01 07:00:00");
         ("distance", PFloat 8046.7);
         ("duration", PFloat 1800);
         ("averageHR", PFloat 151.6);
         ("maxHR", PInt 0)].

(** Recovery data over three days: the summary fetch fails today, has a
    body battery of 80 but no usable heart rate yesterday, and both two days
    ago; the readiness of today has a level but no score, yesterday's fetch
    fails, two days ago it has a score. *)
Definition recovery_sample : Client := fun c =>
  match c with
  | get_user_summary date =>
      if (date =? strftime_ymd sample_today)%string
      then Raise (Exn OtherError "HTTP 503")
      else if (date =? strftime_ymd (sample_today - 1))%string
      then Ok (PDict [("restingHeartRate", PInt 0);
                      ("bodyBatteryMostRecentValue", PInt 80)])
      else Ok (PDict [("restingHeartRate", PInt 52);
                      ("bodyBatteryMostRecentValue", PInt 20)])
  | get_morning_training_readiness date =>
      if (date =? strftime_ymd sample_today)%string
      then Ok (PDict [("score", PNone); ("level", PStr "HIGH")])
      else if (date =? strftime_ymd (sample_today - 1))%string
      then Raise (Exn OtherError "HTTP 503")
      else if (date =? strftime_ymd (sample_today - 2))%string
      then Ok (PDict [("score", PInt 61); ("sleepScore", PInt 70)])
      else Ok (PDict [("score", PInt 90); ("level", PStr "PRIME")])
  | get_activities_by_date _ _ => Ok (PList [])
  | get_full_name => Ok (PStr "Max")
  | _ => Ok PNone
  end.

Definition formatted_run_30min_5mi : pyval :=
  PDict [("date", PStr "2026-11-01");
         ("type", PStr "running");
         ("name", PStr "Morning Run");
         ("distance_mi", PFloat 5);
         ("duration_min", PFloat 30);
         ("avg_hr", PInt 151);
         ("max_hr", PNone);
         ("calories", PNone);
         ("pace", PStr "6:00/mi")].

(** A walk whose heart rate and calories are reported as 0, and the same
    walk with the three data missing. *)
Definition walk_with_zeros : pyval :=
  PDict [("activityName", PStr "Walk");
         ("averageHR", PInt 0); ("maxHR", PFloat 0); ("calories", PInt 0)].

Definition walk_without_data : pyval :=
  PDict [("activityName", PStr "Walk")].

Definition formatted_walk : pyval :=
  PDict [("date", PStr EmptyString);
         ("type", PStr "unknown");
         ("name", PStr "Walk");
         ("distance_mi", PFloat 0);
         ("duration_min", PFloat 0);
         ("avg_hr", PNone);
         ("max_hr", PNone);
         ("calories", PNone);
         ("pace", PNone)].

Definition sample_hrv_summary : pyval :=
  PDict [("weeklyAvg", PFloat 44.6); ("lastNightAvg", PInt 0);
         ("status", PStr "LOW_BALANCED");
         ("baseline", PDict [("balancedLow", PInt 40);
                             ("balancedUpper", PFloat 55.5)])].

Definition sample_hrv_record : pyval :=
  PDict [("date", PStr "2026-11-03");
         ("weeklyAvg", PInt 45); ("lastNightAvg", PNone);
         ("status", PStr "Low Balanced");
         ("baseline", PDict [("balancedLow", PInt 40);
                             ("balancedUpper", PInt 56)])].

(** The HRV fetch is empty today, fails yesterday, and would have data two
    days ago. *)
Definition hrv_fails_day1 : Client := fun c =>
  match c with
  | get_hrv_data_of date =>
      if (date =? strftime_ymd (sample_today - 1))%string
      then Raise (Exn OtherError "HTTP 503")
      else at_offset 2 date sample_hrv
  | get_activities_by_date _ _ => Ok (PList [])
  | get_full_name => Ok (PStr "Max")
  | _ => Ok PNone
  end.

(** Today's HRV summary has averages and a null status. *)
Definition hrv_null_status : Client := fun c =>
  match c with
  | get_hrv_data_of date =>
      at_offset 0 date
        (PDict [("hrvSummary", PDict [("weeklyAvg", PInt 45); ("status", PNone)])])
  | get_activities_by_date _ _ => Ok (PList [])
  | get_full_name => Ok (PStr "Max")
  | _ => Ok PNone
  end.

(** Every daily fetch fails; the activities and the name are served. *)
Definition provider_down : Client := fun c =>
  match c with
  | get_activities_by_date _ _ => Ok (PList [])
  | get_full_name => Ok (PStr "Max")
  | _ => Raise (Exn OtherError "HTTP 503")
  end.

(** A run, a trail run and a strength session whose distance is null. *)
Definition three_activities : list pyval :=
  [run_30min_5mi;
   PDict [("activityType", PDict [("typeKey", PStr "trail_running")]);
          ("distance", PFloat 3218.68); ("duration", PInt 1200)];
   PDict [("activityType", PDict [("typeKey", PStr "strength_training")]);
          ("duration", PInt 1200)]].

Definition strength_null_distance : list (string * pyval) :=
  [("activityType", PDict [("typeKey", PStr "strength_training")]);
   ("distance", PNone); ("duration", PInt 1200)].

(** The [hrvSummary] of [sample_hrv]. *)
Definition sample_summary : pyval :=
  PDict [("weeklyAvg", PFloat 44.6); ("lastNightAvg", PInt 41);
         ("status", PStr "LOW_BALANCED");
         ("baseline", PDict [("balancedLow", PInt 40);
                             ("balancedUpper", PFloat 55.5)])].

(** The statistics of [three_activities]. *)
Definition three_activities_stats : pyval :=
  PDict [("running_miles", PFloat 7); ("running_time_min", PFloat 50);
         ("strength_sessions", PInt 1); ("yoga_sessions", PInt 0);
         ("total_activities", PInt 3); ("total_duration_min", PFloat 70);
         ("total_calories", PInt 0)].

Definition serves_activities (acts : list pyval) : Client := fun c =>
  match c with
  | get_activities_by_date _ _ => Ok (PList acts)
  | get_full_name => Ok (PStr "Max")
  | _ => Ok PNone
  end.

End GarminSync.

(* ================================================================= *)
(** ** kokoro-server.py *)

Module KokoroServer.
Import Py.

(** The double quote character, as a string. *)
Definition dq : string := String (ascii_of_nat 34) EmptyString.

(** *** JSON payloads and [json.dumps] *)

(** The payloads the handler builds: strings, lists and dicts of them. *)
Inductive json : Type :=
| JStr (s : string)
| JList (l : list json)
| JObj (items : list (string * json)).

(** One character inside a JSON string ([ensure_ascii] is on). *)
Definition escape_char (c : ascii) : string :=
  let n := nat_of_ascii c in
  if (n =? 34)%nat then "\" ++ dq
  else if (n =? 92)%nat then "\\"
  else if (n =? 10)%nat then "\n"
  else if (n =? 13)%nat then "\r"
  else if (n =? 9)%nat then "\t"
  else if (n =? 8)%nat then "\b"
  else if (n =? 12)%nat then "\f"
  else if ascii_in 32 126 c then String c EmptyString
  else "\u00" ++ String (hex_digit (n / 16)) (String (hex_digit (n mod 16)) EmptyString).

Fixpoint escape (s : string) : string :=
  match s with
  | EmptyString => EmptyString
  | String c rest => escape_char c ++ escape rest
  end.

Definition json_str (s : string) : string := dq ++ escape s ++ dq.

Fixpoint json_dumps (j : json) : string :=
  match j with
  | JStr s => json_str s
  | JList l =>
      "[" ++ (fix elems (l : list json) : string :=
                match l with
                | [] => EmptyString
                | [x] => json_dumps x
                | x :: rest => json_dumps x ++ ", " ++ elems rest
                end) l ++ "]"
  | JObj items =>
      "{" ++ (fix members (l : list (string * json)) : string :=
                match l with
                | [] => EmptyString
                | [(k, v)] => json_str k ++ ": " ++ json_dumps v
                | (k, v) :: rest =>
                    json_str k ++ ": " ++ json_dumps v ++ ", " ++ members rest
                end) items ++ "}"
  end.

(** *** Responses *)

Record response : Type := {
  status : Z;
  content_type : string;
  content_length : nat;
  body : string
}.

Definition _json_response (code : Z) (data : json) : response :=
  let body := json_dumps data in
  {| status := code; content_type := "application/json";
     content_length := String.length body; body := body |}.

(** *** do_GET *)

Definition do_GET (path : string) : response :=
  if (path =? "/v1/models")%string then
    _json_response 200
      (JObj [("data", JList [JObj [("id", JStr "kokoro-onnx"); ("object", JStr "model")]])])
  else if (path =? "/health")%string then
    _json_response 200
      (JObj [("status", JStr "healthy"); ("model", JStr "kokoro-onnx-int8");
             ("backend", JStr "onnxruntime")])
  else
    _json_response 200
      (JObj [("message", JStr "Kokoro TTS Server. POST /v1/audio/speech")]).

(** *** do_POST *)

(** A POST request as the handler sees it: its path, and the outcome of
    reading [Content-Length] bytes and [json.loads] on them (an exception
    when the header is not an int or the bytes are not JSON). *)
Record request : Type := {
  path : string;
  body_json : result pyval
}.

(** One call of the synthesis engine:
    [kokoro.create(text, voice=voice, speed=speed, lang="en-us")]. *)
Record engine_call : Type := {
  text : pyval;
  voice : pyval;
  speed : float
}.

Section Handler.

(** The engine and the WAV encoding of its samples ([get_kokoro()],
    [kokoro.create], [sf.write]): the WAV bytes, or an exception. *)
Variable synthesize : engine_call -> result string.

(** The fields read from the body, in the order of the source. *)
Definition read_fields (req : request) : result engine_call :=
  body <- body_json req ;;
  text <- py_get body "input" (PStr EmptyString) ;;
  voice <- py_get body "voice" (PStr "af_heart") ;;
  speed <- py_get body "speed" (PFloat 1%float) ;;
  speed <- py_float speed ;;
  Ok {| text := text; voice := voice; speed := speed |}.

(** The [try] block: the response, or the exception raised, and the engine
    calls made. *)
Definition speech (req : request) : result response * list engine_call :=
  match read_fields req with
  | Raise e => (Raise e, [])
  | Ok c =>
      if negb (truthy (text c)) then
        (Ok (_json_response 400 (JObj [("error", JStr "Missing 'input' field")])), [])
      else
        (wav_bytes <- synthesize c ;;
         Ok {| status := 200; content_type := "audio/wav";
               content_length := String.length wav_bytes; body := wav_bytes |},
         [c])
  end.

Definition do_POST (req : request) : response * list engine_call :=
  if negb (path req =? "/v1/audio/speech")%string then
    (_json_response 404 (JObj [("error", JStr "Not found. Use POST /v1/audio/speech")]), [])
  else
    let '(r, calls) := speech req in
    (match r with
     | Ok resp => resp
     | Raise e => _json_response 500 (JObj [("error", JStr (exn_str e))])
     end, calls).

End Handler.

(** *** log_message *)

(** The arguments [http.server] passes to [log_message]: strings and ints. *)
Inductive log_arg : Type :=
| LStr (s : string)
| LInt (n : Z).

Definition str_of_arg (a : log_arg) : string :=
  match a with
  | LStr s => s
  | LInt n => str_of_Z n
  end.

(** Whether [super().log_message(format, *args)] is called, that is whether
    a line is written to the log. *)
Definition log_message (format : string) (args : list log_arg) : bool :=
  match args with
  | a :: _ => contains "500" (str_of_arg a)
  | [] => false
  end.

(** [format % args] for the directives [%s], [%d] and [%%]; nothing when
    the arguments do not fit. *)
Fixpoint percent_format (format : string) (args : list log_arg) : option string :=
  match format with
  | EmptyString => match args with [] => Some EmptyString | _ => None end
  | String "%" (String "%" rest) =>
      option_map (String "%") (percent_format rest args)
  | String "%" (String "s" rest) =>
      match args with
      | a :: args' => option_map (append (str_of_arg a)) (percent_format rest args')
      | [] => None
      end
  | String "%" (String "d" rest) =>
      match args with
      | LInt n :: args' => option_map (append (str_of_Z n)) (percent_format rest args')
      | _ => None
      end
  | String "%" _ => None
  | String c rest => option_map (String c) (percent_format rest args)
  end.

(** [BaseHTTPRequestHandler.log_request] of the standard library, which
    [send_response] calls for every response:
    [self.log_message('"%s" %s %s', self.requestline, str(code), str(size))]
    with [size] left at ["-"]. *)
Definition log_request_format : string := dq ++ "%s" ++ dq ++ " %s %s".

Definition log_request_args (requestline : string) (code : Z) : list log_arg :=
  [LStr requestline; LStr (str_of_Z code); LStr "-"].

Definition log_request (requestline : string) (code : Z) : bool :=
  log_message log_request_format (log_request_args requestline code).

(** *** Vocabulary of the specification and sample requests *)

(** [body.get(key, default)] on the items of a JSON object. *)
Definition field (d : list (string * pyval)) (key : string) (default : pyval) : pyval :=
  match lookup key d with
  | Some v => v
  | None => default
  end.

Definition speech_request (body : pyval) : request :=
  {| path := "/v1/audio/speech"; body_json := Ok body |}.

(** The body of the 400 response: [{"error": "Missing 'input' field"}]. *)
Definition missing_input_body : string :=
  "{" ++ dq ++ "error" ++ dq ++ ": " ++ dq ++ "Missing 'input' field" ++ dq ++ "}".

(** The JSON text [{"error": "message"}] around a message that is already
    written as the inside of a JSON string. *)
Definition error_json (message : string) : string :=
  "{" ++ dq ++ "error" ++ dq ++ ": " ++ dq ++ message ++ dq ++ "}".

(** A text that a JSON string holds as it is: printable ASCII without the
    double quote and the backslash. *)
Definition plain_char (c : ascii) : bool :=
  ascii_in 32 126 c && negb (Ascii.eqb c double_quote)
  && negb (Ascii.eqb c backslash).

Definition plain (s : string) : bool :=
  forallb plain_char (list_ascii_of_string s).

(** The body of the 404 response and the three bodies of GET. *)
Definition not_found_body : string :=
  error_json "Not found. Use POST /v1/audio/speech".

Definition message_body : string :=
  "{" ++ dq ++ "message" ++ dq ++ ": " ++ dq
  ++ "Kokoro TTS Server. POST /v1/audio/speech" ++ dq ++ "}".

Definition models_body : string :=
  "{" ++ dq ++ "data" ++ dq ++ ": [{" ++ dq ++ "id" ++ dq ++ ": " ++ dq
  ++ "kokoro-onnx" ++ dq ++ ", " ++ dq ++ "object" ++ dq ++ ": " ++ dq
  ++ "model" ++ dq ++ "}]}".

Definition health_body : string :=
  "{" ++ dq ++ "status" ++ dq ++ ": " ++ dq ++ "healthy" ++ dq ++ ", "
  ++ dq ++ "model" ++ dq ++ ": " ++ dq ++ "kokoro-onnx-int8" ++ dq ++ ", "
  ++ dq ++ "backend" ++ dq ++ ": " ++ dq ++ "onnxruntime" ++ dq ++ "}".

(** An engine that always answers with the same four bytes. *)
Definition sample_engine : engine_call -> result string := fun _ => Ok "RIFF".

Definition speech_requestline : string := "POST /v1/audio/speech HTTP/1.1".

(** Only printable ASCII characters. *)
Definition printable (s : string) : bool :=
  forallb (ascii_in 32 126) (list_ascii_of_string s).

(** An engine that rejects every call. *)
Definition failing_engine : engine_call -> result string :=
  fun _ => Raise (Exn ValueError "Voice af_nobody not found in available voices").

(** *** get_kokoro *)

(** What [urllib.request.urlretrieve(url, path)] does: the file arrives, or
    the transfer raises, leaving a partial file at [path] or none. *)
Inductive download : Type :=
| Downloaded
| Interrupted (e : exn) (partial : bool).

(** The effects of [get_kokoro] on the file system, the network and the
    standard output, and the loading of the model, in order. *)
Inductive event : Type :=
| Makedirs (path : string)
| Print (line : string)
| Urlretrieve (url path : string)
| Load (model_path voices_path : string).

Definition model_url : string :=
  "https://github.com/thewh1teagle/kokoro-onnx/releases/download/model-files-v1.0/kokoro-v1.0.int8.onnx".
Definition voices_url : string :=
  "https://github.com/thewh1teagle/kokoro-onnx/releases/download/model-files-v1.0/voices-v1.0.bin".

Section Engine.

(** The type of the loaded model, the home directory, and the outside world:
    the outcome of [from kokoro_onnx import Kokoro],
    [os.makedirs(path, exist_ok=True)], [urlretrieve] and the constructor
    [Kokoro(model_path, voices_path)]. *)
Variable K : Type.
Variable home : string.
Variable import_Kokoro : result unit.
Variable makedirs : string -> result unit.
Variable urlretrieve : string -> string -> download.
Variable Kokoro : string -> string -> result K.

Definition MODEL_DIR : string := home ++ "/.cache/kokoro-onnx".
Definition MODEL_PATH : string := MODEL_DIR ++ "/kokoro-v1.0.int8.onnx".
Definition VOICES_PATH : string := MODEL_DIR ++ "/voices-v1.0.bin".

(** The process: the global [kokoro_instance] and the files that exist. *)
Record process : Type := {
  kokoro_instance : option K;
  files : list string
}.

(** [os.path.exists(path)] *)
Definition path_exists (path : string) (fs : list string) : bool :=
  existsb (String.eqb path) fs.

(** [if not os.path.exists(path): print(message); urlretrieve(url, path)] *)
Definition fetch_if_missing (message url path : string) (fs : list string)
  : result unit * list string * list event :=
  if path_exists path fs then (Ok tt, fs, [])
  else
    match urlretrieve url path with
    | Downloaded => (Ok tt, path :: fs, [Print message; Urlretrieve url path])
    | Interrupted e partial =>
        (Raise e, if partial then path :: fs else fs,
         [Print message; Urlretrieve url path])
    end.

Definition get_kokoro (w : process) : result K * process * list event :=
  match kokoro_instance w with
  | Some k => (Ok k, w, [])
  | None =>
      match import_Kokoro with
      | Raise e => (Raise e, w, [])
      | Ok _ =>
      match makedirs MODEL_DIR with
      | Raise e => (Raise e, w, [Makedirs MODEL_DIR])
      | Ok _ =>
          match fetch_if_missing
                  "Downloading Kokoro model (first time, ~80MB int8)..."
                  model_url MODEL_PATH (files w) with
          | (Raise e, fs1, tr1) =>
              (Raise e, {| kokoro_instance := None; files := fs1 |},
               Makedirs MODEL_DIR :: tr1)
          | (Ok _, fs1, tr1) =>
              match fetch_if_missing "Downloading voice data..."
                      voices_url VOICES_PATH fs1 with
              | (Raise e, fs2, tr2) =>
                  (Raise e, {| kokoro_instance := None; files := fs2 |},
                   Makedirs MODEL_DIR :: (tr1 ++ tr2)%list)
              | (Ok _, fs2, tr2) =>
                  let tr := Makedirs MODEL_DIR
                            :: (tr1 ++ tr2
                                ++ [Print "Loading Kokoro model...";
                                    Load MODEL_PATH VOICES_PATH])%list in
                  match Kokoro MODEL_PATH VOICES_PATH with
                  | Raise e =>
                      (Raise e, {| kokoro_instance := None; files := fs2 |}, tr)
                  | Ok k =>
                      (Ok k, {| kokoro_instance := Some k; files := fs2 |},
                       (tr ++ [Print "Kokoro model ready."])%list)
                  end
              end
          end
      end
      end
  end.

(** The downloads in a trace. *)
Definition downloads (tr : list event) : list string :=
  flat_map (fun ev => match ev with Urlretrieve _ path => [path] | _ => [] end) tr.

Definition loads (tr : list event) : nat :=
  List.length (filter (fun ev => match ev with Load _ _ => true | _ => false end) tr).

End Engine.

(** *** A sample machine *)

(** A world where directories can be made, downloads arrive and the model
    loads (as the number 1), and one where the voices transfer breaks off
    leaving a partial file. *)
Definition sample_home : string := "/home/max".
Definition import_ok : result unit := Ok tt.
Definition makedirs_ok : string -> result unit := fun _ => Ok tt.
Definition network_ok : string -> string -> download := fun _ _ => Downloaded.
Definition network_breaks_on_voices : string -> string -> download :=
  fun url _ =>
    if (url =? voices_url)%string
    then Interrupted (Exn OtherError "retrieval incomplete") true
    else Downloaded.
Definition loads_ok : string -> string -> result nat := fun _ _ => Ok 1%nat.

Definition fresh_process : process nat :=
  {| kokoro_instance := None; files := [] |}.

Definition sample_model_path : string :=
  "/home/max/.cache/kokoro-onnx/kokoro-v1.0.int8.onnx".
Definition sample_voices_path : string :=
  "/home/max/.cache/kokoro-onnx/voices-v1.0.bin".

(** The machine after a first successful call, with only the model file on
    disk, and after the voices transfer broke off. *)
Definition loaded_process : process nat :=
  {| kokoro_instance := Some 1%nat;
     files := [sample_voices_path; sample_model_path] |}.

Definition model_only_process : process nat :=
  {| kokoro_instance := None; files := [sample_model_path] |}.

Definition partial_process : process nat :=
  {| kokoro_instance := None;
     files := [sample_voices_path; sample_model_path] |}.

End KokoroServer.

(* ================================================================= *)
(** ** Facts about the builtins *)

Module PyFacts.
Import Py.

Lemma list_ascii_app (a b : string) :
  list_ascii_of_string (a ++ b) =
  (list_ascii_of_string a ++ list_ascii_of_string b)%list.
Proof.
  induction a as [|c a IH]; simpl; [reflexivity|]. now rewrite IH.
Qed.

Lemma drop_while_head (p : ascii -> bool) (c : ascii) (l : list ascii) :
  p c = false -> drop_while p (c :: l) = c :: l.
Proof. intros H. simpl. now rewrite H. Qed.

(** Stripping leaves a string alone when neither end is in the set. *)
Lemma strip_where_fixed (p : ascii -> bool) (c z : ascii) (mid : list ascii) (s : string) :
  list_ascii_of_string s = (c :: mid ++ [z])%list ->
  p c = false -> p z = false ->
  strip_where p s = s.
Proof.
  intros Hs Hc Hz. unfold strip_where. rewrite Hs.
  rewrite (drop_while_head p c _ Hc).
  change (c :: mid ++ [z])%list with ((c :: mid) ++ [z])%list.
  rewrite rev_app_distr.
  change (rev [z] ++ rev (c :: mid))%list with (z :: rev (c :: mid)).
  rewrite (drop_while_head p z _ Hz).
  change (z :: rev (c :: mid)) with (rev [z] ++ rev (c :: mid))%list.
  rewrite <- rev_app_distr, rev_involutive.
  change ((c :: mid) ++ [z])%list with (c :: mid ++ [z])%list.
  rewrite <- Hs. apply string_of_list_ascii_of_string.
Qed.

Lemma strip_where_drop (p : ascii -> bool) (c : ascii) (s : string) :
  p c = true -> strip_where p (String c s) = strip_where p s.
Proof. intros H. unfold strip_where. simpl. now rewrite H. Qed.

(** [str(n)] starts with a digit or the minus sign. *)
Lemma str_of_Z_head (n : Z) :
  exists c rest, str_of_Z n = String c rest /\ mem_char c " |" = false.
Proof.
  unfold str_of_Z.
  assert (Hu : forall d, exists c rest,
             NilZero.string_of_uint d = String c rest /\ mem_char c " |" = false).
  { intros d. unfold NilZero.string_of_uint.
    destruct d; simpl; eexists; eexists; split; reflexivity. }
  destruct n as [|q|q]; simpl.
  - eexists; eexists; split; reflexivity.
  - apply Hu.
  - eexists; eexists; split; reflexivity.
Qed.

(** The text of a pace survives [strip(' |')] without its separator. *)
Lemma strip_pace (pace_min : Z) (tail : string) :
  strip_chars " |" (" | " ++ str_of_Z pace_min ++ ":" ++ tail ++ "/mi")
  = str_of_Z pace_min ++ ":" ++ tail ++ "/mi".
Proof.
  unfold strip_chars. simpl append at 1.
  rewrite !strip_where_drop by reflexivity.
  destruct (str_of_Z_head pace_min) as (c & rest & Hs & Hc). rewrite Hs.
  apply (strip_where_fixed _ c "i"%char
           (list_ascii_of_string (rest ++ ":" ++ tail) ++ ["/"%char; "m"%char])%list).
  - simpl. f_equal.
    rewrite !list_ascii_app. simpl. rewrite !list_ascii_app. simpl.
    rewrite <- !app_assoc. reflexivity.
  - exact Hc.
  - reflexivity.
Qed.

(** The number readers skip tab to carriage return and the space, not the
    separators 28 to 31; the text of the error shows the string as [repr]
    does. *)
Lemma number_readers_whitespace :
  py_float (PStr (String (ascii_of_nat 9) "1 ")) = Ok 1%float
  /\ py_int (PStr (String (ascii_of_nat 11) "1")) = Ok 1
  /\ py_float (PStr (String (ascii_of_nat 28) "1")) =
     Raise (Exn ValueError "could not convert string to float: '\x1c1'")
  /\ py_int (PStr (String (ascii_of_nat 28) "1")) =
     Raise (Exn ValueError "invalid literal for int() with base 10: '\x1c1'")
  /\ py_float (PStr "it's") =
     Raise (Exn ValueError
              ("could not convert string to float: "
               ++ String double_quote ("it's" ++ String double_quote EmptyString))).
Proof. repeat split; vm_compute; reflexivity. Qed.

End PyFacts.

(* ================================================================= *)
(** ** Properties of GarminSync.py *)

Module GarminSyncFacts.
Import Py GarminSync.

Section Facts.

Variable client : Client.
Variable today : Z.

(** *** Sleep *)

Lemma sleep_day_eq (i : Z) (recs : list pyval) (tr : list call) :
  sleep_day client today i (recs, tr) =
  (Ok tt,
   ((if keeps_sleep client today i
     then recs ++ [sleep_record client today i] else recs)%list,
    (tr ++ [get_sleep_data_of (date_ago today i)])%list)).
Proof.
  unfold sleep_day, keeps_sleep, sleep_record, sleep_response, try_exceptM,
    bindM, api, lift, get_locals, set_locals, ret; simpl.
  destruct (client (get_sleep_data_of (date_ago today i))) as [v|e]; simpl;
    [|reflexivity].
  destruct v as [| b | n | x | s | l | d]; simpl; try reflexivity.
  - destruct b; reflexivity.
  - destruct (n =? 0); reflexivity.
  - destruct (PrimFloat.eqb x 0); reflexivity.
  - destruct (s =? EmptyString)%string; reflexivity.
  - destruct l; reflexivity.
  - destruct d as [|kv d']; [reflexivity|].
    cbv beta iota.
    destruct (lookup "dailySleepDTO" (kv :: d')) as [dto|]; simpl.
    + destruct dto as [| b | n | x | s | l | dto]; simpl; try reflexivity.
      destruct (lookup "sleepTimeSeconds" dto) as [v|]; simpl; [|reflexivity].
      destruct (truthy v); reflexivity.
    + reflexivity.
Qed.

Lemma sleep_loop_eq (offsets : list Z) : forall recs tr,
  sleep_loop client today offsets (recs, tr) =
  (Ok tt,
   ((recs ++ map (sleep_record client today)
                 (filter (keeps_sleep client today) offsets))%list,
    (tr ++ map (fun i => get_sleep_data_of (date_ago today i)) offsets)%list)).
Proof.
  induction offsets as [|i rest IH]; intros recs tr; simpl.
  - unfold ret. now rewrite !app_nil_r.
  - unfold bindM. rewrite sleep_day_eq, IH.
    destruct (keeps_sleep client today i); simpl;
      now rewrite <- !app_assoc.
Qed.

Lemma get_sleep_data_eq (days : Z) :
  run (get_sleep_data client today days) =
  (Ok (map (sleep_record client today)
           (filter (keeps_sleep client today) (range days))),
   map (fun i => get_sleep_data_of (date_ago today i)) (range days)).
Proof.
  unfold run, get_sleep_data, bindM, with_locals. simpl.
  rewrite sleep_loop_eq. reflexivity.
Qed.

(** A kept entry formats without an exception, under its own date. *)
Lemma format_sleep_kept (i : Z) (rest : list pyval) :
  keeps_sleep client today i = true ->
  format_sleep (sleep_record client today i :: rest) =
  Ok (formatted_sleep client today i).
Proof.
  unfold keeps_sleep, has_sleep_time, formatted_sleep, sleep_dto, sleep_record,
    format_sleep.
  destruct (sleep_response client today i) as [v|e]; [|discriminate].
  destruct v as [| b | n | x | s | l | d]; try discriminate.
  simpl.
  destruct (lookup "dailySleepDTO" d) as [dto|]; [|discriminate].
  destruct dto as [| b | n | x | s | l | dto]; try discriminate.
  intros _. reflexivity.
Qed.

Lemma in_range (n i : Z) : In i (range n) <-> 0 <= i < n.
Proof.
  unfold range. rewrite in_map_iff. split.
  - intros (k & <- & Hk). apply in_seq in Hk. lia.
  - intros Hi. exists (Z.to_nat i). split; [lia|]. apply in_seq. lia.
Qed.

Lemma filter_only (f : Z -> bool) (a : Z) (l : list Z) :
  In a l -> (forall i, In i l -> (f i = true <-> i = a)) ->
  exists rest, filter f l = a :: rest.
Proof.
  induction l as [|b l IH]; intros Hin Hf; [contradiction|].
  simpl. destruct (f b) eqn:Hb.
  - apply (Hf b) in Hb; [|now left]. subst b. eauto.
  - apply IH.
    + destruct Hin as [->|Hin]; [|exact Hin].
      assert (f a = true) by (apply Hf; [now left|reflexivity]). congruence.
    + intros i Hi. apply Hf. now right.
Qed.

(** C5: for every [--days] value the sleep fetch asks for the offsets
    [0 .. days-1], today first, and keeps exactly those whose response has a
    truthy [dailySleepDTO.sleepTimeSeconds] (a fetch that raises is skipped),
    in scan order; the formatted sleep record is [null] when nothing is
    kept and otherwise is made of the first kept entry, under its date; when
    only offset 2 qualifies, that date is today minus 2 days. *)
Theorem sleep_selection (days : Z) :
  let kept := filter (keeps_sleep client today) (range days) in
  let sleep_records := map (sleep_record client today) kept in
  run (get_sleep_data client today days) =
    (Ok sleep_records,
     map (fun i => get_sleep_data_of (strftime_ymd (today - i))) (range days))
  /\ format_sleep sleep_records =
     Ok (match kept with
         | [] => PNone
         | i :: _ => formatted_sleep client today i
         end)
  /\ (2 < days ->
      (forall i, 0 <= i < days -> (keeps_sleep client today i = true <-> i = 2)) ->
      exists fields,
        format_sleep sleep_records = Ok (PDict fields)
        /\ lookup "date" fields = Some (PStr (strftime_ymd (today - 2)))).
Proof.
  intros kept sleep_records.
  assert (Hfirst : forall i rest, kept = i :: rest ->
            format_sleep sleep_records = Ok (formatted_sleep client today i)).
  { intros i rest Hk. subst sleep_records. rewrite Hk. simpl map.
    apply format_sleep_kept.
    assert (Hin : In i kept) by (rewrite Hk; now left).
    subst kept. apply filter_In in Hin. tauto. }
  split; [apply get_sleep_data_eq|]. split.
  - destruct kept as [|i rest] eqn:Hk.
    + reflexivity.
    + apply (Hfirst i rest eq_refl).
  - intros Hdays Honly.
    destruct (filter_only (keeps_sleep client today) 2 (range days)) as (rest & Hr).
    + apply in_range. lia.
    + intros i Hi. apply Honly. now apply in_range.
    + eexists. split; [apply (Hfirst 2 rest Hr)|]. reflexivity.
Qed.

(** *** Recovery *)

(** Decides the tests of a goal one after the other. *)
Ltac split_ifs :=
  repeat (cbn; try reflexivity;
          match goal with
          | H : ?b = _ |- context [if ?b then _ else _] => rewrite H
          | |- context [if ?b then _ else _] => destruct b eqn:?
          end).

Lemma summary_part_eq (date : string) (r : recovery_vars) (tr : list call) :
  summary_part client date (r, tr) =
  (Ok tt, (summary_vars (client (get_user_summary date)) r,
           (tr ++ [get_user_summary date])%list)).
Proof.
  unfold summary_part, summary_vars, try_exceptM, bindM, api, lift,
    get_locals, set_locals, update, ret, getd.
  cbn [fst snd].
  destruct (client (get_user_summary date)) as [v|e]; [|reflexivity].
  destruct v as [| b | n | x | s | l | d]; try (destruct d); split_ifs.
Qed.

Lemma readiness_part_eq (date : string) (r : recovery_vars) (tr : list call) :
  readiness_part client date (r, tr) =
  (Ok tt,
   if is_none (score r)
   then (readiness_vars (client (get_morning_training_readiness date)) r,
         (tr ++ [get_morning_training_readiness date])%list)
   else (r, tr)).
Proof.
  unfold readiness_part, readiness_vars, readiness_group, set_group,
    try_exceptM, bindM, api, lift, get_locals, set_locals, update, ret, getd.
  cbn [fst snd].
  destruct (is_none (score r)); [|reflexivity].
  destruct (client (get_morning_training_readiness date)) as [v|e];
    [|reflexivity].
  destruct v as [| b | n | x | s | l | d]; try (destruct d); split_ifs.
Qed.

Lemma recovery_loop_cons (i : Z) (rest : list Z) (w : recovery_vars * list call) :
  recovery_loop client today (i :: rest) w =
  if have_both (fst (day_world client today i w))
  then (Ok tt, day_world client today i w)
  else recovery_loop client today rest (day_world client today i w).
Proof.
  destruct w as [r tr]. simpl. unfold bindM at 1.
  rewrite summary_part_eq. unfold bindM at 1.
  rewrite readiness_part_eq. unfold bindM, get_locals, ret, day_world,
    summary_response, readiness_response.
  cbn [fst snd].
  destruct (is_none (score _)); cbn [fst snd];
    destruct (have_both _); reflexivity.
Qed.

(** The loop never raises. *)
Lemma recovery_loop_ok (offsets : list Z) : forall w,
  fst (recovery_loop client today offsets w) = Ok tt.
Proof.
  induction offsets as [|i rest IH]; intros w; [reflexivity|].
  rewrite recovery_loop_cons. destruct (have_both _); [reflexivity|apply IH].
Qed.

Lemma recovery_loop_app (l1 l2 : list Z) : forall w,
  have_both (fst w) = false ->
  recovery_loop client today (l1 ++ l2) w =
  if have_both (fst (snd (recovery_loop client today l1 w)))
  then recovery_loop client today l1 w
  else recovery_loop client today l2 (snd (recovery_loop client today l1 w)).
Proof.
  induction l1 as [|i l1 IH]; intros w Hw.
  - simpl. now rewrite Hw.
  - change ((i :: l1) ++ l2)%list with (i :: (l1 ++ l2))%list.
    rewrite !recovery_loop_cons.
    destruct (have_both (fst (day_world client today i w))) eqn:Hd.
    + simpl. now rewrite Hd.
    + now apply IH.
Qed.

Lemma range_succ (k : Z) : 0 <= k -> range (k + 1) = (range k ++ [k])%list.
Proof.
  intros Hk. unfold range.
  replace (Z.to_nat (k + 1)) with (S (Z.to_nat k)) by lia.
  rewrite seq_S, map_app. simpl. now rewrite Z2Nat.id.
Qed.

(** The loop, one more offset at a time. *)
Lemma world_after_succ (k : Z) :
  0 <= k ->
  world_after client today (k + 1) =
  if have_both (vars_after client today k)
  then world_after client today k
  else day_world client today k (world_after client today k).
Proof.
  intros Hk. unfold vars_after, world_after.
  rewrite (range_succ k Hk), recovery_loop_app by reflexivity.
  set (w := snd (recovery_loop client today (range k) (recovery_init, []))).
  destruct (have_both (fst w)); [reflexivity|].
  rewrite recovery_loop_cons. cbn [recovery_loop]. unfold ret.
  destruct (have_both (fst (day_world client today k w))); reflexivity.
Qed.

Lemma world_after_0 : world_after client today 0 = (recovery_init, []).
Proof. reflexivity. Qed.

Lemma is_none_false (v : pyval) : is_none v = false <-> v <> PNone.
Proof. destruct v; simpl; split; congruence. Qed.

Lemma summary_vars_group (resp : result pyval) (r : recovery_vars) :
  group_of (summary_vars resp r) = group_of r.
Proof.
  unfold summary_vars.
  destruct resp as [[| | | | | | [|kv d]]|]; try reflexivity.
  cbv zeta.
  destruct (is_none (resting_hr r) && _);
    destruct (is_none (bodyBattery _) && _); reflexivity.
Qed.

Lemma summary_vars_bodyBattery (resp : result pyval) (r : recovery_vars) :
  is_none (bodyBattery r) = false ->
  bodyBattery (summary_vars resp r) = bodyBattery r.
Proof.
  intros Hb. unfold summary_vars.
  destruct resp as [[| | | | | | [|kv d]]|]; try reflexivity.
  cbv zeta.
  destruct (is_none (resting_hr r) && _); cbn [bodyBattery set_resting_hr];
    rewrite Hb; reflexivity.
Qed.

Lemma readiness_vars_bodyBattery (resp : result pyval) (r : recovery_vars) :
  bodyBattery (readiness_vars resp r) = bodyBattery r.
Proof.
  unfold readiness_vars.
  destruct (readiness_group resp) as [[[[s l] ss] h]|]; reflexivity.
Qed.

Lemma readiness_vars_group (resp : result pyval) (r : recovery_vars) :
  group_of (readiness_vars resp r) =
  match readiness_group resp with
  | Some g => g
  | None => group_of r
  end.
Proof.
  unfold readiness_vars.
  destruct (readiness_group resp) as [[[[s l] ss] h]|]; reflexivity.
Qed.

Lemma score_of_group (r : recovery_vars) : score r = group_score (group_of r).
Proof. reflexivity. Qed.

Lemma day_world_bodyBattery (i : Z) (w : recovery_vars * list call) :
  is_none (bodyBattery (fst w)) = false ->
  bodyBattery (fst (day_world client today i w)) = bodyBattery (fst w).
Proof.
  intros Hb. unfold day_world.
  destruct (is_none (score _)); cbn [fst].
  - rewrite readiness_vars_bodyBattery. now apply summary_vars_bodyBattery.
  - now apply summary_vars_bodyBattery.
Qed.

Lemma day_world_group (i : Z) (w : recovery_vars * list call) :
  group_of (fst (day_world client today i w)) =
  if is_none (score (fst w))
  then match readiness_group (readiness_response client today i) with
       | Some g => g
       | None => group_of (fst w)
       end
  else group_of (fst w).
Proof.
  unfold day_world.
  rewrite (score_of_group (summary_vars _ _)), summary_vars_group,
    <- score_of_group.
  destruct (is_none (score (fst w))); cbn [fst].
  - now rewrite readiness_vars_group, summary_vars_group.
  - apply summary_vars_group.
Qed.

Lemma day_world_summary_calls (i : Z) (w : recovery_vars * list call) :
  filter is_summary_call (snd (day_world client today i w)) =
  (filter is_summary_call (snd w) ++ [get_user_summary (date_ago today i)])%list.
Proof.
  unfold day_world.
  destruct (is_none (score _)); cbn [snd]; rewrite !filter_app; simpl;
    now rewrite ?app_nil_r.
Qed.

(** Once the body battery is assigned, no later iteration changes it. *)
Lemma bodyBattery_stable (i : Z) (n : nat) :
  0 <= i ->
  is_none (bodyBattery (vars_after client today i)) = false ->
  bodyBattery (vars_after client today (i + Z.of_nat n)) =
  bodyBattery (vars_after client today i).
Proof.
  intros Hi Hb. induction n as [|n IH].
  - now rewrite Z.add_0_r.
  - replace (i + Z.of_nat (S n)) with (i + Z.of_nat n + 1) by lia.
    unfold vars_after at 1. rewrite world_after_succ by lia.
    destruct (have_both _).
    + exact IH.
    + rewrite day_world_bodyBattery; [exact IH|].
      fold (vars_after client today (i + Z.of_nat n)). now rewrite IH.
Qed.

(** While no readiness response has yielded a score, the score is null. *)
Lemma score_none_before (k : nat) :
  (forall j, 0 <= j < Z.of_nat k ->
     yields_score (readiness_response client today j) = false) ->
  is_none (score (vars_after client today (Z.of_nat k))) = true.
Proof.
  induction k as [|k IH]; intros Hno; [reflexivity|].
  assert (Hk : is_none (score (vars_after client today (Z.of_nat k))) = true)
    by (apply IH; intros j Hj; apply Hno; lia).
  replace (Z.of_nat (S k)) with (Z.of_nat k + 1) by lia.
  unfold vars_after at 1. rewrite world_after_succ by lia.
  unfold have_both. rewrite Hk. cbn [negb andb].
  rewrite score_of_group, day_world_group.
  fold (vars_after client today (Z.of_nat k)). rewrite Hk.
  specialize (Hno (Z.of_nat k) ltac:(lia)). unfold yields_score in Hno.
  destruct (readiness_group _) as [g|].
  - now apply negb_false_iff in Hno.
  - now rewrite <- score_of_group.
Qed.

(** Once the score is assigned, no later iteration changes the group. *)
Lemma group_stable (i : Z) (n : nat) :
  0 <= i ->
  is_none (score (vars_after client today i)) = false ->
  group_of (vars_after client today (i + Z.of_nat n)) =
  group_of (vars_after client today i).
Proof.
  intros Hi Hs. induction n as [|n IH].
  - now rewrite Z.add_0_r.
  - replace (i + Z.of_nat (S n)) with (i + Z.of_nat n + 1) by lia.
    unfold vars_after at 1. rewrite world_after_succ by lia.
    destruct (have_both _).
    + exact IH.
    + rewrite day_world_group.
      fold (vars_after client today (i + Z.of_nat n)).
      rewrite (score_of_group (vars_after _ _ (i + _))), IH, <- score_of_group, Hs.
      reflexivity.
Qed.

Lemma day_world_frame (i : Z) (r : recovery_vars) (tr : list call) :
  day_world client today i (r, tr) =
  (fst (day_world client today i (r, [])),
   (tr ++ snd (day_world client today i (r, [])))%list).
Proof.
  unfold day_world. cbn [fst snd].
  destruct (is_none (score _)); cbn [fst snd app]; [|reflexivity].
  now rewrite <- app_assoc.
Qed.

Lemma recovery_loop_frame (offsets : list Z) : forall r tr,
  recovery_loop client today offsets (r, tr) =
  (Ok tt,
   (fst (snd (recovery_loop client today offsets (r, []))),
    (tr ++ snd (snd (recovery_loop client today offsets (r, []))))%list)).
Proof.
  induction offsets as [|i rest IH]; intros r tr.
  - simpl. unfold ret. now rewrite app_nil_r.
  - rewrite !recovery_loop_cons, (day_world_frame i r tr).
    set (w := day_world client today i (r, [])). cbn [fst].
    destruct (have_both (fst w)).
    + reflexivity.
    + destruct w as [r1 t1]. cbn [fst snd].
      rewrite (IH r1 (tr ++ t1)%list), (IH r1 t1). cbn [fst snd].
      now rewrite app_assoc.
Qed.

Lemma get_recovery_data_frame (tr : list call) :
  get_recovery_data client today (tt, tr) =
  (Ok (recovery_dict (vars_after client today 7),
       resting_hr (vars_after client today 7)),
   (tt, (tr ++ calls_after client today 7)%list)).
Proof.
  unfold get_recovery_data, bindM, with_locals, ret. cbn [snd].
  rewrite recovery_loop_frame. reflexivity.
Qed.

Lemma get_sleep_data_frame (days : Z) (tr : list call) :
  exists recs tr',
    get_sleep_data client today days (tt, tr) = (Ok recs, (tt, tr')).
Proof.
  unfold get_sleep_data, bindM, with_locals, ret. cbn [snd].
  rewrite sleep_loop_eq. eauto.
Qed.

Lemma get_hrv_data_total (days : Z) (tr : list call) :
  exists v tr', get_hrv_data client today days (tt, tr) = (Ok v, (tt, tr')).
Proof.
  unfold get_hrv_data, try_exceptM, ret.
  destruct (hrv_loop client today (range days) (tt, tr)) as [[v|e] [[] tr']];
    eauto.
Qed.

Lemma main_recovery (days : Z) (doc : list (string * pyval)) (tr : list call) :
  run (main_result client today days) = (Ok (PDict doc), tr) ->
  lookup "recovery" doc = Some (recovery_dict (vars_after client today 7))
  /\ lookup "restingHR" doc = Some (resting_hr (vars_after client today 7)).
Proof.
  unfold run, main_result. unfold bindM at 1.
  unfold get_activities, api at 1. cbn [fst snd app].
  destruct (client (get_activities_by_date _ _)) as [acts|e]; [|discriminate].
  unfold bindM at 1.
  destruct (get_sleep_data_frame days [get_activities_by_date (date_ago today days) (date_ago today 0)])
    as (recs & tr1 & ->).
  unfold bindM at 1.
  destruct (get_hrv_data_total get_hrv_data_default_days tr1) as (hrv & tr2 & ->).
  unfold bindM at 1. rewrite get_recovery_data_frame.
  unfold bindM, lift, api, ret. cbn [fst snd].
  destruct (py_iter acts) as [l|e]; [|discriminate].
  destruct (mapM format_activity l) as [f|e]; [|discriminate].
  destruct (get_stats acts) as [st|e]; [|discriminate].
  destruct (format_sleep recs) as [sl|e]; [|discriminate].
  destruct (client get_full_name) as [u|e]; [|discriminate].
  intros H. injection H as <- _. split; reflexivity.
Qed.
(** *** HRV window *)

Lemma hrv_loop_absent (i : Z) (rest : list Z) (tr : list call) :
  hrv_absent (hrv_response client today i) = true ->
  hrv_loop client today (i :: rest) (tt, tr) =
  hrv_loop client today rest (tt, (tr ++ [get_hrv_data_of (date_ago today i)])%list).
Proof.
  unfold hrv_absent, hrv_response. cbn [hrv_loop].
  unfold bindM at 1, api. cbn [fst snd].
  destruct (client (get_hrv_data_of (date_ago today i))) as [v|e]; [|discriminate].
  unfold bindM at 1, lift, has_hrv_summary.
  destruct v as [| b | n | x | s | l | d]; cbn [truthy]; try discriminate;
    try (intros H; apply negb_true_iff in H; rewrite H; reflexivity).
  - reflexivity.
  - destruct d as [|kv d]; [reflexivity|].
    cbn [py_get bind].
    destruct (lookup "hrvSummary" (kv :: d)) as [s|].
    + intros H; apply negb_true_iff in H; rewrite H; reflexivity.
    + reflexivity.
Qed.

Lemma hrv_loop_found (i : Z) (rest : list Z) (tr : list call) (s : pyval) :
  hrv_summary_of (hrv_response client today i) = Some s ->
  hrv_loop client today (i :: rest) (tt, tr) =
  (hrv_record (date_ago today i) s,
   (tt, (tr ++ [get_hrv_data_of (date_ago today i)])%list)).
Proof.
  unfold hrv_summary_of, hrv_response. cbn [hrv_loop].
  unfold bindM at 1, api. cbn [fst snd].
  destruct (client (get_hrv_data_of (date_ago today i))) as [v|e]; [|discriminate].
  destruct v as [| b | n | x | s0 | l | d]; try discriminate.
  destruct (lookup "hrvSummary" d) as [s1|] eqn:Hl; [|discriminate].
  destruct (truthy s1) eqn:Ht; [|discriminate].
  intros H. injection H as <-.
  unfold bindM, lift, has_hrv_summary.
  destruct d as [|kv d]; [discriminate|].
  cbn [truthy py_get py_getitem bind]. rewrite Hl, Ht. reflexivity.
Qed.

(** X12: [get_hrv_data] honours its [days] parameter: the first offset of
    the window with a non-empty [hrvSummary], when the days before it have
    none, gives the record under its date (null when building it raises), and
    a window without HRV gives null. *)
Lemma get_hrv_data_window (days : Z) :
  (forall k s,
     0 <= k < days ->
     (forall j, 0 <= j < k -> hrv_absent (hrv_response client today j) = true) ->
     hrv_summary_of (hrv_response client today k) = Some s ->
     hrv_result client today days =
     match hrv_record (strftime_ymd (today - k)) s with
     | Ok r => r
     | Raise _ => PNone
     end)
  /\ ((forall j, 0 <= j < days -> hrv_absent (hrv_response client today j) = true) ->
      hrv_result client today days = PNone).
Proof.
  assert (Hloop : forall offsets tr,
            (forall j, In j offsets -> hrv_absent (hrv_response client today j) = true) ->
            forall tail,
            hrv_loop client today (offsets ++ tail) (tt, tr) =
            hrv_loop client today tail
              (tt, (tr ++ map (fun j => get_hrv_data_of (date_ago today j)) offsets)%list)).
  { induction offsets as [|j offsets IH]; intros tr Habs tail.
    - simpl. now rewrite app_nil_r.
    - change ((j :: offsets) ++ tail)%list with (j :: (offsets ++ tail))%list.
      rewrite hrv_loop_absent by (apply Habs; now left).
      rewrite IH by (intros; apply Habs; now right).
      simpl. now rewrite <- app_assoc. }
  split.
  - intros k s Hk Habs Hs.
    assert (Hsplit : exists after, range days = (range k ++ k :: after)%list).
    { exists (map Z.of_nat (seq (S (Z.to_nat k)) (Z.to_nat days - S (Z.to_nat k)))).
      unfold range.
      replace (Z.to_nat days)
        with (Z.to_nat k + S (Z.to_nat days - S (Z.to_nat k)))%nat at 1 by lia.
      rewrite seq_app, map_app. simpl. now rewrite Z2Nat.id by lia. }
    destruct Hsplit as (after & Hr).
    unfold hrv_result, run, get_hrv_data, try_exceptM. rewrite Hr, Hloop.
    + rewrite (hrv_loop_found k after _ s Hs). unfold date_ago.
      destruct (hrv_record _ s); reflexivity.
    + intros j Hj. apply Habs. now apply in_range.
  - intros Habs.
    unfold hrv_result, run, get_hrv_data, try_exceptM.
    rewrite <- (app_nil_r (range days)), Hloop.
    + reflexivity.
    + intros j Hj. apply Habs. now apply in_range.
Qed.

Lemma hrv_loop_frame (offsets : list Z) : forall tr,
  fst (hrv_loop client today offsets (tt, tr)) =
  fst (hrv_loop client today offsets (tt, [])).
Proof.
  induction offsets as [|i rest IH]; intros tr; [reflexivity|].
  cbn [hrv_loop]. unfold bindM, api, lift. cbn [fst snd].
  destruct (client (get_hrv_data_of (date_ago today i))) as [v|e]; [|reflexivity].
  destruct (has_hrv_summary v) as [[|]|e]; [| |reflexivity].
  - destruct (py_getitem v "hrvSummary"); reflexivity.
  - rewrite IH. symmetry. apply IH.
Qed.

(** Whatever [--days] is, the [hrv] entry of the document is the result of a
    7-day window. *)
Lemma main_hrv (days : Z) (doc : list (string * pyval)) (tr : list call) :
  run (main_result client today days) = (Ok (PDict doc), tr) ->
  lookup "hrv" doc = Some (hrv_result client today 7).
Proof.
  unfold run, main_result. unfold bindM at 1.
  unfold get_activities, api at 1. cbn [fst snd app].
  destruct (client (get_activities_by_date _ _)) as [acts|e]; [|discriminate].
  unfold bindM at 1.
  destruct (get_sleep_data_frame days
              [get_activities_by_date (date_ago today days) (date_ago today 0)])
    as (recs & tr1 & ->).
  unfold bindM at 1.
  assert (Hhrv : exists tr2,
             get_hrv_data client today get_hrv_data_default_days (tt, tr1) =
             (Ok (hrv_result client today 7), (tt, tr2))).
  { unfold hrv_result, run, get_hrv_data, get_hrv_data_default_days, try_exceptM, ret.
    pose proof (hrv_loop_frame (range 7) tr1) as Hf.
    destruct (hrv_loop client today (range 7) (tt, tr1)) as [r1 [[] t1]].
    destruct (hrv_loop client today (range 7) (tt, [])) as [r0 [[] t0]].
    cbn [fst] in Hf. subst r1. destruct r0; eauto. }
  destruct Hhrv as (tr2 & ->).
  unfold bindM at 1. rewrite get_recovery_data_frame.
  unfold bindM, lift, api, ret. cbn [fst snd].
  destruct (py_iter acts) as [l|e]; [|discriminate].
  destruct (mapM format_activity l) as [f|e]; [|discriminate].
  destruct (get_stats acts) as [st|e]; [|discriminate].
  destruct (format_sleep recs) as [sl|e]; [|discriminate].
  destruct (client get_full_name) as [u|e]; [|discriminate].
  intros H. injection H as <- _. reflexivity.
Qed.
(** *** The recovery scan *)

Lemma get_recovery_data_eq :
  run (get_recovery_data client today) =
  (Ok (recovery_dict (vars_after client today 7),
       resting_hr (vars_after client today 7)),
   calls_after client today 7).
Proof.
  unfold run, get_recovery_data, bindM, with_locals, ret,
    vars_after, calls_after, world_after.
  cbn [snd].
  pose proof (recovery_loop_ok (range 7) (recovery_init, [])) as Hok.
  destruct (recovery_loop client today (range 7) (recovery_init, []))
    as [res [r tr]].
  simpl in Hok. subst res. reflexivity.
Qed.

(** The loop leaves at the first offset after which both values are there. *)
Lemma stop_point (m : nat) :
  (1 <= m)%nat ->
  exists n,
    1 <= n <= Z.of_nat m
    /\ world_after client today (Z.of_nat m) = world_after client today n
    /\ (forall k, 1 <= k < n -> have_both (vars_after client today k) = false)
    /\ (n < Z.of_nat m -> have_both (vars_after client today n) = true).
Proof.
  induction m as [|m IH]; [lia|]. intros _.
  destruct m as [|m].
  - exists 1. repeat split; try lia.
  - destruct IH as (n & Hn & Hw & Hbefore & Hstop); [lia|].
    replace (Z.of_nat (S (S m))) with (Z.of_nat (S m) + 1) by lia.
    rewrite world_after_succ by lia.
    destruct (have_both (vars_after client today (Z.of_nat (S m)))) eqn:Hb.
    + exists n. split; [lia|]. split; [exact Hw|]. split; [exact Hbefore|].
      intros _. unfold vars_after in *. now rewrite <- Hw.
    + assert (n = Z.of_nat (S m)) as ->.
      { destruct (Z.eq_dec n (Z.of_nat (S m))) as [E|E]; [exact E|].
        assert (Hlt : n < Z.of_nat (S m)) by lia.
        apply Hstop in Hlt. unfold vars_after in *. rewrite Hw in Hb.
        congruence. }
      exists (Z.of_nat (S m) + 1). split; [lia|].
      split; [now rewrite world_after_succ, Hb by lia|].
      split; [|lia].
      intros k Hk. destruct (Z.eq_dec k (Z.of_nat (S m))) as [->|E];
        [exact Hb|apply Hbefore; lia].
Qed.

Lemma summary_calls_prefix (n : nat) :
  (forall k, 1 <= k < Z.of_nat n ->
     have_both (vars_after client today k) = false) ->
  filter is_summary_call (calls_after client today (Z.of_nat n)) =
  map (fun i => get_user_summary (date_ago today i)) (range (Z.of_nat n)).
Proof.
  induction n as [|n IH]; intros Hno; [reflexivity|].
  replace (Z.of_nat (S n)) with (Z.of_nat n + 1) by lia.
  unfold calls_after. rewrite world_after_succ, range_succ, map_app by lia.
  assert (Hb : have_both (vars_after client today (Z.of_nat n)) = false).
  { destruct n; [reflexivity|apply Hno; lia]. }
  rewrite Hb, day_world_summary_calls.
  fold (calls_after client today (Z.of_nat n)).
  rewrite IH by (intros k Hk; apply Hno; lia). reflexivity.
Qed.

(** The exit test holds exactly when both values are non-null. *)
Lemma have_both_true (r : recovery_vars) :
  have_both r = true <-> score r <> PNone /\ resting_hr r <> PNone.
Proof.
  unfold have_both. rewrite andb_true_iff, !negb_true_iff. split.
  - intros [Hs Hr]. split; intros E; rewrite E in *; discriminate.
  - intros [Hs Hr]. split.
    + destruct (score r); try reflexivity. now elim Hs.
    + destruct (resting_hr r); try reflexivity. now elim Hr.
Qed.

Lemma have_both_false (r : recovery_vars) :
  have_both r = false <-> score r = PNone \/ resting_hr r = PNone.
Proof.
  unfold have_both. rewrite andb_false_iff, !negb_false_iff. split.
  - intros [Hs | Hr]; [left; destruct (score r) | right; destruct (resting_hr r)];
      try discriminate; reflexivity.
  - intros [-> | ->]; [left | right]; reflexivity.
Qed.

(** C6: the recovery fetch takes no [--days] (whatever [--days] is, the
    document of [main] carries its result); it runs one iteration for each
    of the offsets [0 .. n-1] in order, asking for the user summary of each,
    where [n <= 7] is the first number of days after which both the score and
    the resting heart rate are non-null, or 7 when that never happens; it
    never raises, and a user summary or readiness call that raises leaves the
    values gathered so far as they are. *)
Theorem recovery_scan :
  (exists n,
     1 <= n <= 7
     /\ run (get_recovery_data client today) =
        (Ok (recovery_dict (vars_after client today n),
             resting_hr (vars_after client today n)),
         calls_after client today n)
     /\ filter is_summary_call (calls_after client today n) =
        map (fun i => get_user_summary (strftime_ymd (today - i))) (range n)
     /\ (forall k, 1 <= k < n ->
           score (vars_after client today k) = PNone
           \/ resting_hr (vars_after client today k) = PNone)
     /\ (n < 7 ->
         score (vars_after client today n) <> PNone
         /\ resting_hr (vars_after client today n) <> PNone)
     /\ (forall k, 0 <= k < n ->
           world_after client today (k + 1) =
           day_world client today k (world_after client today k))
     /\ (forall days doc tr,
           run (main_result client today days) = (Ok (PDict doc), tr) ->
           lookup "recovery" doc = Some (recovery_dict (vars_after client today n))
           /\ lookup "restingHR" doc = Some (resting_hr (vars_after client today n))))
  /\ (forall date r tr e,
        client (get_user_summary date) = Raise e ->
        summary_part client date (r, tr) =
        (Ok tt, (r, (tr ++ [get_user_summary date])%list)))
  /\ (forall date r tr e,
        client (get_morning_training_readiness date) = Raise e ->
        fst (readiness_part client date (r, tr)) = Ok tt
        /\ fst (snd (readiness_part client date (r, tr))) = r).
Proof.
  split; [|split].
  - destruct (stop_point 7 ltac:(lia)) as (n & Hn & Hw & Hbefore & Hstop).
    change (Z.of_nat 7) with 7 in *.
    exists n. split; [exact Hn|].
    split; [|split; [|split; [|split; [|split]]]].
    + rewrite get_recovery_data_eq. unfold vars_after, calls_after.
      now rewrite Hw.
    + replace n with (Z.of_nat (Z.to_nat n)) in * by lia.
      apply summary_calls_prefix. exact Hbefore.
    + intros k Hk. apply have_both_false, Hbefore, Hk.
    + intros Hlt. apply have_both_true, Hstop, Hlt.
    + intros k Hk. rewrite world_after_succ by lia.
      destruct (Z.eq_dec k 0) as [->|Hk0]; [reflexivity|].
      now rewrite Hbefore by lia.
    + intros days doc tr Hmain. unfold vars_after. rewrite <- Hw.
      apply (main_recovery days doc tr Hmain).
  - intros date r tr e He. rewrite summary_part_eq, He. reflexivity.
  - intros date r tr e He. rewrite readiness_part_eq, He.
    destruct (is_none (score r)); split; reflexivity.
Qed.

(** C7, as amended: the four readiness fields are taken together from the
    first offset whose readiness response is a non-empty dict with a non-null
    score, each with that day's value (null included); no later iteration
    changes any of them, so they are the values returned. *)
Theorem readiness_group_first_score (k : Z) (g : pyval * pyval * pyval * pyval) :
  0 <= k < 7 ->
  (forall j, 0 <= j < k ->
     yields_score (readiness_response client today j) = false) ->
  readiness_group (readiness_response client today k) = Some g ->
  group_score g <> PNone ->
  (forall m, k < m <= 7 -> group_of (vars_after client today m) = g)
  /\ exists bb rhr,
       fst (run (get_recovery_data client today)) =
       Ok (PDict [("score", group_score g); ("level", snd (fst (fst g)));
                  ("bodyBattery", bb); ("sleepScore", snd (fst g));
                  ("hrvWeeklyAverage", snd g)], rhr).
Proof.
  intros Hk Hno Hg Hs.
  assert (Hall : forall m, k < m <= 7 -> group_of (vars_after client today m) = g).
  { assert (Hk1 : group_of (vars_after client today (k + 1)) = g).
    { pose proof (score_none_before (Z.to_nat k)) as Hnone.
      rewrite Z2Nat.id in Hnone by lia. specialize (Hnone Hno).
      unfold vars_after at 1. rewrite world_after_succ by lia.
      unfold have_both. rewrite Hnone. cbn [negb andb].
      rewrite day_world_group. fold (vars_after client today k).
      now rewrite Hnone, Hg. }
    intros m Hm.
    replace m with (k + 1 + Z.of_nat (Z.to_nat (m - k - 1))) by lia.
    rewrite group_stable; [exact Hk1|lia|].
    rewrite score_of_group, Hk1. now apply is_none_false. }
  split; [exact Hall|].
  exists (bodyBattery (vars_after client today 7)).
  exists (resting_hr (vars_after client today 7)).
  rewrite get_recovery_data_eq. cbn [fst].
  specialize (Hall 7 ltac:(lia)).
  destruct g as [[[s l] ss] h]. unfold group_of in Hall.
  injection Hall as <- <- <- <-. reflexivity.
Qed.

(** C8, as amended: once the body battery has a non-null value no later
    iteration changes it, and it gets its value from the first scanned
    summary that has one. *)
Theorem body_battery_first_value_wins :
  (forall i j, 0 <= i <= j ->
     bodyBattery (vars_after client today i) <> PNone ->
     bodyBattery (vars_after client today j) =
     bodyBattery (vars_after client today i))
  /\ (forall k d,
        0 <= k ->
        have_both (vars_after client today k) = false ->
        bodyBattery (vars_after client today k) = PNone ->
        summary_response client today k = Ok (PDict d) ->
        getd d "bodyBatteryMostRecentValue" <> PNone ->
        bodyBattery (vars_after client today (k + 1)) =
        getd d "bodyBatteryMostRecentValue").
Proof.
  split.
  - intros i j Hij Hb.
    replace j with (i + Z.of_nat (Z.to_nat (j - i))) by lia.
    apply bodyBattery_stable; [lia|]. now apply is_none_false.
  - intros k d Hk Hhb Hnone Hresp Hv.
    unfold vars_after at 1. rewrite world_after_succ, Hhb by lia.
    unfold day_world. rewrite Hresp. fold (vars_after client today k).
    assert (Hbb : bodyBattery (summary_vars (Ok (PDict d)) (vars_after client today k))
                  = getd d "bodyBatteryMostRecentValue").
    { unfold summary_vars. destruct d as [|kv d]; [now elim Hv|].
      cbv zeta. apply is_none_false in Hv.
      destruct (is_none (resting_hr _) && _);
        cbn [bodyBattery set_resting_hr]; rewrite Hnone, Hv; reflexivity. }
    destruct (is_none (score _)); cbn [fst].
    + now rewrite readiness_vars_bodyBattery.
    + exact Hbb.
Qed.

End Facts.

(** *** The theorems on sample providers *)

Lemma sleep_selection_witness :
  exists fields,
    format_sleep
      (map (sleep_record sleep_only_day2 sample_today)
           (filter (keeps_sleep sleep_only_day2 sample_today) (range 7)))
    = Ok (PDict fields)
    /\ lookup "date" fields = Some (PStr "2026-11-01").
Proof.
  destruct (sleep_selection sleep_only_day2 sample_today 7) as (_ & _ & H).
  apply H; [lia|].
  intros i Hi.
  assert (Hc : i = 0 \/ i = 1 \/ i = 2 \/ i = 3 \/ i = 4 \/ i = 5 \/ i = 6) by lia.
  destruct Hc as [-> | [-> | [-> | [-> | [-> | [-> | ->]]]]]];
    vm_compute; split; intros H0; (reflexivity || discriminate H0).
Defined.

Lemma recovery_scan_witness :
  run (get_recovery_data recovery_sample sample_today) =
    (Ok (recovery_dict (vars_after recovery_sample sample_today 3),
         resting_hr (vars_after recovery_sample sample_today 3)),
     calls_after recovery_sample sample_today 3)
  /\ filter is_summary_call (calls_after recovery_sample sample_today 3) =
     [get_user_summary "2026-11-03"; get_user_summary "2026-11-02";
      get_user_summary "2026-11-01"]
  /\ summary_part recovery_sample "2026-11-03" (recovery_init, []) =
     (Ok tt, (recovery_init, [get_user_summary "2026-11-03"]))
  /\ fst (snd (readiness_part recovery_sample "2026-11-02" (recovery_init, [])))
     = recovery_init.
Proof.
  destruct (recovery_scan recovery_sample sample_today)
    as ((n & Hn & Hrun & Hcalls & Hbefore & Hstop & _) & Hs & Hr).
  assert (n = 3) as ->.
  { assert (Hc : n = 1 \/ n = 2 \/ n = 3 \/ 3 < n) by lia.
    destruct Hc as [-> | [-> | [-> | Hlt]]]; [| |reflexivity|].
    - destruct Hstop as [H1 H2]; [lia|]. now elim H2.
    - destruct Hstop as [H1 H2]; [lia|]. now elim H1.
    - destruct (Hbefore 3) as [H|H]; [lia| |]; vm_compute in H; discriminate H. }
  split; [exact Hrun|]. split; [exact Hcalls|]. split.
  - apply (Hs "2026-11-03" recovery_init [] (Exn OtherError "HTTP 503")).
    reflexivity.
  - apply (Hr "2026-11-02" recovery_init [] (Exn OtherError "HTTP 503")).
    reflexivity.
Defined.

Lemma readiness_group_first_score_witness :
  group_of (vars_after recovery_sample sample_today 7) =
  (PInt 61, PNone, PInt 70, PNone).
Proof.
  apply (readiness_group_first_score recovery_sample sample_today 2
           (PInt 61, PNone, PInt 70, PNone)).
  - lia.
  - intros j Hj. assert (Hc : j = 0 \/ j = 1) by lia.
    destruct Hc as [-> | ->]; vm_compute; reflexivity.
  - vm_compute. reflexivity.
  - simpl. discriminate.
  - lia.
Defined.

(** C7 as stated fails: the fields do not each keep their first non-null
    value.  Here today's readiness has a level but no score; the level
    assigned from it is replaced by the null level of the day that brings the
    score. *)
Lemma readiness_fields_not_independent :
  first_non_null recovery_sample sample_today "level" (range 7) = PStr "HIGH"
  /\ level (vars_after recovery_sample sample_today 1) = PStr "HIGH"
  /\ level (vars_after recovery_sample sample_today 7) = PNone
  /\ run (get_recovery_data recovery_sample sample_today) =
     (Ok (PDict [("score", PInt 61); ("level", PNone); ("bodyBattery", PInt 80);
                 ("sleepScore", PInt 70); ("hrvWeeklyAverage", PNone)],
          PInt 52),
      [get_user_summary "2026-11-03";
       get_morning_training_readiness "2026-11-03";
       get_user_summary "2026-11-02";
       get_morning_training_readiness "2026-11-02";
       get_user_summary "2026-11-01";
       get_morning_training_readiness "2026-11-01"]).
Proof. repeat split; vm_compute; reflexivity. Qed.

Lemma body_battery_first_value_wins_witness :
  bodyBattery (vars_after recovery_sample sample_today 7) =
    bodyBattery (vars_after recovery_sample sample_today 2)
  /\ bodyBattery (vars_after recovery_sample sample_today (1 + 1)) = PInt 80.
Proof.
  destruct (body_battery_first_value_wins recovery_sample sample_today)
    as (Hkeep & Hfirst).
  split.
  - apply Hkeep; [lia|]. vm_compute. discriminate.
  - apply (Hfirst 1 [("restingHeartRate", PInt 0);
                     ("bodyBatteryMostRecentValue", PInt 80)]);
      [lia | vm_compute; reflexivity | vm_compute; reflexivity
       | vm_compute; reflexivity | vm_compute; discriminate].
Defined.

(** C8 as stated fails: no provider makes the scan replace a body battery
    it has already assigned. *)
Lemma body_battery_never_overwritten :
  ~ exists (client : Client) (today i j : Z),
      0 <= i < j /\ j <= 7
      /\ bodyBattery (vars_after client today i) <> PNone
      /\ bodyBattery (vars_after client today j) <>
         bodyBattery (vars_after client today i).
Proof.
  intros (client & today & i & j & Hij & _ & Hset & Hdiff).
  apply Hdiff.
  replace j with (i + Z.of_nat (Z.to_nat (j - i))) by lia.
  apply bodyBattery_stable; [lia|]. now apply is_none_false.
Qed.

(** *** Activities *)

(** Takes the first step of a successful sequence of binds. *)
Ltac bind_step H :=
  match type of H with
  | bind ?m _ = Ok _ =>
      first [ match goal with E : m = Ok _ |- _ => rewrite E in H end
            | destruct m eqn:?; [|discriminate H] ];
      unfold bind at 1 in H; cbv beta iota in H
  end.

(** C2, as amended: for an activity whose type string contains "running"
    and whose distance in miles is positive, the pace field is the whole
    minutes of duration/distance (truncated), a colon, the truncated seconds
    of the remainder zero-padded to two places, and the suffix "/mi". *)
Theorem format_activity_pace (act out : pyval) (t : string) (distance duration : float) :
  format_activity act = Ok out ->
  activity_type act = Ok (PStr t) -> contains "running" t = true ->
  distance_mi act = Ok distance -> (0 <? distance)%float = true ->
  duration_min act = Ok duration ->
  exists pace_min pace_min_f pace_sec,
    float_trunc (duration / distance) = Some pace_min
    /\ float_of_Z pace_min = Some pace_min_f
    /\ float_trunc ((duration / distance - pace_min_f) * 60) = Some pace_sec
    /\ field_of out "pace" =
       Some (PStr (str_of_Z pace_min ++ ":" ++ format_02d pace_sec ++ "/mi")).
Proof.
  intros H Ht Hrun Hd Hpos Hm.
  unfold activity_type in Ht. bind_step Ht.
  unfold distance_mi in Hd. bind_step Hd.
  unfold duration_min in Hm. bind_step Hm.
  unfold format_activity in H.
  do 12 bind_step H.
  change (py_contains "running" (PStr t)) with (Ok (contains "running" t)) in H.
  rewrite Hrun in H. unfold bind at 1 in H. cbv beta iota in H.
  rewrite Hpos in H. cbn [andb] in H.
  bind_step H. rename Heqr8 into Hp.
  unfold pace_text in Hp. do 3 bind_step Hp.
  injection Hp as <-.
  do 3 bind_step H. injection H as <-.
  unfold float_int, py_int in Heqr8, Heqr10.
  destruct (float_trunc (duration / distance)) as [pm|] eqn:Hpm; [|discriminate].
  injection Heqr8 as <-.
  unfold py_float in Heqr9.
  destruct (float_of_Z pm) as [pf|] eqn:Hpf; [|discriminate].
  injection Heqr9 as <-.
  destruct (float_trunc ((duration / distance - pf) * 60)) as [ps|] eqn:Hps;
    [|discriminate].
  injection Heqr10 as <-.
  exists pm, pf, ps. repeat split; try assumption.
  cbn -[strip_chars str_of_Z format_02d append].
  do 2 f_equal. apply (PyFacts.strip_pace pm (format_02d ps)).
Qed.

Lemma format_activity_pace_witness :
  exists pace_min pace_min_f pace_sec,
    float_trunc (30 / 5) = Some pace_min
    /\ float_of_Z pace_min = Some pace_min_f
    /\ float_trunc ((30 / 5 - pace_min_f) * 60) = Some pace_sec
    /\ field_of formatted_run_30min_5mi "pace" =
       Some (PStr (str_of_Z pace_min ++ ":" ++ format_02d pace_sec ++ "/mi")).
Proof.
  apply (format_activity_pace run_30min_5mi formatted_run_30min_5mi
           "running" 5 30); vm_compute; reflexivity.
Defined.

(** C2 as stated fails: thirty minutes over five miles give the pace
    "6:00/mi", not "6:00". *)
Lemma pace_30min_5mi_carries_unit :
  duration_min run_30min_5mi = Ok 30%float
  /\ distance_mi run_30min_5mi = Ok 5%float
  /\ exists out,
       format_activity run_30min_5mi = Ok out
       /\ field_of out "pace" = Some (PStr "6:00/mi")
       /\ field_of out "pace" <> Some (PStr "6:00").
Proof.
  split; [vm_compute; reflexivity|]. split; [vm_compute; reflexivity|].
  exists formatted_run_30min_5mi.
  split; [vm_compute; reflexivity|]. split; [reflexivity|].
  simpl. discriminate.
Qed.

Lemma int_or_none_optional (raw out : pyval) :
  int_or_none raw = Ok out -> optional_int py_int raw out.
Proof.
  unfold int_or_none, optional_int. destruct (truthy raw).
  - intros H. bind_step H. injection H as <-.
    split; [split; discriminate|]. intros _. eauto.
  - intros H. injection H as <-. split; [tauto|discriminate].
Qed.

Lemma round_or_none_optional (raw out : pyval) :
  round_or_none raw = Ok out -> optional_int py_round raw out.
Proof.
  unfold round_or_none, optional_int. destruct (truthy raw).
  - intros H. bind_step H. injection H as <-.
    split; [split; discriminate|]. intros _. eauto.
  - intros H. injection H as <-. split; [tauto|discriminate].
Qed.

(** C3, as amended: an optional field of the formatted output is null
    exactly when its datum is falsy in the provider record (missing, null,
    zero or empty) and is the datum converted to an integer otherwise
    ([int] for avg_hr, max_hr and calories, [round] for the HRV fields);
    [balancedLow] and [balancedUpper] exist when [baseline] is truthy, the
    whole [baseline] being null otherwise. *)
Theorem optional_fields :
  (forall act out, format_activity act = Ok out ->
   forall raw_key key,
     In (raw_key, key) [("averageHR", "avg_hr"); ("maxHR", "max_hr");
                        ("calories", "calories")] ->
     exists raw v,
       py_get act raw_key (PInt 0) = Ok raw
       /\ field_of out key = Some v
       /\ optional_int py_int raw v)
  /\ (forall date summary out, hrv_record date summary = Ok out ->
      (forall key, In key ["weeklyAvg"; "lastNightAvg"] ->
         exists raw v,
           py_get summary key PNone = Ok raw
           /\ field_of out key = Some v
           /\ optional_int py_round raw v)
      /\ exists baseline baseline',
           py_get summary "baseline" (PDict []) = Ok baseline
           /\ field_of out "baseline" = Some baseline'
           /\ if truthy baseline
              then forall key, In key ["balancedLow"; "balancedUpper"] ->
                     exists raw v,
                       py_get baseline key PNone = Ok raw
                       /\ field_of baseline' key = Some v
                       /\ optional_int py_round raw v
              else baseline' = PNone).
Proof.
  split.
  - intros act out H raw_key key Hin. unfold format_activity in H.
    do 17 bind_step H. injection H as <-.
    simpl in Hin.
    destruct Hin as [E | [E | [E | []]]]; injection E as <- <-;
      do 2 eexists; (split; [eassumption|]); (split; [reflexivity|]);
      apply int_or_none_optional; assumption.
  - intros date summary out H. unfold hrv_record in H.
    do 8 bind_step H. injection H as <-. split.
    + intros key Hin. simpl in Hin.
      destruct Hin as [<- | [<- | []]];
        do 2 eexists; (split; [eassumption|]); (split; [reflexivity|]);
        apply round_or_none_optional; assumption.
    + do 2 eexists. split; [reflexivity|]. split; [reflexivity|].
      destruct (truthy a1).
      * do 4 bind_step Heqr6. injection Heqr6 as <-.
        intros key Hin. simpl in Hin.
        destruct Hin as [<- | [<- | []]];
          do 2 eexists; (split; [eassumption|]); (split; [reflexivity|]);
          apply round_or_none_optional; assumption.
      * now injection Heqr6 as <-.
Qed.

Lemma optional_fields_witness :
  (exists raw v,
     py_get run_30min_5mi "averageHR" (PInt 0) = Ok raw
     /\ field_of formatted_run_30min_5mi "avg_hr" = Some v
     /\ optional_int py_int raw v)
  /\ (exists raw v,
        py_get sample_hrv_summary "weeklyAvg" PNone = Ok raw
        /\ field_of sample_hrv_record "weeklyAvg" = Some v
        /\ optional_int py_round raw v).
Proof.
  split.
  - apply (proj1 optional_fields run_30min_5mi formatted_run_30min_5mi);
      [vm_compute; reflexivity | simpl; tauto].
  - apply (proj2 optional_fields "2026-11-03" sample_hrv_summary sample_hrv_record);
      [vm_compute; reflexivity | simpl; tauto].
Defined.

(** C3 as stated fails: a heart rate, a calorie count or an HRV average that
    is present with the value 0 is reported as null, exactly as when it is
    missing. *)
Lemma zero_is_reported_as_missing :
  field_of walk_with_zeros "averageHR" = Some (PInt 0)
  /\ field_of walk_without_data "averageHR" = None
  /\ format_activity walk_with_zeros = Ok formatted_walk
  /\ format_activity walk_without_data = Ok formatted_walk
  /\ field_of formatted_walk "avg_hr" = Some PNone
  /\ field_of sample_hrv_summary "lastNightAvg" = Some (PInt 0)
  /\ hrv_record "2026-11-03" sample_hrv_summary = Ok sample_hrv_record
  /\ field_of sample_hrv_record "lastNightAvg" = Some PNone.
Proof. repeat split; vm_compute; reflexivity. Qed.

(** *** HRV *)

(** C1 (a defect of the code): [main] calls [get_hrv_data]
    without [--days], so the HRV window is always 7 days.  With
    [--days 3] and HRV present only 4 days ago the document carries the record
    of today minus 4 (the claim, and [get_hrv_data] given 3, say null); with
    [--days 14] and HRV present only 10 days ago it carries null. *)
Theorem main_hrv_window_ignores_days :
  (exists doc tr,
     run (main_result (hrv_only_day 4) sample_today 3) = (Ok (PDict doc), tr)
     /\ lookup "period_days" doc = Some (PInt 3)
     /\ lookup "hrv" doc =
        Some (PDict [("date", PStr (strftime_ymd (sample_today - 4)));
                     ("weeklyAvg", PInt 45); ("lastNightAvg", PInt 41);
                     ("status", PStr "Low Balanced");
                     ("baseline", PDict [("balancedLow", PInt 40);
                                         ("balancedUpper", PInt 56)])]))
  /\ fst (run (get_hrv_data (hrv_only_day 4) sample_today 3)) = Ok PNone
  /\ (exists doc tr,
        run (main_result (hrv_only_day 10) sample_today 14) = (Ok (PDict doc), tr)
        /\ lookup "period_days" doc = Some (PInt 14)
        /\ lookup "hrv" doc = Some PNone)
  /\ (exists rec,
        fst (run (get_hrv_data (hrv_only_day 10) sample_today 14)) = Ok (PDict rec)
        /\ lookup "date" rec = Some (PStr (strftime_ymd (sample_today - 10)))).
Proof.
  split; [|split; [|split]].
  - eexists. eexists. split; [vm_compute; reflexivity|].
    split; reflexivity.
  - vm_compute. reflexivity.
  - eexists. eexists. split; [vm_compute; reflexivity|].
    split; reflexivity.
  - eexists. split; [vm_compute; reflexivity|]. reflexivity.
Qed.


(** *** Further properties of the scans *)

Section ScanFacts.

Variable client : Client.
Variable today : Z.

Lemma range_split (days k : Z) :
  0 <= k < days -> exists after, range days = (range k ++ k :: after)%list.
Proof.
  intros Hk.
  exists (map Z.of_nat (seq (S (Z.to_nat k)) (Z.to_nat days - S (Z.to_nat k)))).
  unfold range.
  replace (Z.to_nat days)
    with (Z.to_nat k + S (Z.to_nat days - S (Z.to_nat k)))%nat at 1 by lia.
  rewrite seq_app, map_app. simpl. now rewrite Z2Nat.id by lia.
Qed.

Lemma hrv_loop_skip (offsets tail : list Z) : forall tr,
  (forall j, In j offsets -> hrv_absent (hrv_response client today j) = true) ->
  hrv_loop client today (offsets ++ tail) (tt, tr) =
  hrv_loop client today tail (tt, (tr ++ hrv_calls today offsets)%list).
Proof.
  induction offsets as [|j offsets IH]; intros tr Habs.
  - simpl. now rewrite app_nil_r.
  - change ((j :: offsets) ++ tail)%list with (j :: (offsets ++ tail))%list.
    rewrite hrv_loop_absent by (apply Habs; now left).
    rewrite IH by (intros; apply Habs; now right).
    unfold hrv_calls. simpl. now rewrite <- app_assoc.
Qed.

Lemma hrv_loop_breaks (i : Z) (rest : list Z) (tr : list call) :
  hrv_breaks (hrv_response client today i) = true ->
  exists e,
    hrv_loop client today (i :: rest) (tt, tr) =
    (Raise e, (tt, (tr ++ [get_hrv_data_of (date_ago today i)])%list)).
Proof.
  unfold hrv_breaks, hrv_response. cbn [hrv_loop].
  unfold bindM, api, lift, has_hrv_summary. cbn [fst snd].
  destruct (client (get_hrv_data_of (date_ago today i))) as [v|e].
  - destruct v; cbn [truthy]; try discriminate; intros ->;
      cbn [py_get bind]; eexists; reflexivity.
  - intros _. eexists. reflexivity.
Qed.

(** X13: a day whose HRV call raises, or answers a truthy value that is
    not a dict, ends the scan: the result is null and no older day is asked,
    even one that has HRV (unlike the sleep fetch, which skips the day). *)
Theorem hrv_scan_stops_at_failure (days k : Z) :
  0 <= k < days ->
  (forall j, 0 <= j < k -> hrv_absent (hrv_response client today j) = true) ->
  hrv_breaks (hrv_response client today k) = true ->
  run (get_hrv_data client today days) =
  (Ok PNone,
   map (fun j => get_hrv_data_of (strftime_ymd (today - j))) (range (k + 1))).
Proof.
  intros Hk Habs Hbr.
  destruct (range_split days k Hk) as (after & Hr).
  unfold run, get_hrv_data, try_exceptM. rewrite Hr, hrv_loop_skip.
  - destruct (hrv_loop_breaks k after ([] ++ hrv_calls today (range k)) Hbr) as (e & ->).
    unfold ret. rewrite range_succ, map_app by lia. reflexivity.
  - intros j Hj. apply Habs. now apply in_range.
Qed.

(** X14: the HRV scan makes one call per offset, today first, and none
    beyond the first offset that has a non-empty [hrvSummary]; without any
    it makes exactly [days] calls. *)
Theorem hrv_scan_calls (days : Z) :
  (forall k s,
     0 <= k < days ->
     (forall j, 0 <= j < k -> hrv_absent (hrv_response client today j) = true) ->
     hrv_summary_of (hrv_response client today k) = Some s ->
     snd (run (get_hrv_data client today days)) =
     map (fun j => get_hrv_data_of (strftime_ymd (today - j))) (range (k + 1)))
  /\ ((forall j, 0 <= j < days -> hrv_absent (hrv_response client today j) = true) ->
      snd (run (get_hrv_data client today days)) =
      map (fun j => get_hrv_data_of (strftime_ymd (today - j))) (range days)).
Proof.
  split.
  - intros k s Hk Habs Hs.
    destruct (range_split days k Hk) as (after & Hr).
    unfold run, get_hrv_data, try_exceptM. rewrite Hr, hrv_loop_skip.
    + rewrite (hrv_loop_found client today k after _ s Hs).
      rewrite range_succ, map_app by lia.
      destruct (hrv_record _ s); reflexivity.
    + intros j Hj. apply Habs. now apply in_range.
  - intros Habs.
    unfold run, get_hrv_data, try_exceptM.
    rewrite <- (app_nil_r (range days)) at 1. rewrite hrv_loop_skip.
    + reflexivity.
    + intros j Hj. apply Habs. now apply in_range.
Qed.

(** X15: when the first HRV summary found has a [status] that is present
    but not a string (null, say), the whole HRV result is null, whatever
    averages the summary carries. *)
Theorem hrv_status_must_be_text (days k : Z) (summary : list (string * pyval)) (v : pyval) :
  0 <= k < days ->
  (forall j, 0 <= j < k -> hrv_absent (hrv_response client today j) = true) ->
  hrv_summary_of (hrv_response client today k) = Some (PDict summary) ->
  lookup "status" summary = Some v ->
  (forall s, v <> PStr s) ->
  fst (run (get_hrv_data client today days)) = Ok PNone.
Proof.
  intros Hk Habs Hs Hst Hv.
  destruct (range_split days k Hk) as (after & Hr).
  unfold run, get_hrv_data, try_exceptM. rewrite Hr, hrv_loop_skip.
  - rewrite (hrv_loop_found client today k after _ _ Hs).
    unfold hrv_record. cbn [py_get bind]. rewrite Hst.
    destruct v; try reflexivity. now elim (Hv s).
  - intros j Hj. apply Habs. now apply in_range.
Qed.
Lemma summary_vars_resting_hr (resp : result pyval) (r : recovery_vars) :
  is_none (resting_hr r) = false ->
  resting_hr (summary_vars resp r) = resting_hr r.
Proof.
  intros Hr. unfold summary_vars.
  destruct resp as [[| | | | | | [|kv d]]|]; try reflexivity.
  cbv zeta. rewrite Hr. cbn [andb].
  destruct (is_none (bodyBattery r) && _); reflexivity.
Qed.

Lemma readiness_vars_resting_hr (resp : result pyval) (r : recovery_vars) :
  resting_hr (readiness_vars resp r) = resting_hr r.
Proof.
  unfold readiness_vars.
  destruct (readiness_group resp) as [[[[s l] ss] h]|]; reflexivity.
Qed.

Lemma day_world_resting_hr (i : Z) (w : recovery_vars * list call) :
  resting_hr (fst (day_world client today i w)) =
  resting_hr (summary_vars (summary_response client today i) (fst w)).
Proof.
  unfold day_world. destruct (is_none (score _)); cbn [fst];
    [apply readiness_vars_resting_hr|reflexivity].
Qed.

Lemma resting_hr_stable (i : Z) (n : nat) :
  0 <= i ->
  is_none (resting_hr (vars_after client today i)) = false ->
  resting_hr (vars_after client today (i + Z.of_nat n)) =
  resting_hr (vars_after client today i).
Proof.
  intros Hi Hb. induction n as [|n IH].
  - now rewrite Z.add_0_r.
  - replace (i + Z.of_nat (S n)) with (i + Z.of_nat n + 1) by lia.
    unfold vars_after at 1. rewrite world_after_succ by lia.
    destruct (have_both _).
    + exact IH.
    + rewrite day_world_resting_hr, summary_vars_resting_hr; [exact IH|].
      fold (vars_after client today (i + Z.of_nat n)). now rewrite IH.
Qed.

(** X16: the resting heart rate is the [restingHeartRate] of the first
    scanned summary where it is truthy: a missing, null or zero value is
    passed over, and once a value is taken no later day changes it. *)
Theorem resting_hr_first_truthy_wins :
  (forall i j, 0 <= i <= j ->
     resting_hr (vars_after client today i) <> PNone ->
     resting_hr (vars_after client today j) =
     resting_hr (vars_after client today i))
  /\ (forall k d,
        0 <= k ->
        have_both (vars_after client today k) = false ->
        resting_hr (vars_after client today k) = PNone ->
        summary_response client today k = Ok (PDict d) ->
        resting_hr (vars_after client today (k + 1)) =
        if truthy (getd d "restingHeartRate")
        then getd d "restingHeartRate" else PNone).
Proof.
  split.
  - intros i j Hij Hb.
    replace j with (i + Z.of_nat (Z.to_nat (j - i))) by lia.
    apply resting_hr_stable; [lia|]. now apply is_none_false.
  - intros k d Hk Hhb Hnone Hresp.
    unfold vars_after at 1. rewrite world_after_succ, Hhb by lia.
    rewrite day_world_resting_hr, Hresp. fold (vars_after client today k).
    unfold summary_vars. destruct d as [|kv d].
    + rewrite Hnone. reflexivity.
    + cbv zeta. rewrite Hnone. cbn [is_none andb].
      destruct (truthy (getd (kv :: d) "restingHeartRate"));
        destruct (is_none (bodyBattery _) && _); cbn; try reflexivity;
        exact Hnone.
Qed.

Lemma day_world_readiness_calls (i : Z) (w : recovery_vars * list call) :
  filter is_readiness_call (snd (day_world client today i w)) =
  (filter is_readiness_call (snd w)
   ++ if is_none (score (fst w))
      then [get_morning_training_readiness (date_ago today i)] else [])%list.
Proof.
  unfold day_world.
  rewrite (score_of_group (summary_vars _ _)), summary_vars_group,
    <- score_of_group.
  destruct (is_none (score (fst w))); cbn [snd]; rewrite !filter_app; simpl;
    now rewrite ?app_nil_r.
Qed.

Lemma day_world_length (i : Z) (w : recovery_vars * list call) :
  (List.length (snd (day_world client today i w)) <= List.length (snd w) + 2)%nat.
Proof.
  unfold day_world. destruct (is_none (score _)); cbn [snd];
    rewrite !length_app; simpl; lia.
Qed.

Lemma score_stable (i : Z) (n : nat) :
  0 <= i ->
  is_none (score (vars_after client today i)) = false ->
  is_none (score (vars_after client today (i + Z.of_nat n))) = false.
Proof.
  intros Hi Hs. rewrite score_of_group, group_stable, <- score_of_group; auto.
Qed.

(** X17: once the score is non-null the readiness endpoint is not called
    again; after [m] days the scan has made at most [2 m] calls, so a whole
    recovery fetch makes at most 14. *)
Theorem readiness_calls_end_with_score :
  (forall k m, 0 <= k <= m ->
     score (vars_after client today k) <> PNone ->
     filter is_readiness_call (calls_after client today m) =
     filter is_readiness_call (calls_after client today k))
  /\ (forall m, 0 <= m ->
        (List.length (calls_after client today m) <= 2 * Z.to_nat m)%nat)
  /\ (List.length (snd (run (get_recovery_data client today))) <= 14)%nat.
Proof.
  assert (Hlen : forall n : nat,
            (List.length (calls_after client today (Z.of_nat n)) <= 2 * n)%nat).
  { induction n as [|n IH]; [simpl; lia|].
    replace (Z.of_nat (S n)) with (Z.of_nat n + 1) by lia.
    unfold calls_after. rewrite world_after_succ by lia.
    fold (calls_after client today (Z.of_nat n)) in *.
    destruct (have_both _).
    - fold (calls_after client today (Z.of_nat n)). lia.
    - pose proof (day_world_length (Z.of_nat n) (world_after client today (Z.of_nat n))).
      fold (calls_after client today (Z.of_nat n)) in H. lia. }
  split; [|split].
  - intros k m Hkm Hs. apply is_none_false in Hs.
    replace m with (k + Z.of_nat (Z.to_nat (m - k))) by lia.
    induction (Z.to_nat (m - k)) as [|n IH].
    + now rewrite Z.add_0_r.
    + replace (k + Z.of_nat (S n)) with (k + Z.of_nat n + 1) by lia.
      unfold calls_after at 1. rewrite world_after_succ by lia.
      destruct (have_both _); [exact IH|].
      rewrite day_world_readiness_calls.
      fold (vars_after client today (k + Z.of_nat n)).
      rewrite (score_stable k n) by (auto; lia).
      rewrite app_nil_r. exact IH.
  - intros m Hm. specialize (Hlen (Z.to_nat m)). now rewrite Z2Nat.id in Hlen.
  - rewrite get_recovery_data_eq. cbn [snd]. apply (Hlen 7%nat).
Qed.

(** X18: when every user-summary and readiness call of the week raises,
    the recovery fetch still returns: all five fields and the resting heart
    rate are null, after the 14 calls of the full window. *)
Theorem recovery_when_every_call_fails :
  (forall i, 0 <= i < 7 -> exists e, summary_response client today i = Raise e) ->
  (forall i, 0 <= i < 7 -> exists e, readiness_response client today i = Raise e) ->
  run (get_recovery_data client today) =
  (Ok (PDict [("score", PNone); ("level", PNone); ("bodyBattery", PNone);
              ("sleepScore", PNone); ("hrvWeeklyAverage", PNone)], PNone),
   flat_map (fun i => [get_user_summary (strftime_ymd (today - i));
                       get_morning_training_readiness (strftime_ymd (today - i))])
            (range 7)).
Proof.
  intros Hs Hr.
  assert (H : forall n : nat, (n <= 7)%nat ->
            world_after client today (Z.of_nat n) =
            (recovery_init,
             flat_map (fun i => [get_user_summary (date_ago today i);
                                 get_morning_training_readiness (date_ago today i)])
                      (range (Z.of_nat n)))).
  { induction n as [|n IH]; intros Hn; [reflexivity|].
    replace (Z.of_nat (S n)) with (Z.of_nat n + 1) by lia.
    rewrite world_after_succ, range_succ, flat_map_app by lia.
    unfold vars_after. rewrite IH by lia. cbn [fst have_both recovery_init score resting_hr is_none negb andb].
    unfold day_world. cbn [fst snd].
    destruct (Hs (Z.of_nat n) ltac:(lia)) as (e1 & ->).
    destruct (Hr (Z.of_nat n) ltac:(lia)) as (e2 & ->).
    cbn. now rewrite <- app_assoc. }
  pose proof (H 7%nat ltac:(lia)) as H7. change (Z.of_nat 7) with 7 in H7.
  rewrite get_recovery_data_eq. unfold vars_after, calls_after.
  rewrite H7. reflexivity.
Qed.
Lemma hrv_loop_frame_full (offsets : list Z) : forall tr,
  hrv_loop client today offsets (tt, tr) =
  (fst (hrv_loop client today offsets (tt, [])),
   (tt, (tr ++ snd (snd (hrv_loop client today offsets (tt, []))))%list)).
Proof.
  induction offsets as [|i rest IH]; intros tr.
  - simpl. unfold ret. now rewrite app_nil_r.
  - cbn [hrv_loop]. unfold bindM, api, lift. cbn [fst snd app].
    destruct (client (get_hrv_data_of (date_ago today i))) as [v|e];
      [|reflexivity].
    destruct (has_hrv_summary v) as [[|]|e]; [| |reflexivity].
    + destruct (py_getitem v "hrvSummary"); reflexivity.
    + rewrite (IH (tr ++ _)%list), (IH [_]). cbn [fst snd].
      now rewrite <- app_assoc.
Qed.

Lemma get_hrv_data_frame (days : Z) (tr : list call) :
  get_hrv_data client today days (tt, tr) =
  (Ok (hrv_result client today days),
   (tt, (tr ++ snd (run (get_hrv_data client today days)))%list)).
Proof.
  unfold hrv_result, run, get_hrv_data, try_exceptM, ret.
  rewrite hrv_loop_frame_full.
  destruct (hrv_loop client today (range days) (tt, [])) as [[v|e] [[] t0]];
    reflexivity.
Qed.

Lemma get_sleep_data_frame_eq (days : Z) (tr : list call) :
  get_sleep_data client today days (tt, tr) =
  (Ok (map (sleep_record client today)
           (filter (keeps_sleep client today) (range days))),
   (tt, (tr ++ map (fun i => get_sleep_data_of (date_ago today i)) (range days))%list)).
Proof.
  unfold get_sleep_data, bindM, with_locals, ret. cbn [snd].
  rewrite sleep_loop_eq. reflexivity.
Qed.

Lemma format_sleep_fetched (days : Z) :
  format_sleep (map (sleep_record client today)
                    (filter (keeps_sleep client today) (range days))) =
  Ok (sleep_result client today days).
Proof.
  unfold sleep_result.
  destruct (filter (keeps_sleep client today) (range days)) as [|i rest] eqn:Hk;
    [reflexivity|].
  simpl map. apply format_sleep_kept.
  assert (Hin : In i (filter (keeps_sleep client today) (range days)))
    by (rewrite Hk; now left).
  apply filter_In in Hin. tauto.
Qed.

(** [main], case by case. *)
Lemma main_result_eq (days : Z) :
  run (main_result client today days) =
  match client (get_activities_by_date (date_ago today days) (date_ago today 0)) with
  | Raise e =>
      (Raise e, [get_activities_by_date (date_ago today days) (date_ago today 0)])
  | Ok activities =>
      match (acts <- py_iter activities ;;
             formatted <- mapM format_activity acts ;;
             stats <- get_stats activities ;;
             Ok (formatted, stats)) with
      | Raise e => (Raise e, fetch_calls client today days)
      | Ok (formatted, stats) =>
          match client get_full_name with
          | Raise e => (Raise e, (fetch_calls client today days ++ [get_full_name])%list)
          | Ok user =>
              (Ok (document client today days user stats formatted),
               (fetch_calls client today days ++ [get_full_name])%list)
          end
      end
  end.
Proof.
  unfold run, main_result, fetch_calls. unfold bindM at 1.
  unfold get_activities, api at 1. cbn [fst snd app].
  destruct (client (get_activities_by_date _ _)) as [acts|e]; [|reflexivity].
  unfold bindM at 1. rewrite get_sleep_data_frame_eq.
  unfold bindM at 1. rewrite get_hrv_data_frame.
  unfold bindM at 1. rewrite get_recovery_data_frame.
  unfold bindM, lift, api, ret. cbn [fst snd app].
  rewrite <- !app_assoc. cbn [app].
  destruct (py_iter acts) as [l|e]; [|reflexivity]. cbn [bind].
  destruct (mapM format_activity l) as [f|e]; [|reflexivity]. cbn [bind].
  destruct (get_stats acts) as [st|e]; [|reflexivity]. cbn [bind].
  rewrite format_sleep_fetched.
  destruct (client get_full_name) as [u|e]; reflexivity.
Qed.

(** X22: [main] builds its document exactly when the activities are
    fetched, can be iterated, formatted and summarised, and the user name is
    fetched; nothing the sleep, HRV, user-summary or readiness endpoints
    answer or raise can make it fail. *)
Theorem main_succeeds_iff (days : Z) :
  (exists doc, fst (run (main_result client today days)) = Ok doc)
  <->
  (exists activities acts formatted stats user,
     client (get_activities_by_date (strftime_ymd (today - days))
                                    (strftime_ymd (today - 0))) = Ok activities
     /\ py_iter activities = Ok acts
     /\ mapM format_activity acts = Ok formatted
     /\ get_stats activities = Ok stats
     /\ client get_full_name = Ok user).
Proof.
  rewrite main_result_eq. unfold date_ago. split.
  - intros (doc & H).
    destruct (client (get_activities_by_date _ _)) as [a|e] eqn:Ha; [|discriminate].
    destruct (py_iter a) as [l|e] eqn:Hl; [|discriminate]. cbn [bind] in H.
    destruct (mapM format_activity l) as [f|e] eqn:Hf; [|discriminate].
    cbn [bind] in H.
    destruct (get_stats a) as [st|e] eqn:Hst; [|discriminate]. cbn [bind] in H.
    destruct (client get_full_name) as [u|e] eqn:Hu; [|discriminate].
    exists a, l, f, st, u. repeat split; assumption.
  - intros (a & l & f & st & u & -> & Hl & Hf & Hst & ->).
    rewrite Hl. cbn [bind]. rewrite Hf. cbn [bind]. rewrite Hst. cbn [bind fst].
    eexists. reflexivity.
Qed.

(** X23: the document of a successful run has the eight keys in the
    order user, period_days, recovery, restingHR, hrv, sleep, stats,
    activities; [period_days] is [--days], the recovery and HRV entries are
    those of the 7-day scans and the sleep entry that of the [--days]
    window; the name is fetched last, after all other calls. *)
Theorem main_document (days : Z) (doc : pyval) :
  fst (run (main_result client today days)) = Ok doc ->
  exists user stats formatted,
    doc = PDict [("user", user);
                 ("period_days", PInt days);
                 ("recovery", recovery_dict (vars_after client today 7));
                 ("restingHR", resting_hr (vars_after client today 7));
                 ("hrv", hrv_result client today 7);
                 ("sleep", sleep_result client today days);
                 ("stats", stats);
                 ("activities", PList formatted)]
    /\ snd (run (main_result client today days)) =
       (fetch_calls client today days ++ [get_full_name])%list.
Proof.
  rewrite main_result_eq.
  destruct (client (get_activities_by_date _ _)) as [a|e]; [|discriminate].
  destruct (py_iter a) as [l|e]; [|discriminate]. cbn [bind].
  destruct (mapM format_activity l) as [f|e]; [|discriminate]. cbn [bind].
  destruct (get_stats a) as [st|e]; [|discriminate]. cbn [bind].
  destruct (client get_full_name) as [u|e]; [|discriminate].
  cbn [fst snd]. intros H. injection H as <-.
  exists u, st, f. split; reflexivity.
Qed.

Lemma mapM_raises {A B : Type} (f : A -> result B) (l : list A) (a : A) (e : exn) :
  In a l -> f a = Raise e -> exists e', mapM f l = Raise e'.
Proof.
  induction l as [|b l IH]; intros Hin Hf; [contradiction|].
  simpl. destruct Hin as [->|Hin].
  - rewrite Hf. eexists. reflexivity.
  - destruct (f b); [|eexists; reflexivity]. cbn [bind].
    destruct (IH Hin Hf) as (e' & ->). eexists. reflexivity.
Qed.

Lemma format_activity_null_distance (items : list (string * pyval)) :
  lookup "distance" items = Some PNone ->
  exists e, format_activity (PDict items) = Raise e.
Proof.
  intros Hd. unfold format_activity. cbn [py_get bind]. 
  destruct (py_get _ "typeKey" _); [|eexists; reflexivity]. cbn [bind].
  destruct (py_slice_to _ 10); [|eexists; reflexivity]. cbn [bind].
  rewrite Hd. eexists. reflexivity.
Qed.

(** X24: one fetched activity whose [distance] is present and null makes
    the whole run fail with an exception, after every fetch has been made
    (division of [None] in [format_activity]). *)
Theorem null_distance_aborts_main (days : Z) (acts : list pyval)
        (items : list (string * pyval)) :
  client (get_activities_by_date (strftime_ymd (today - days))
                                 (strftime_ymd (today - 0))) = Ok (PList acts) ->
  In (PDict items) acts ->
  lookup "distance" items = Some PNone ->
  exists e,
    run (main_result client today days) = (Raise e, fetch_calls client today days).
Proof.
  intros Ha Hin Hd. rewrite main_result_eq. unfold date_ago. rewrite Ha.
  cbn [py_iter bind].
  destruct (format_activity_null_distance items Hd) as (e & He).
  destruct (mapM_raises format_activity acts _ e Hin He) as (e' & ->).
  eexists. reflexivity.
Qed.
End ScanFacts.

(** *** Further properties of the activities *)

(** X19: an activity whose type string does not contain "running", or
    whose distance in miles is not greater than 0, is formatted with a null
    pace. *)
Theorem pace_absent (act out : pyval) (t : string) (distance : float) :
  format_activity act = Ok out ->
  activity_type act = Ok (PStr t) ->
  distance_mi act = Ok distance ->
  contains "running" t = false \/ (0 <? distance)%float = false ->
  field_of out "pace" = Some PNone.
Proof.
  intros H Ht Hd Hno.
  unfold activity_type in Ht. bind_step Ht.
  unfold distance_mi in Hd. bind_step Hd.
  unfold format_activity in H.
  do 12 bind_step H.
  change (py_contains "running" (PStr t)) with (Ok (contains "running" t)) in H.
  unfold bind at 1 in H. cbv beta iota in H.
  assert (Hc : contains "running" t && (0 <? distance)%float = false).
  { destruct Hno as [-> | ->]; [reflexivity|apply andb_false_r]. }
  rewrite Hc in H. unfold bind at 1 in H. cbv beta iota in H.
  do 3 bind_step H. injection H as <-. reflexivity.
Qed.

Lemma stats_step_inv (s s' : stats_vars) (act : pyval) :
  stats_step s act = Ok s' ->
  strength_sessions s' = strength_sessions s + Z_of_bool (has_type "strength" act)
  /\ yoga_sessions s' = yoga_sessions s + Z_of_bool (has_type "yoga" act)
  /\ exists distance duration,
       distance_mi act = Ok distance /\ duration_min act = Ok duration
       /\ (if has_type "running" act
           then py_add (running_miles s) (PFloat distance) = Ok (running_miles s')
                /\ py_add (running_time s) (PFloat duration) = Ok (running_time s')
           else running_miles s' = running_miles s
                /\ running_time s' = running_time s)
       /\ py_add (total_duration s) (PFloat duration) = Ok (total_duration s').
Proof.
  intros H. unfold stats_step in H. do 14 bind_step H. injection H as <-.
  unfold has_type, stats_type, distance_mi, duration_min.
  rewrite Heqr, Heqr1, Heqr3. cbn [bind]. rewrite Heqr0, Heqr2, Heqr4.
  rewrite Heqr8, Heqr11, Heqr12.
  cbn [strength_sessions yoga_sessions running_miles running_time total_duration].
  split; [reflexivity|]. split; [reflexivity|].
  exists a2, a4. split; [reflexivity|]. split; [reflexivity|].
  split; [|assumption].
  destruct a8; [split; assumption|].
  injection Heqr9 as <-. injection Heqr10 as <-. split; reflexivity.
Qed.

Lemma add_all_app (xs ys : list float) : forall acc,
  add_all acc (xs ++ ys) = (a <- add_all acc xs ;; add_all a ys).
Proof.
  induction xs as [|x xs IH]; intros acc; [reflexivity|].
  simpl. destruct (py_add acc (PFloat x)); [apply IH|reflexivity].
Qed.

Lemma add_all_float (xs : list float) : forall x,
  add_all (PFloat x) xs = Ok (PFloat (fold_left PrimFloat.add xs x)).
Proof.
  induction xs as [|y xs IH]; intros x; [reflexivity|].
  simpl. apply IH.
Qed.

Lemma add_all_total (xs : list float) :
  add_all (PInt 0) xs = Ok (float_total xs).
Proof.
  destruct xs as [|x xs]; [reflexivity|].
  simpl. change (py_add (PInt 0) (PFloat x)) with (Ok (PFloat (0 + x)%float)).
  cbn [bind]. apply add_all_float.
Qed.

Lemma stats_loop_inv (acts : list pyval) : forall s s',
  stats_loop acts s = Ok s' ->
  strength_sessions s' = strength_sessions s + count_type "strength" acts
  /\ yoga_sessions s' = yoga_sessions s + count_type "yoga" acts
  /\ add_all (running_miles s) (running_values distance_mi acts)
     = Ok (running_miles s')
  /\ add_all (running_time s) (running_values duration_min acts)
     = Ok (running_time s').
Proof.
  induction acts as [|act acts IH]; intros s s' H.
  - injection H as <-. unfold count_type. simpl. repeat split; lia.
  - simpl in H. bind_step H.
    destruct (stats_step_inv _ _ _ Heqr)
      as (Hst & Hy & d & m & Hd & Hm & Hrun & _).
    destruct (IH _ _ H) as (IHs & IHy & IHm & IHt).
    unfold count_type in *. simpl filter. simpl running_values.
    rewrite Hd, Hm.
    destruct (has_type "running" act), (has_type "strength" act),
      (has_type "yoga" act); cbn [Z_of_bool List.length app] in *;
      destruct Hrun as [Hr1 Hr2]; rewrite ?add_all_app; cbn [add_all bind];
      rewrite ?Hr1, ?Hr2 in *; cbn [bind];
      repeat split; try assumption; lia.
Qed.

Lemma mapM_length {A B : Type} (f : A -> result B) (l : list A) : forall out,
  mapM f l = Ok out -> List.length out = List.length l.
Proof.
  induction l as [|a l IH]; intros out H.
  - now injection H as <-.
  - simpl in H. do 2 bind_step H. injection H as <-. simpl. f_equal. now apply IH.
Qed.

(** X20: [get_stats] counts every activity of the list, a strength
    session for each one whose type contains "strength" and a yoga session
    for each one whose type contains "yoga" (substrings, so subtypes count);
    [total_activities] is also the number of formatted activities. *)
Theorem get_stats_counts (acts : list pyval) (out : pyval) :
  get_stats (PList acts) = Ok out ->
  field_of out "total_activities" = Some (PInt (Z.of_nat (List.length acts)))
  /\ field_of out "strength_sessions" = Some (PInt (count_type "strength" acts))
  /\ field_of out "yoga_sessions" = Some (PInt (count_type "yoga" acts))
  /\ (forall formatted,
        mapM format_activity acts = Ok formatted ->
        field_of out "total_activities" =
        Some (PInt (Z.of_nat (List.length formatted)))).
Proof.
  intros H. unfold get_stats in H. cbn [py_iter bind] in H.
  do 5 bind_step H. injection H as <-.
  destruct (stats_loop_inv _ _ _ Heqr) as (Hs & Hy & _).
  cbn [strength_sessions yoga_sessions stats_init] in Hs, Hy.
  rewrite Hs, Hy. repeat split; try reflexivity.
  intros formatted Hf. now rewrite (mapM_length _ _ _ Hf).
Qed.

(** X21: [running_miles] and [running_time_min] are the distances and
    durations of exactly the activities whose type contains "running", added
    from left to right starting from the int 0 and rounded to 1 and 0
    places; other activities do not contribute. *)
Theorem get_stats_running_totals (acts : list pyval) (out : pyval) :
  get_stats (PList acts) = Ok out ->
  exists miles minutes,
    round_nd (float_total (running_values distance_mi acts)) 1 = Ok miles
    /\ round_nd (float_total (running_values duration_min acts)) 0 = Ok minutes
    /\ field_of out "running_miles" = Some miles
    /\ field_of out "running_time_min" = Some minutes.
Proof.
  intros H. unfold get_stats in H. cbn [py_iter bind] in H.
  do 5 bind_step H. injection H as <-.
  destruct (stats_loop_inv _ _ _ Heqr) as (_ & _ & Hm & Ht).
  cbn [running_miles running_time stats_init] in Hm, Ht.
  rewrite add_all_total in Hm, Ht. injection Hm as Hm. injection Ht as Ht.
  exists a0, a1. rewrite Hm, Ht. repeat split; assumption || reflexivity.
Qed.

(** *** The further theorems on sample providers *)

Lemma get_hrv_data_window_witness :
  hrv_result (hrv_only_day 4) sample_today 7 =
    PDict [("date", PStr "2026-10-30");
           ("weeklyAvg", PInt 45); ("lastNightAvg", PInt 41);
           ("status", PStr "Low Balanced");
           ("baseline", PDict [("balancedLow", PInt 40);
                               ("balancedUpper", PInt 56)])]
  /\ hrv_result (hrv_only_day 4) sample_today 3 = PNone.
Proof.
  destruct (get_hrv_data_window (hrv_only_day 4) sample_today 7) as (Hfound & _).
  destruct (get_hrv_data_window (hrv_only_day 4) sample_today 3) as (_ & Hnone).
  split.
  - rewrite (Hfound 4 sample_summary).
    + reflexivity.
    + lia.
    + intros j Hj. assert (Hc : j = 0 \/ j = 1 \/ j = 2 \/ j = 3) by lia.
      destruct Hc as [-> | [-> | [-> | ->]]]; vm_compute; reflexivity.
    + vm_compute. reflexivity.
  - apply Hnone. intros j Hj. assert (Hc : j = 0 \/ j = 1 \/ j = 2) by lia.
    destruct Hc as [-> | [-> | ->]]; vm_compute; reflexivity.
Defined.

Lemma hrv_scan_stops_at_failure_witness :
  run (get_hrv_data hrv_fails_day1 sample_today 7) =
  (Ok PNone, [get_hrv_data_of "2026-11-03"; get_hrv_data_of "2026-11-02"]).
Proof.
  apply (hrv_scan_stops_at_failure hrv_fails_day1 sample_today 7 1).
  - lia.
  - intros j Hj. assert (j = 0) as -> by lia. vm_compute. reflexivity.
  - vm_compute. reflexivity.
Defined.

Lemma hrv_scan_calls_witness :
  snd (run (get_hrv_data (hrv_only_day 4) sample_today 7)) =
  [get_hrv_data_of "2026-11-03"; get_hrv_data_of "2026-11-02";
   get_hrv_data_of "2026-11-01"; get_hrv_data_of "2026-10-31";
   get_hrv_data_of "2026-10-30"].
Proof.
  apply (proj1 (hrv_scan_calls (hrv_only_day 4) sample_today 7) 4 sample_summary).
  - lia.
  - intros j Hj. assert (Hc : j = 0 \/ j = 1 \/ j = 2 \/ j = 3) by lia.
    destruct Hc as [-> | [-> | [-> | ->]]]; vm_compute; reflexivity.
  - vm_compute. reflexivity.
Defined.

Lemma hrv_status_must_be_text_witness :
  fst (run (get_hrv_data hrv_null_status sample_today 7)) = Ok PNone.
Proof.
  apply (hrv_status_must_be_text hrv_null_status sample_today 7 0
           [("weeklyAvg", PInt 45); ("status", PNone)] PNone).
  - lia.
  - intros j Hj. lia.
  - vm_compute. reflexivity.
  - reflexivity.
  - discriminate.
Defined.

Lemma resting_hr_first_truthy_wins_witness :
  resting_hr (vars_after recovery_sample sample_today 7) =
    resting_hr (vars_after recovery_sample sample_today 3)
  /\ resting_hr (vars_after recovery_sample sample_today (1 + 1)) = PNone.
Proof.
  destruct (resting_hr_first_truthy_wins recovery_sample sample_today)
    as (Hkeep & Hfirst).
  split.
  - apply Hkeep; [lia|]. vm_compute. discriminate.
  - apply (Hfirst 1 [("restingHeartRate", PInt 0);
                     ("bodyBatteryMostRecentValue", PInt 80)]);
      [lia | vm_compute; reflexivity | vm_compute; reflexivity
       | vm_compute; reflexivity].
Defined.

Lemma readiness_calls_end_with_score_witness :
  filter is_readiness_call (calls_after recovery_sample sample_today 7) =
  filter is_readiness_call (calls_after recovery_sample sample_today 3).
Proof.
  apply (proj1 (readiness_calls_end_with_score recovery_sample sample_today) 3 7).
  - lia.
  - vm_compute. discriminate.
Defined.

Lemma recovery_when_every_call_fails_witness :
  fst (run (get_recovery_data provider_down sample_today)) =
  Ok (PDict [("score", PNone); ("level", PNone); ("bodyBattery", PNone);
             ("sleepScore", PNone); ("hrvWeeklyAverage", PNone)], PNone).
Proof.
  rewrite (recovery_when_every_call_fails provider_down sample_today).
  - reflexivity.
  - intros i _. eexists. reflexivity.
  - intros i _. eexists. reflexivity.
Defined.

Lemma pace_absent_witness : field_of formatted_walk "pace" = Some PNone.
Proof.
  apply (pace_absent walk_with_zeros formatted_walk "unknown" 0%float).
  - vm_compute. reflexivity.
  - reflexivity.
  - vm_compute. reflexivity.
  - left. reflexivity.
Defined.

Lemma get_stats_counts_witness :
  field_of three_activities_stats "total_activities" = Some (PInt 3)
  /\ field_of three_activities_stats "strength_sessions" =
     Some (PInt (count_type "strength" three_activities)).
Proof.
  destruct (get_stats_counts three_activities three_activities_stats)
    as (Ht & Hs & _); [vm_compute; reflexivity|].
  split; assumption.
Defined.

Lemma get_stats_running_totals_witness :
  exists miles minutes,
    round_nd (float_total (running_values distance_mi three_activities)) 1 = Ok miles
    /\ round_nd (float_total (running_values duration_min three_activities)) 0
       = Ok minutes
    /\ field_of three_activities_stats "running_miles" = Some miles
    /\ field_of three_activities_stats "running_time_min" = Some minutes.
Proof.
  apply (get_stats_running_totals three_activities three_activities_stats).
  vm_compute. reflexivity.
Defined.

Lemma main_succeeds_iff_witness :
  exists doc, fst (run (main_result provider_down sample_today 3)) = Ok doc.
Proof.
  apply (proj2 (main_succeeds_iff provider_down sample_today 3)).
  exists (PList []), [], [].
  exists (PDict [("running_miles", PInt 0); ("running_time_min", PInt 0);
                 ("strength_sessions", PInt 0); ("yoga_sessions", PInt 0);
                 ("total_activities", PInt 0); ("total_duration_min", PInt 0);
                 ("total_calories", PInt 0)]).
  exists (PStr "Max"). repeat split; reflexivity.
Defined.

Lemma main_document_witness :
  snd (run (main_result provider_down sample_today 2)) =
  (fetch_calls provider_down sample_today 2 ++ [get_full_name])%list.
Proof.
  destruct (main_document provider_down sample_today 2
              (document provider_down sample_today 2 (PStr "Max")
                 (PDict [("running_miles", PInt 0); ("running_time_min", PInt 0);
                         ("strength_sessions", PInt 0); ("yoga_sessions", PInt 0);
                         ("total_activities", PInt 0);
                         ("total_duration_min", PInt 0);
                         ("total_calories", PInt 0)]) []))
    as (u & st & f & _ & Ht); [vm_compute; reflexivity|].
  exact Ht.
Defined.

Lemma null_distance_aborts_main_witness :
  exists e,
    run (main_result
           (serves_activities [run_30min_5mi; PDict strength_null_distance])
           sample_today 3) =
    (Raise e,
     fetch_calls
       (serves_activities [run_30min_5mi; PDict strength_null_distance])
       sample_today 3).
Proof.
  apply (null_distance_aborts_main
           (serves_activities [run_30min_5mi; PDict strength_null_distance])
           sample_today 3 [run_30min_5mi; PDict strength_null_distance]
           strength_null_distance).
  - reflexivity.
  - simpl. tauto.
  - reflexivity.
Defined.

End GarminSyncFacts.

(* ================================================================= *)
(** ** Properties of kokoro-server.py *)

Module KokoroServerFacts.
Import Py KokoroServer.

Lemma string_app_assoc (a b c : string) : (a ++ b) ++ c = a ++ b ++ c.
Proof. induction a as [|x a IH]; [reflexivity|]. simpl. now rewrite IH. Qed.

Lemma escape_char_plain (c : ascii) :
  plain_char c = true -> escape_char c = String c EmptyString.
Proof.
  destruct c as [[] [] [] [] [] [] [] []]; vm_compute; intros H;
    (reflexivity || discriminate H).
Qed.

(** [json.dumps] writes a plain text as it is. *)
Lemma escape_plain (s : string) : plain s = true -> escape s = s.
Proof.
  induction s as [|c s IH]; [reflexivity|].
  unfold plain. simpl. intros H. apply andb_true_iff in H. destruct H as [Hc Hs].
  rewrite (escape_char_plain c Hc), (IH Hs). reflexivity.
Qed.

(** What [_json_response(code, {"error": message})] sends. *)
Lemma error_response (code : Z) (message : string) :
  _json_response code (JObj [("error", JStr message)]) =
  {| status := code; content_type := "application/json";
     content_length := String.length (error_json (escape message));
     body := error_json (escape message) |}.
Proof.
  assert (E : json_dumps (JObj [("error", JStr message)])
              = error_json (escape message)).
  { unfold error_json. cbn [json_dumps]. unfold json_str.
    change (escape "error") with "error".
    rewrite !string_app_assoc. reflexivity. }
  unfold _json_response. rewrite E. reflexivity.
Qed.

Section Facts.

Variable synthesize : engine_call -> result string.

Lemma read_fields_object (d : list (string * pyval)) :
  read_fields (speech_request (PDict d)) =
  bind (py_float (field d "speed" (PFloat 1%float)))
       (fun x => Ok {| text := field d "input" (PStr EmptyString);
                       voice := field d "voice" (PStr "af_heart");
                       speed := x |}).
Proof. reflexivity. Qed.

(** C4, as amended: a POST to /v1/audio/speech whose body is a JSON object
    with a [speed] that [float()] accepts (or none) and an [input] that is
    missing or empty is answered 400 with exactly
    [{"error": "Missing 'input' field"}], and the engine is not called. *)
Theorem missing_input_is_400 (d : list (string * pyval)) (x : float) :
  py_float (field d "speed" (PFloat 1%float)) = Ok x ->
  truthy (field d "input" (PStr EmptyString)) = false ->
  do_POST synthesize (speech_request (PDict d)) =
  ({| status := 400; content_type := "application/json";
      content_length := 34; body := missing_input_body |}, []).
Proof.
  intros Hspeed Hinput.
  unfold do_POST, speech. cbn [path speech_request].
  change ("/v1/audio/speech" =? "/v1/audio/speech")%string with true.
  cbn [negb]. rewrite read_fields_object, Hspeed. cbn [bind text].
  rewrite Hinput. reflexivity.
Qed.

(** C10, as amended: with a non-empty [input], what [float()] makes of the
    [speed] field reaches the engine, with the [voice] value as it is: one
    engine call, no range check, and the answer is the engine's WAV with
    status 200.  A JSON float (zero, negative, huge or infinite) is forwarded
    unchanged; an int is forwarded as the nearest float, and one too large
    for a float is answered 500; a string that [float()] cannot read is
    answered 500.  Whenever [float()] raises, the answer is the 500 JSON
    error [{"error": str(e)}] and the engine is not called. *)
Theorem speed_is_only_converted (d : list (string * pyval)) :
  truthy (field d "input" (PStr EmptyString)) = true ->
  (forall x,
     py_float (field d "speed" (PFloat 1%float)) = Ok x ->
     let c := {| text := field d "input" (PStr EmptyString);
                 voice := field d "voice" (PStr "af_heart");
                 speed := x |} in
     snd (do_POST synthesize (speech_request (PDict d))) = [c]
     /\ forall wav_bytes,
          synthesize c = Ok wav_bytes ->
          fst (do_POST synthesize (speech_request (PDict d))) =
          {| status := 200; content_type := "audio/wav";
             content_length := String.length wav_bytes; body := wav_bytes |})
  /\ (forall x,
        lookup "speed" d = Some (PFloat x) ->
        snd (do_POST synthesize (speech_request (PDict d))) =
        [{| text := field d "input" (PStr EmptyString);
            voice := field d "voice" (PStr "af_heart");
            speed := x |}])
  /\ (forall n,
        lookup "speed" d = Some (PInt n) ->
        match float_of_Z n with
        | Some x =>
            snd (do_POST synthesize (speech_request (PDict d))) =
            [{| text := field d "input" (PStr EmptyString);
                voice := field d "voice" (PStr "af_heart");
                speed := x |}]
        | None =>
            do_POST synthesize (speech_request (PDict d)) =
            ({| status := 500; content_type := "application/json";
                content_length := 46;
                body := error_json "int too large to convert to float" |}, [])
        end)
  /\ (forall s,
        lookup "speed" d = Some (PStr s) ->
        float_of_str s = None ->
        let b := error_json (escape ("could not convert string to float: "
                                     ++ repr_str s)) in
        do_POST synthesize (speech_request (PDict d)) =
        ({| status := 500; content_type := "application/json";
            content_length := String.length b; body := b |}, []))
  /\ (forall e,
        py_float (field d "speed" (PFloat 1%float)) = Raise e ->
        do_POST synthesize (speech_request (PDict d)) =
        ({| status := 500; content_type := "application/json";
            content_length := String.length (error_json (escape (exn_str e)));
            body := error_json (escape (exn_str e)) |}, [])).
Proof.
  intros Hinput.
  assert (Hok : forall x,
             py_float (field d "speed" (PFloat 1%float)) = Ok x ->
             let c := {| text := field d "input" (PStr EmptyString);
                         voice := field d "voice" (PStr "af_heart");
                         speed := x |} in
             do_POST synthesize (speech_request (PDict d)) =
             (match synthesize c with
              | Ok wav_bytes =>
                  {| status := 200; content_type := "audio/wav";
                     content_length := String.length wav_bytes;
                     body := wav_bytes |}
              | Raise e => _json_response 500 (JObj [("error", JStr (exn_str e))])
              end, [c])).
  { intros x Hx c. unfold do_POST, speech. cbn [path speech_request].
    change ("/v1/audio/speech" =? "/v1/audio/speech")%string with true.
    cbn [negb]. rewrite read_fields_object, Hx. cbn [bind text].
    rewrite Hinput. cbn [negb]. fold c.
    destruct (synthesize c); reflexivity. }
  assert (Herr : forall e,
             py_float (field d "speed" (PFloat 1%float)) = Raise e ->
             do_POST synthesize (speech_request (PDict d)) =
             ({| status := 500; content_type := "application/json";
                 content_length := String.length (error_json (escape (exn_str e)));
                 body := error_json (escape (exn_str e)) |}, [])).
  { intros e He. unfold do_POST, speech. cbn [path speech_request].
    change ("/v1/audio/speech" =? "/v1/audio/speech")%string with true.
    cbn [negb]. rewrite read_fields_object, He. cbn [bind].
    now rewrite error_response. }
  split; [|split; [|split; [|split]]].
  - intros x Hx c. rewrite (Hok x Hx). split; [reflexivity|].
    intros wav_bytes Hw. fold c. now rewrite Hw.
  - intros x Hx. rewrite (Hok x); [reflexivity|].
    unfold field. now rewrite Hx.
  - intros n Hn. destruct (float_of_Z n) as [x|] eqn:Hf.
    + rewrite (Hok x); [reflexivity|].
      unfold field. rewrite Hn. cbn [py_float]. now rewrite Hf.
    + rewrite (Herr (Exn OverflowError "int too large to convert to float"));
        [reflexivity|].
      unfold field. rewrite Hn. cbn [py_float]. now rewrite Hf.
  - intros s Hs Hf b. subst b.
    rewrite (Herr (Exn ValueError ("could not convert string to float: "
                                   ++ repr_str s))); [reflexivity|].
    unfold field. rewrite Hs. cbn [py_float]. now rewrite Hf.
  - exact Herr.
Qed.

End Facts.

Lemma missing_input_is_400_witness :
  do_POST sample_engine (speech_request (PDict [("input", PStr EmptyString); ("speed", PInt 2)])) =
  ({| status := 400; content_type := "application/json";
      content_length := 34; body := missing_input_body |}, []).
Proof.
  apply (missing_input_is_400 sample_engine
           [("input", PStr EmptyString); ("speed", PInt 2)] 2%float);
    vm_compute; reflexivity.
Defined.

(** C4 as stated fails: the [speed] field is converted before [input] is
    looked at, and a body that is JSON but not an object has no fields; both
    requests lack an [input] and are answered 500. *)
Lemma missing_input_can_be_500 :
  field [("speed", PNone)] "input" (PStr EmptyString) = PStr EmptyString
  /\ status (fst (do_POST sample_engine (speech_request (PDict [("speed", PNone)])))) = 500
  /\ snd (do_POST sample_engine (speech_request (PDict [("speed", PNone)]))) = []
  /\ status (fst (do_POST sample_engine (speech_request (PList [])))) = 500
  /\ snd (do_POST sample_engine (speech_request (PList []))) = [].
Proof. repeat split; vm_compute; reflexivity. Qed.

Lemma speed_is_only_converted_witness :
  snd (do_POST sample_engine
         (speech_request (PDict [("input", PStr "hi"); ("speed", PFloat (-2.5))]))) =
    [{| text := PStr "hi"; voice := PStr "af_heart"; speed := (-2.5)%float |}]
  /\ snd (do_POST sample_engine
            (speech_request (PDict [("input", PStr "hi"); ("speed", PInt 0)]))) =
     [{| text := PStr "hi"; voice := PStr "af_heart"; speed := 0%float |}]
  /\ do_POST sample_engine
       (speech_request (PDict [("input", PStr "hi"); ("speed", PStr "fast")])) =
     ({| status := 500; content_type := "application/json";
         content_length := 54;
         body := error_json "could not convert string to float: 'fast'" |}, []).
Proof.
  split; [|split].
  - apply (proj1 (proj2 (speed_is_only_converted sample_engine
             [("input", PStr "hi"); ("speed", PFloat (-2.5))] eq_refl))).
    reflexivity.
  - apply (proj1 (speed_is_only_converted sample_engine
             [("input", PStr "hi"); ("speed", PInt 0)] eq_refl) 0%float).
    vm_compute. reflexivity.
  - etransitivity.
    + apply (proj1 (proj2 (proj2 (proj2 (speed_is_only_converted sample_engine
               [("input", PStr "hi"); ("speed", PStr "fast")] eq_refl))))
               "fast"); reflexivity.
    + reflexivity.
Defined.

(** C10 as stated fails for large numbers: the int 2^53 + 1 reaches the
    engine as 2^53, and the int 2^1024 does not reach it at all: the answer
    is the 500 of an overflow. *)
Lemma large_speed_is_not_forwarded_unchanged :
  snd (do_POST sample_engine
         (speech_request (PDict [("input", PStr "hi");
                                 ("speed", PInt (2 ^ 53 + 1))]))) =
    [{| text := PStr "hi"; voice := PStr "af_heart";
        speed := 9007199254740992%float |}]
  /\ float_trunc 9007199254740992%float = Some (2 ^ 53)
  /\ do_POST sample_engine
       (speech_request (PDict [("input", PStr "hi"); ("speed", PInt (2 ^ 1024))])) =
     ({| status := 500; content_type := "application/json";
         content_length := 46;
         body := error_json "int too large to convert to float" |}, []).
Proof. repeat split; vm_compute; reflexivity. Qed.

(** *** Logging *)

(** What decides the logging of a response is the request line. *)
Lemma log_request_eq (requestline : string) (code : Z) :
  log_request requestline code = contains "500" requestline.
Proof. reflexivity. Qed.

(** C9 (a defect of the code): [log_message] tests its first
    argument, which for a response is the request line and not the status.
    A 500 answer to [POST /v1/audio/speech] is not logged although its log
    line contains "500", and a 200 answer to [GET /500] is logged. *)
Theorem error_responses_are_not_logged :
  status (fst (do_POST sample_engine (speech_request (PList [])))) = 500
  /\ percent_format log_request_format (log_request_args speech_requestline 500)
     = Some (dq ++ speech_requestline ++ dq ++ " 500 -")
  /\ contains "500" (dq ++ speech_requestline ++ dq ++ " 500 -") = true
  /\ log_request speech_requestline 500 = false
  /\ status (do_GET "/500") = 200
  /\ log_request "GET /500 HTTP/1.1" 200 = true
  /\ (forall requestline code,
        log_request requestline code = contains "500" requestline).
Proof.
  repeat split; try (vm_compute; reflexivity).
Qed.


(** *** The shape of the answers *)

Section Answers.

Variable synthesize : engine_call -> result string.

(** The five ways a POST ends. *)
Lemma do_POST_cases (req : request) :
  (path req <> "/v1/audio/speech"
   /\ do_POST synthesize req =
      (_json_response 404 (JObj [("error", JStr "Not found. Use POST /v1/audio/speech")]), []))
  \/ (path req = "/v1/audio/speech"
      /\ ((exists e, read_fields req = Raise e
            /\ do_POST synthesize req =
               (_json_response 500 (JObj [("error", JStr (exn_str e))]), []))
          \/ (exists c, read_fields req = Ok c /\ truthy (text c) = false
               /\ do_POST synthesize req =
                  (_json_response 400 (JObj [("error", JStr "Missing 'input' field")]), []))
          \/ (exists c e, read_fields req = Ok c /\ truthy (text c) = true
               /\ synthesize c = Raise e
               /\ do_POST synthesize req =
                  (_json_response 500 (JObj [("error", JStr (exn_str e))]), [c]))
          \/ (exists c wav, read_fields req = Ok c /\ truthy (text c) = true
               /\ synthesize c = Ok wav
               /\ do_POST synthesize req =
                  ({| status := 200; content_type := "audio/wav";
                      content_length := String.length wav; body := wav |}, [c])))).
Proof.
  unfold do_POST, speech.
  destruct (String.eqb_spec (path req) "/v1/audio/speech") as [Hp|Hp].
  - right. split; [exact Hp|]. cbn [negb].
    destruct (read_fields req) as [c|e].
    + destruct (truthy (text c)) eqn:Ht; cbn [negb].
      * destruct (synthesize c) as [wav|e] eqn:Hs.
        -- right; right; right. exists c, wav. cbn [bind]. auto.
        -- right; right; left. exists c, e. cbn [bind]. auto.
      * right; left. exists c. auto.
    + left. exists e. auto.
  - left. split; [exact Hp|reflexivity].
Qed.

(** X1: whatever the request, [do_POST] answers 200, 400, 404 or 500 and
    calls the engine at most once; [Content-Length] is the length of the
    body; a 200 is an [audio/wav] body that the one engine call returned,
    every other answer is [application/json], and a 400 or 404 comes without
    any engine call. *)
Theorem post_response_shape (req : request) :
  let resp := fst (do_POST synthesize req) in
  let calls := snd (do_POST synthesize req) in
  (status resp = 200 \/ status resp = 400 \/ status resp = 404 \/ status resp = 500)
  /\ (List.length calls <= 1)%nat
  /\ content_length resp = String.length (body resp)
  /\ (status resp = 200 ->
      content_type resp = "audio/wav"
      /\ exists c, calls = [c] /\ synthesize c = Ok (body resp))
  /\ (status resp <> 200 -> content_type resp = "application/json")
  /\ (status resp = 400 \/ status resp = 404 -> calls = []).
Proof.
  intros resp calls. subst resp calls.
  destruct (do_POST_cases req)
    as [(_ & ->) | (_ & [(e & _ & ->) | [(c & _ & _ & ->)
        | [(c & e & _ & _ & _ & ->) | (c & wav & _ & _ & Hs & ->)]]])];
    cbn [fst snd _json_response status content_type content_length body List.length];
    repeat split; auto; try lia; try discriminate;
    try (intros [H|H]; discriminate H);
    try (intros H; now elim H);
    try (exists c; auto).
Qed.

(** X2: a POST to any other path is answered 404 with the JSON body
    [{"error": "Not found. Use POST /v1/audio/speech"}], whatever the body of
    the request (it is not read), and the engine is not called. *)
Theorem post_unknown_path (req : request) :
  path req <> "/v1/audio/speech" ->
  do_POST synthesize req =
  ({| status := 404; content_type := "application/json";
      content_length := 49; body := not_found_body |}, []).
Proof.
  intros Hp. unfold do_POST. apply String.eqb_neq in Hp. now rewrite Hp.
Qed.

(** X3: a body of /v1/audio/speech that cannot be read as a JSON object is
    answered 500, never 400, without an engine call: [{"error": str(e)}] for
    the exception that reading or parsing raised (its text as it is when it
    is plain), and the text of the attribute error when the JSON value is not
    an object. *)
Theorem post_unreadable_body (req : request) :
  path req = "/v1/audio/speech" ->
  (forall e, body_json req = Raise e ->
     do_POST synthesize req =
     ({| status := 500; content_type := "application/json";
         content_length := String.length (error_json (escape (exn_str e)));
         body := error_json (escape (exn_str e)) |}, [])
     /\ (plain (exn_str e) = true ->
         body (fst (do_POST synthesize req)) = error_json (exn_str e)))
  /\ (forall v, body_json req = Ok v -> isinstance_dict v = false ->
        let b := error_json ("'" ++ type_name v
                             ++ "' object has no attribute 'get'") in
        do_POST synthesize req =
        ({| status := 500; content_type := "application/json";
            content_length := String.length b; body := b |}, [])).
Proof.
  intros Hp. unfold do_POST, speech, read_fields. rewrite Hp.
  change (negb ("/v1/audio/speech" =? "/v1/audio/speech")%string) with false.
  cbv iota. split.
  - intros e ->. cbn [bind]. rewrite error_response. split; [reflexivity|].
    intros Hpl. cbn [fst body]. now rewrite (escape_plain _ Hpl).
  - intros v -> Hv. destruct v; try discriminate Hv; reflexivity.
Qed.

(** X4: when the engine raises on a well-formed request, the answer is the
    500 JSON error [{"error": str(e)}] carrying the engine's message (as it
    is when it is plain), after exactly one engine call. *)
Theorem post_engine_failure (d : list (string * pyval)) (x : float) (e : exn) :
  truthy (field d "input" (PStr EmptyString)) = true ->
  py_float (field d "speed" (PFloat 1%float)) = Ok x ->
  synthesize {| text := field d "input" (PStr EmptyString);
                voice := field d "voice" (PStr "af_heart");
                speed := x |} = Raise e ->
  do_POST synthesize (speech_request (PDict d)) =
  ({| status := 500; content_type := "application/json";
      content_length := String.length (error_json (escape (exn_str e)));
      body := error_json (escape (exn_str e)) |},
   [{| text := field d "input" (PStr EmptyString);
       voice := field d "voice" (PStr "af_heart");
       speed := x |}])
  /\ (plain (exn_str e) = true ->
      body (fst (do_POST synthesize (speech_request (PDict d))))
      = error_json (exn_str e)).
Proof.
  intros Hin Hx Hs.
  assert (E : do_POST synthesize (speech_request (PDict d)) =
              (_json_response 500 (JObj [("error", JStr (exn_str e))]),
               [{| text := field d "input" (PStr EmptyString);
                   voice := field d "voice" (PStr "af_heart");
                   speed := x |}])).
  { unfold do_POST, speech. cbn [path speech_request].
    change ("/v1/audio/speech" =? "/v1/audio/speech")%string with true.
    cbn [negb]. rewrite read_fields_object, Hx. cbn [bind text].
    rewrite Hin. cbn [negb]. rewrite Hs. reflexivity. }
  rewrite E, error_response. split; [reflexivity|].
  intros Hpl. cbn [fst body]. now rewrite (escape_plain _ Hpl).
Qed.

(** X5: a request that gives only an [input] reaches the engine with the
    voice "af_heart" and the speed 1.0. *)
Theorem post_defaults (d : list (string * pyval)) :
  truthy (field d "input" (PStr EmptyString)) = true ->
  lookup "voice" d = None ->
  lookup "speed" d = None ->
  snd (do_POST synthesize (speech_request (PDict d))) =
  [{| text := field d "input" (PStr EmptyString);
      voice := PStr "af_heart"; speed := 1%float |}].
Proof.
  intros Hin Hv Hs. unfold do_POST, speech. cbn [path speech_request].
  change ("/v1/audio/speech" =? "/v1/audio/speech")%string with true.
  cbn [negb]. rewrite read_fields_object. unfold field at 1 3. rewrite Hs, Hv.
  cbn [py_float bind text]. rewrite Hin. reflexivity.
Qed.
End Answers.

(** X6: every GET is answered 200 with a JSON body whose length is the
    [Content-Length]: the model list for /v1/models, the health report for
    /health, and for any other path the informational message, never a
    404. *)
Theorem get_always_200 (path : string) :
  status (do_GET path) = 200
  /\ content_type (do_GET path) = "application/json"
  /\ content_length (do_GET path) = String.length (body (do_GET path))
  /\ (path = "/v1/models" -> body (do_GET path) = models_body)
  /\ (path = "/health" -> body (do_GET path) = health_body)
  /\ (path <> "/v1/models" -> path <> "/health" ->
      do_GET path =
      {| status := 200; content_type := "application/json";
         content_length := 55; body := message_body |}).
Proof.
  unfold do_GET.
  destruct (String.eqb_spec path "/v1/models");
    [|destruct (String.eqb_spec path "/health")];
    repeat split; try reflexivity; intros; congruence.
Qed.

Lemma printable_app (a b : string) :
  printable (a ++ b) = printable a && printable b.
Proof.
  unfold printable. rewrite PyFacts.list_ascii_app. apply forallb_app.
Qed.

Lemma escape_char_printable (c : ascii) : printable (escape_char c) = true.
Proof.
  destruct c as [[] [] [] [] [] [] [] []]; vm_compute; reflexivity.
Qed.

Lemma escape_printable (s : string) : printable (escape s) = true.
Proof.
  induction s as [|c s IH]; [reflexivity|].
  simpl. now rewrite printable_app, escape_char_printable, IH.
Qed.

Lemma json_str_printable (s : string) : printable (json_str s) = true.
Proof.
  unfold json_str. now rewrite !printable_app, escape_printable.
Qed.

Lemma json_dumps_printable (j : json) : printable (json_dumps j) = true.
Proof.
  revert j. fix IH 1. intros [s | l | items].
  - apply json_str_printable.
  - cbn [json_dumps]. rewrite !printable_app.
    apply andb_true_iff. split; [reflexivity|].
    apply andb_true_iff. split; [|reflexivity].
    induction l as [|x l IHl]; [reflexivity|].
    destruct l as [|y l].
    + apply IH.
    + rewrite !printable_app, IH, IHl. reflexivity.
  - cbn [json_dumps]. rewrite !printable_app.
    apply andb_true_iff. split; [reflexivity|].
    apply andb_true_iff. split; [|reflexivity].
    induction items as [|[k v] l IHl]; [reflexivity|].
    destruct l as [|y l].
    + now rewrite !printable_app, json_str_printable, IH.
    + rewrite !printable_app, json_str_printable, IH, IHl. reflexivity.
Qed.

(** X7: every JSON body the server sends is printable ASCII, whatever text
    the exception carried: the bodies of [do_GET] and every answer of
    [do_POST] other than the 200. *)
Theorem json_bodies_are_ascii :
  (forall path, printable (body (do_GET path)) = true)
  /\ (forall synthesize req,
        status (fst (do_POST synthesize req)) <> 200 ->
        printable (body (fst (do_POST synthesize req))) = true).
Proof.
  split.
  - intros path. unfold do_GET.
    destruct (path =? "/v1/models")%string; [|destruct (path =? "/health")%string];
      apply json_dumps_printable.
  - intros synthesize req.
    destruct (do_POST_cases synthesize req)
      as [(_ & ->) | (_ & [(e & _ & ->) | [(c & _ & _ & ->)
          | [(c & e & _ & _ & _ & ->) | (c & wav & _ & _ & Hs & ->)]]])];
      cbn [fst _json_response status body]; intros H;
      try apply json_dumps_printable.
    now elim H.
Qed.

(** *** The engine singleton *)

Section EngineFacts.

Variable K : Type.
Variable home : string.
Variable import_Kokoro : result unit.
Variable makedirs : string -> result unit.
Variable urlretrieve : string -> string -> download.
Variable Kokoro : string -> string -> result K.

Lemma fetch_if_missing_spec (message url path : string) (fs : list string) :
  let '(r, fs', tr) := fetch_if_missing urlretrieve message url path fs in
  incl fs fs'
  /\ (forall p, In p fs' -> In p fs \/ p = path)
  /\ (r = Ok tt -> path_exists path fs' = true)
  /\ ((path_exists path fs = true /\ tr = [] /\ fs' = fs /\ r = Ok tt)
      \/ (path_exists path fs = false
          /\ tr = [Print message; Urlretrieve url path])).
Proof.
  unfold fetch_if_missing.
  destruct (path_exists path fs) eqn:He.
  - repeat split; auto using incl_refl.
  - destruct (urlretrieve url path) as [|e [|]].
    + repeat split; auto using incl_tl, incl_refl.
      * intros p [<-|Hp]; auto.
      * intros _. unfold path_exists. simpl. now rewrite String.eqb_refl.
    + repeat split; auto using incl_tl, incl_refl.
      * intros p [<-|Hp]; auto.
      * discriminate.
    + repeat split; auto using incl_refl. discriminate.
Qed.

Lemma path_exists_In (path : string) (fs : list string) :
  path_exists path fs = true <-> In path fs.
Proof.
  unfold path_exists. rewrite existsb_exists. split.
  - intros (p & Hp & He). apply String.eqb_eq in He. now subst.
  - intros Hp. exists path. split; [exact Hp|apply String.eqb_refl].
Qed.

(** The outcomes of a call that finds no instance, with the two file checks
    spelled out. *)
Lemma get_kokoro_unset (w : process K) :
  kokoro_instance K w = None ->
  exists r fs tr,
    get_kokoro K home import_Kokoro makedirs urlretrieve Kokoro w =
      (r, {| kokoro_instance := match r with Ok k => Some k | Raise _ => None end;
             files := fs |}, tr)
    /\ incl (files K w) fs
    /\ (forall p, In p fs -> In p (files K w)
                           \/ p = MODEL_PATH home \/ p = VOICES_PATH home)
    /\ (forall p, In p (downloads tr) ->
          ~ In p (files K w) /\ (p = MODEL_PATH home \/ p = VOICES_PATH home))
    /\ match r with
       | Ok k =>
           Kokoro (MODEL_PATH home) (VOICES_PATH home) = Ok k
           /\ In (MODEL_PATH home) fs /\ In (VOICES_PATH home) fs
           /\ exists pre,
                tr = (Makedirs (MODEL_DIR home) :: pre
                      ++ [Print "Loading Kokoro model...";
                          Load (MODEL_PATH home) (VOICES_PATH home);
                          Print "Kokoro model ready."])%list
                /\ loads pre = 0%nat
       | Raise _ => (loads tr <= 1)%nat
       end.
Proof.
  intros Hw. unfold get_kokoro. rewrite Hw.
  destruct w as [inst fs0]. cbn [files kokoro_instance] in *. subst inst.
  destruct import_Kokoro as [[]|e].
  2:{ exists (Raise e), fs0, []. repeat split; auto using incl_refl.
      all: unfold loads; simpl; try contradiction; try lia. }
  destruct (makedirs (MODEL_DIR home)) as [[]|e].
  2:{ exists (Raise e), fs0, [Makedirs (MODEL_DIR home)].
      repeat split; auto using incl_refl.
      all: unfold loads; simpl; try contradiction; try lia. }
  pose proof (fetch_if_missing_spec
                "Downloading Kokoro model (first time, ~80MB int8)..."
                model_url (MODEL_PATH home) fs0) as H1.
  destruct (fetch_if_missing urlretrieve _ model_url (MODEL_PATH home) fs0)
    as [[r1 fs1] tr1].
  destruct H1 as (Hi1 & Ho1 & He1 & Ht1).
  assert (Hd1 : forall p, In p (downloads tr1) ->
                  ~ In p fs0 /\ p = MODEL_PATH home).
  { destruct Ht1 as [(_ & -> & _)|(Hne & ->)]; simpl; [contradiction|].
    intros p [<-|[]]. split; [|reflexivity].
    intros Hin. apply path_exists_In in Hin. congruence. }
  destruct r1 as [[]|e].
  2:{ exists (Raise e), fs1, (Makedirs (MODEL_DIR home) :: tr1).
      split; [reflexivity|]. split; [exact Hi1|]. split.
      { intros p Hp. destruct (Ho1 p Hp); auto. }
      split.
      { intros p Hp. destruct (Hd1 p Hp). auto. }
      destruct Ht1 as [(_ & -> & _)|(_ & ->)]; unfold loads; simpl; lia. }
  pose proof (fetch_if_missing_spec "Downloading voice data..."
                voices_url (VOICES_PATH home) fs1) as H2.
  destruct (fetch_if_missing urlretrieve _ voices_url (VOICES_PATH home) fs1)
    as [[r2 fs2] tr2].
  destruct H2 as (Hi2 & Ho2 & He2 & Ht2).
  assert (Hd2 : forall p, In p (downloads tr2) ->
                  ~ In p fs0 /\ p = VOICES_PATH home).
  { destruct Ht2 as [(_ & -> & _)|(Hne & ->)]; simpl; [contradiction|].
    intros p [<-|[]]. split; [|reflexivity].
    intros Hin. apply Hi1, path_exists_In in Hin. congruence. }
  assert (Hfs : forall p, In p fs2 ->
                  In p fs0 \/ p = MODEL_PATH home \/ p = VOICES_PATH home).
  { intros p Hp. destruct (Ho2 p Hp) as [Hp1 | ->]; auto.
    destruct (Ho1 p Hp1); auto. }
  assert (Hd : forall p, In p (downloads (tr1 ++ tr2)) ->
                 ~ In p fs0 /\ (p = MODEL_PATH home \/ p = VOICES_PATH home)).
  { intros p Hp. unfold downloads in Hp. rewrite flat_map_app in Hp.
    apply in_app_or in Hp. destruct Hp as [Hp|Hp].
    - destruct (Hd1 p Hp). auto.
    - destruct (Hd2 p Hp). auto. }
  assert (Hl : loads (tr1 ++ tr2) = 0%nat).
  { destruct Ht1 as [(_ & -> & _)|(_ & ->)];
      destruct Ht2 as [(_ & -> & _)|(_ & ->)]; reflexivity. }
  destruct r2 as [[]|e].
  2:{ exists (Raise e), fs2, (Makedirs (MODEL_DIR home) :: tr1 ++ tr2)%list.
      split; [reflexivity|].
      split; [eapply incl_tran; eassumption|]. split; [exact Hfs|].
      split; [exact Hd|]. change (loads (tr1 ++ tr2) <= 1)%nat. rewrite Hl. lia. }
  destruct (Kokoro (MODEL_PATH home) (VOICES_PATH home)) as [k|e] eqn:Hk.
  - exists (Ok k), fs2.
    exists (Makedirs (MODEL_DIR home)
            :: (tr1 ++ tr2) ++ [Print "Loading Kokoro model...";
                                Load (MODEL_PATH home) (VOICES_PATH home);
                                Print "Kokoro model ready."])%list.
    split; [cbv zeta; f_equal; simpl; f_equal; rewrite <- !app_assoc; reflexivity|].
    split; [eapply incl_tran; eassumption|]. split; [exact Hfs|]. split.
    + intros p Hp. apply Hd. unfold downloads in *. simpl in Hp.
      rewrite flat_map_app in Hp. simpl in Hp. now rewrite app_nil_r in Hp.
    + split; [reflexivity|]. split; [apply Hi2, path_exists_In; auto|].
      split; [apply path_exists_In; auto|].
      exists (tr1 ++ tr2)%list. split; [reflexivity|exact Hl].
  - exists (Raise e), fs2.
    exists (Makedirs (MODEL_DIR home)
            :: (tr1 ++ tr2) ++ [Print "Loading Kokoro model...";
                                Load (MODEL_PATH home) (VOICES_PATH home)])%list.
    split; [cbv zeta; f_equal; simpl; f_equal; rewrite <- !app_assoc; reflexivity|].
    split; [eapply incl_tran; eassumption|]. split; [exact Hfs|]. split.
    + intros p Hp. apply Hd. unfold downloads in *. simpl in Hp.
      rewrite flat_map_app in Hp. simpl in Hp. now rewrite app_nil_r in Hp.
    + unfold loads in *. cbn [filter]. rewrite filter_app, length_app, Hl.
      simpl. lia.
Qed.

(** X8: once [get_kokoro] has returned an engine it is stored, and the next
    call returns the same engine without any effect: no directory, no
    download, no print, no load.  A call loads the model at most once. *)
Theorem get_kokoro_singleton (w w' : process K) (k : K) (tr : list event) :
  get_kokoro K home import_Kokoro makedirs urlretrieve Kokoro w = (Ok k, w', tr) ->
  kokoro_instance K w' = Some k
  /\ get_kokoro K home import_Kokoro makedirs urlretrieve Kokoro w' = (Ok k, w', [])
  /\ (loads tr <= 1)%nat.
Proof.
  destruct (kokoro_instance K w) as [k0|] eqn:Hi.
  - unfold get_kokoro at 1. rewrite Hi. intros H. injection H as <- <- <-.
    split; [exact Hi|]. split; [|unfold loads; simpl; lia].
    unfold get_kokoro. now rewrite Hi.
  - destruct (get_kokoro_unset w Hi) as (r & fs & tr0 & -> & _ & _ & _ & Hr).
    intros H. injection H as -> <- <-.
    split; [reflexivity|]. split; [reflexivity|].
    destruct Hr as (_ & _ & _ & pre & -> & Hpre).
    unfold loads in *. cbn [filter]. rewrite filter_app, length_app, Hpre.
    simpl. lia.
Qed.

(** X9: a call downloads only the model file and the voices file, and only
    one that does not exist yet; it removes no file and adds no other. *)
Theorem get_kokoro_downloads_missing_only
        (w w' : process K) (r : result K) (tr : list event) :
  get_kokoro K home import_Kokoro makedirs urlretrieve Kokoro w = (r, w', tr) ->
  (forall p, In p (downloads tr) ->
     ~ In p (files K w) /\ (p = MODEL_PATH home \/ p = VOICES_PATH home))
  /\ incl (files K w) (files K w')
  /\ (forall p, In p (files K w') ->
        In p (files K w) \/ p = MODEL_PATH home \/ p = VOICES_PATH home).
Proof.
  destruct (kokoro_instance K w) as [k0|] eqn:Hi.
  - unfold get_kokoro. rewrite Hi. intros H. injection H as <- <- <-.
    split; [intros p []|]. split; [apply incl_refl|auto].
  - destruct (get_kokoro_unset w Hi) as (r0 & fs & tr0 & -> & Hincl & Hfs & Hd & _).
    intros H. injection H as <- <- <-. cbn [files].
    split; [exact Hd|]. split; assumption.
Qed.

(** X10: a call that raises leaves the instance unset, so the next call
    tries again; what the failed call left on disk, a partial file
    included, is not downloaded again. *)
Theorem get_kokoro_failure (w w' : process K) (e : exn) (tr : list event) :
  get_kokoro K home import_Kokoro makedirs urlretrieve Kokoro w = (Raise e, w', tr) ->
  kokoro_instance K w = None
  /\ kokoro_instance K w' = None
  /\ forall r2 w2 tr2,
       get_kokoro K home import_Kokoro makedirs urlretrieve Kokoro w' = (r2, w2, tr2) ->
       forall p, In p (files K w') -> ~ In p (downloads tr2).
Proof.
  destruct (kokoro_instance K w) as [k0|] eqn:Hi.
  - unfold get_kokoro. rewrite Hi. discriminate.
  - intros H. split; [reflexivity|].
    assert (Hi' : kokoro_instance K w' = None).
    { destruct (get_kokoro_unset w Hi) as (r & fs & tr0 & Heq & _).
      rewrite Heq in H. injection H as -> <- _. reflexivity. }
    split; [exact Hi'|].
    intros r2 w2 tr2 H2 p Hp Hdl.
    destruct (get_kokoro_unset w' Hi') as (r & fs & tr0 & Heq & _ & _ & Hd & _).
    rewrite Heq in H2. injection H2 as _ _ <-.
    destruct (Hd p Hdl) as (Hno & _). exact (Hno Hp).
Qed.

(** X11: a first call that succeeds has loaded the engine from the model
    and voices files, both of which exist afterwards; the load comes after
    every download and is the only one. *)
Theorem get_kokoro_success (w w' : process K) (k : K) (tr : list event) :
  kokoro_instance K w = None ->
  get_kokoro K home import_Kokoro makedirs urlretrieve Kokoro w = (Ok k, w', tr) ->
  Kokoro (MODEL_PATH home) (VOICES_PATH home) = Ok k
  /\ In (MODEL_PATH home) (files K w')
  /\ In (VOICES_PATH home) (files K w')
  /\ exists pre,
       tr = (Makedirs (MODEL_DIR home) :: pre
             ++ [Print "Loading Kokoro model...";
                 Load (MODEL_PATH home) (VOICES_PATH home);
                 Print "Kokoro model ready."])%list
       /\ loads pre = 0%nat.
Proof.
  intros Hi H.
  destruct (get_kokoro_unset w Hi) as (r & fs & tr0 & Heq & _ & _ & _ & Hr).
  rewrite Heq in H. injection H as -> <- <-.
  destruct Hr as (Hk & Hm & Hv & pre & -> & Hpre). cbn [files].
  repeat split; try assumption. exists pre. split; [reflexivity|exact Hpre].
Qed.

End EngineFacts.

(** *** The theorems on sample requests and on the sample machine *)

Lemma post_response_shape_witness :
  content_type (fst (do_POST sample_engine
                       (speech_request (PDict [("input", PStr "hi")]))))
  = "audio/wav".
Proof.
  apply (post_response_shape sample_engine
           (speech_request (PDict [("input", PStr "hi")]))).
  reflexivity.
Defined.

Lemma post_unknown_path_witness :
  do_POST sample_engine {| path := "/v1/audio"; body_json := Ok (PList []) |} =
  ({| status := 404; content_type := "application/json";
      content_length := 49; body := not_found_body |}, []).
Proof.
  apply post_unknown_path. simpl. discriminate.
Defined.

Lemma post_unreadable_body_witness :
  do_POST sample_engine (speech_request (PList [])) =
    ({| status := 500; content_type := "application/json";
        content_length := 49;
        body := error_json "'list' object has no attribute 'get'" |}, [])
  /\ body (fst (do_POST sample_engine
                  {| path := "/v1/audio/speech";
                     body_json :=
                       Raise (Exn ValueError
                                "Expecting value: line 1 column 1 (char 0)") |}))
     = error_json "Expecting value: line 1 column 1 (char 0)".
Proof.
  split.
  - apply (proj2 (post_unreadable_body sample_engine (speech_request (PList []))
                    eq_refl) (PList [])); reflexivity.
  - apply (proj1 (post_unreadable_body sample_engine
                    {| path := "/v1/audio/speech";
                       body_json :=
                         Raise (Exn ValueError
                                  "Expecting value: line 1 column 1 (char 0)") |}
                    eq_refl)
                 (Exn ValueError "Expecting value: line 1 column 1 (char 0)"));
      reflexivity.
Defined.

Lemma post_engine_failure_witness :
  body (fst (do_POST failing_engine
               (speech_request
                  (PDict [("input", PStr "hi"); ("voice", PStr "af_nobody")]))))
  = error_json "Voice af_nobody not found in available voices".
Proof.
  apply (post_engine_failure failing_engine
           [("input", PStr "hi"); ("voice", PStr "af_nobody")] 1%float
           (Exn ValueError "Voice af_nobody not found in available voices"));
    reflexivity.
Defined.

Lemma post_defaults_witness :
  snd (do_POST sample_engine (speech_request (PDict [("input", PStr "hi")]))) =
  [{| text := PStr "hi"; voice := PStr "af_heart"; speed := 1%float |}].
Proof.
  apply (post_defaults sample_engine [("input", PStr "hi")]); reflexivity.
Defined.

Lemma get_always_200_witness :
  do_GET "/favicon.ico" =
  {| status := 200; content_type := "application/json";
     content_length := 55; body := message_body |}.
Proof.
  apply (get_always_200 "/favicon.ico"); discriminate.
Defined.

Lemma json_bodies_are_ascii_witness :
  printable (body (fst (do_POST failing_engine
                          (speech_request (PDict [("input", PStr "hi")]))))) = true.
Proof.
  apply (proj2 json_bodies_are_ascii). vm_compute. discriminate.
Defined.

Lemma get_kokoro_singleton_witness :
  get_kokoro nat sample_home import_ok makedirs_ok network_ok loads_ok loaded_process =
  (Ok 1%nat, loaded_process, []).
Proof.
  eapply (get_kokoro_singleton nat sample_home import_ok makedirs_ok network_ok loads_ok
            fresh_process loaded_process 1%nat).
  vm_compute. reflexivity.
Defined.

Lemma get_kokoro_downloads_missing_only_witness :
  incl (files nat model_only_process) (files nat loaded_process)
  /\ forall p, In p [sample_voices_path] ->
       ~ In p (files nat model_only_process)
       /\ (p = MODEL_PATH sample_home \/ p = VOICES_PATH sample_home).
Proof.
  destruct (get_kokoro_downloads_missing_only nat sample_home import_ok makedirs_ok
              network_ok loads_ok model_only_process loaded_process (Ok 1%nat)
              [Makedirs "/home/max/.cache/kokoro-onnx";
               Print "Downloading voice data...";
               Urlretrieve voices_url sample_voices_path;
               Print "Loading Kokoro model...";
               Load sample_model_path sample_voices_path;
               Print "Kokoro model ready."])
    as (Hd & Hi & _); [vm_compute; reflexivity|].
  split; [exact Hi|exact Hd].
Defined.

Lemma get_kokoro_failure_witness :
  kokoro_instance nat partial_process = None
  /\ forall r2 w2 tr2,
       get_kokoro nat sample_home import_ok makedirs_ok network_breaks_on_voices loads_ok
         partial_process = (r2, w2, tr2) ->
       forall p, In p (files nat partial_process) -> ~ In p (downloads tr2).
Proof.
  eapply (fun H => proj2 (get_kokoro_failure nat sample_home import_ok makedirs_ok
            network_breaks_on_voices loads_ok fresh_process partial_process
            (Exn OtherError "retrieval incomplete") _ H)).
  vm_compute. reflexivity.
Defined.

Lemma get_kokoro_success_witness :
  loads_ok (MODEL_PATH sample_home) (VOICES_PATH sample_home) = Ok 1%nat
  /\ In (MODEL_PATH sample_home) (files nat loaded_process)
  /\ In (VOICES_PATH sample_home) (files nat loaded_process).
Proof.
  destruct (get_kokoro_success nat sample_home import_ok makedirs_ok network_ok loads_ok
              fresh_process loaded_process 1%nat
              [Makedirs "/home/max/.cache/kokoro-onnx";
               Print "Downloading Kokoro model (first time, ~80MB int8)...";
               Urlretrieve model_url sample_model_path;
               Print "Downloading voice data...";
               Urlretrieve voices_url sample_voices_path;
               Print "Loading Kokoro model...";
               Load sample_model_path sample_voices_path;
               Print "Kokoro model ready."])
    as (Hk & Hm & Hv & _); [reflexivity | vm_compute; reflexivity|].
  repeat split; assumption.
Defined.

End KokoroServerFacts.
